(** * pdf_to_h5: the per-page geometry reconciliation and manifest pipeline

    A shallow embedding of [backend/scripts/pdf_to_h5.py] and the proofs of
    its specification.  Python values are modelled as follows.

    - [str] is a list of Unicode code points ([pystr]); program literals
      (dict keys, file names) are Rocq strings, turned into code points by
      [u] where they flow into data.
    - [float] is IEEE 754 binary64, Rocq's primitive [float]: same
      rounding, same NaN and infinity behaviour as CPython's float.
    - [int] is [Z].
    - a [dict] with literal keys is an insertion-ordered association list
      inside [json], the type of the values handed to [json.dumps].
    - exceptions are the [Raise] branch of [result]; the output directory
      is a finite map from file names to file contents, threaded through
      the pipeline. *)

From Stdlib Require Import ZArith NArith List String Ascii Bool Floats Lia.
From stdpp Require Import gmap strings list pretty.
Import ListNotations.

Set Warnings "-register-all".
Local Open Scope Z_scope.

(** ** Python strings *)

Module PyStr.

Definition pystr := list N.

(** The code points of an ASCII literal. *)
Definition u (s : string) : pystr :=
  map N_of_ascii (list_ascii_of_string s).

(** [str.isspace] for one code point, the table [str.strip()] uses:
    the characters of bidirectional class WS, B or S and of category Zs. *)
Definition isspace (c : N) : bool :=
  ((9 <=? c) && (c <=? 13) || (28 <=? c) && (c <=? 32)
   || (c =? 133) || (c =? 160) || (c =? 5760)
   || (8192 <=? c) && (c <=? 8202)
   || (c =? 8232) || (c =? 8233) || (c =? 8239) || (c =? 8287)
   || (c =? 12288))%N.

Fixpoint lstrip (s : pystr) : pystr :=
  match s with
  | c :: s' => if isspace c then lstrip s' else s
  | [] => []
  end.

Definition rstrip (s : pystr) : pystr := rev (lstrip (rev s)).

(** [s.strip()] *)
Definition strip (s : pystr) : pystr := rstrip (lstrip s).

(** [s.replace(old, new)] for a two-character [old]. *)
Fixpoint replace2 (o1 o2 : N) (new : pystr) (s : pystr) : pystr :=
  match s with
  | c1 :: ((c2 :: s'') as s') =>
      if ((c1 =? o1) && (c2 =? o2))%N then new ++ replace2 o1 o2 new s''
      else c1 :: replace2 o1 o2 new s'
  | _ => s
  end.

(** [html.escape(s)] with its default [quote=True]. *)
Definition escape_char (c : N) : pystr :=
  if (c =? 38)%N then u "&amp;"
  else if (c =? 60)%N then u "&lt;"
  else if (c =? 62)%N then u "&gt;"
  else if (c =? 34)%N then u "&quot;"
  else if (c =? 39)%N then u "&#x27;"
  else [c].

Definition html_escape (s : pystr) : pystr := concat (map escape_char s).

(** [f"{n:03d}"]: decimal, padded with zeros on the left to three
    characters (the sign, if any, comes first). *)
Definition zfill3 (digits : pystr) : pystr :=
  repeat 48%N (3 - length digits)%nat ++ digits.

Definition format_03d (n : Z) : pystr :=
  if n <? 0 then 45%N :: repeat 48%N (2 - length (u (pretty (- n))))%nat
                        ++ u (pretty (- n))
  else zfill3 (u (pretty n)).

(** [s.encode("utf-8")]: [None] where Python raises UnicodeEncodeError
    (a lone surrogate). *)
Definition utf8_char (c : N) : option (list N) :=
  (if c <? 128 then Some [c]
   else if c <? 2048 then Some [192 + c / 64; 128 + c mod 64]
   else if (55296 <=? c) && (c <=? 57343) then None
   else if c <? 65536 then
     Some [224 + c / 4096; 128 + (c / 64) mod 64; 128 + c mod 64]
   else if c <? 1114112 then
     Some [240 + c / 262144; 128 + (c / 4096) mod 64;
           128 + (c / 64) mod 64; 128 + c mod 64]
   else None)%N.

Fixpoint utf8_encode (s : pystr) : option (list N) :=
  match s with
  | [] => Some []
  | c :: s' =>
      match utf8_char c, utf8_encode s' with
      | Some b, Some bs => Some (b ++ bs)
      | _, _ => None
      end
  end.

End PyStr.
Export PyStr.

(** ** Python floats *)

Module PyFloat.

(** Truth value of a float: [bool(x)] is [x != 0]; NaN is true. *)
Definition truthy (x : float) : bool := negb (PrimFloat.eqb x 0).

(** [max(a, b)]: the second argument replaces the first only when it
    compares greater. *)
Definition py_max (a b : float) : float :=
  if PrimFloat.ltb a b then b else a.

(** [float(n)] for an int: correctly rounded, [None] where Python raises
    OverflowError. *)
Definition of_int (n : Z) : option float :=
  let f := SF2Prim (binary_normalize prec emax n 0 false) in
  if PrimFloat.is_infinity f then None else Some f.

(** [v or d] for an optional float. *)
Definition or_float (v : option float) (d : float) : float :=
  match v with
  | Some x => if truthy x then x else d
  | None => d
  end.

End PyFloat.

(** ** Values handed to [json.dumps] *)

Inductive json :=
| JBool (b : bool)
| JInt (n : Z)
| JFloat (x : float)
| JStr (s : pystr)
| JList (l : list json)
| JDict (kv : list (string * json)).

(** A dict with literal keys, in insertion order. *)
Definition pydict := list (string * json).

(** [d[k]] as [d.get(k)] *)
Fixpoint dict_get (k : string) (d : pydict) : option json :=
  match d with
  | [] => None
  | (k', v) :: d' => if String.eqb k k' then Some v else dict_get k d'
  end.

(** [d[k] = v]: an existing key keeps its place, a new key goes last. *)
Fixpoint dict_set (k : string) (v : json) (d : pydict) : pydict :=
  match d with
  | [] => [(k, v)]
  | (k', v') :: d' =>
      if String.eqb k k' then (k, v) :: d' else (k', v') :: dict_set k v d'
  end.

(** Field access on a [json] value that is a dict. *)
Definition jfield (k : string) (j : json) : option json :=
  match j with
  | JDict d => dict_get k d
  | _ => None
  end.

(** ** Exceptions *)

Inductive exn :=
| EngineError (msg : pystr)      (* raised inside fitz, PIL or pytesseract *)
| IndexError                     (* list index out of range *)
| ValueError (arg : pystr)       (* float() of a string that is no number *)
| OverflowError                  (* int too large to convert to float *)
| FileNotFoundError (path : pystr)
| UnicodeEncodeError.

Inductive result (A : Type) :=
| Ok (a : A)
| Raise (e : exn).
Arguments Ok {A} a.
Arguments Raise {A} e.

Definition rbind {A B} (r : result A) (k : A -> result B) : result B :=
  match r with
  | Ok a => k a
  | Raise e => Raise e
  end.

Declare Scope result_scope.
Delimit Scope result_scope with result.
Notation "x <- r ;; k" := (rbind r (fun x => k))
  (at level 100, r at next level, right associativity) : result_scope.

(** A [for] loop whose body may raise: the first exception ends it. *)
Fixpoint rfold {A B} (body : A -> B -> result A) (l : list B) (acc : A)
  : result A :=
  match l with
  | [] => Ok acc
  | b :: l' => rbind (body acc b) (rfold body l')
  end.

(** ** What the Python runtime supplies

    The decimal rendering and parsing of floats, the rendering of an
    exception and of its traceback, the text of the viewer page, and what
    [print] does with a line are taken as given: the line is written to
    standard output, or [print] raises (UnicodeEncodeError when the codec
    of [sys.stdout] refuses the text) and nothing of the line is
    written. *)

Record runtime := {
  float_repr : float -> pystr;            (* float.__repr__ *)
  float_of_str : pystr -> option float;   (* float(s), None: ValueError *)
  exc_str : exn -> pystr;                 (* str(exc) *)
  format_exc : exn -> pystr;              (* traceback.format_exc() *)
  viewer_template : pystr -> pystr;       (* the f-string of index.html *)
  print_exn : pystr -> option exn         (* print(line): None when the line
                                             is written, the exception
                                             raised otherwise *)
}.

(** ** json.dumps(obj, ensure_ascii=False) *)

Section Dumps.
Context (rt : runtime).

Definition hex_digit (n : N) : N :=
  (if n <? 10 then 48 + n else 87 + n)%N.

Definition json_escape_char (c : N) : pystr :=
  (if c =? 34 then [92; 34]
   else if c =? 92 then u "\\"
   else if c =? 10 then u "\n"
   else if c =? 13 then u "\r"
   else if c =? 9 then u "\t"
   else if c =? 8 then u "\b"
   else if c =? 12 then u "\f"
   else if c <? 32 then u "\u00" ++ [hex_digit (c / 16); hex_digit (c mod 16)]
   else [c])%N.

Definition json_string (s : pystr) : pystr :=
  [34%N] ++ concat (map json_escape_char s) ++ [34%N].

Definition json_float (x : float) : pystr :=
  if negb (PrimFloat.eqb x x) then u "NaN"
  else if PrimFloat.eqb x infinity then u "Infinity"
  else if PrimFloat.eqb x neg_infinity then u "-Infinity"
  else float_repr rt x.

Fixpoint json_dumps (j : json) : pystr :=
  match j with
  | JBool b => if b then u "true" else u "false"
  | JInt n => u (pretty n)
  | JFloat x => json_float x
  | JStr s => json_string s
  | JList l =>
      u "[" ++
      (fix items (l : list json) : pystr :=
         match l with
         | [] => []
         | x :: l' =>
             match l' with
             | [] => json_dumps x
             | _ => json_dumps x ++ u ", " ++ items l'
             end
         end) l ++ u "]"
  | JDict kv =>
      u "{" ++
      (fix members (kv : list (string * json)) : pystr :=
         match kv with
         | [] => []
         | (k, v) :: kv' =>
             match kv' with
             | [] => json_string (u k) ++ u ": " ++ json_dumps v
             | _ => json_string (u k) ++ u ": " ++ json_dumps v
                    ++ u ", " ++ members kv'
             end
         end) kv ++ u "}"
  end.
End Dumps.

(** ** The output directory and the pipeline monad *)

(** Files of the output directory, by their path relative to it. *)
Abbreviation files := (gmap pystr (list N)).

Definition M (A : Type) : Type := files -> files * result A.

Definition mret {A} (a : A) : M A := fun fs => (fs, Ok a).

Definition mbind {A B} (m : M A) (k : A -> M B) : M B :=
  fun fs =>
    match m fs with
    | (fs', Ok a) => k a fs'
    | (fs', Raise e) => (fs', Raise e)
    end.

Definition lift {A} (r : result A) : M A := fun fs => (fs, r).

Declare Scope pipeline_scope.
Delimit Scope pipeline_scope with M.
Notation "x <- m ;; k" := (mbind m (fun x => k))
  (at level 100, m at next level, right associativity) : pipeline_scope.

(** [pix.save(path)].  The output directory is taken to be writable:
    creating it, saving a raster and opening a report for writing raise
    no OSError here, so that every failure of a run comes from an engine,
    from the page loop or from the encoding of a report. *)
Definition save_bytes (path : pystr) (data : list N) : M unit :=
  fun fs => (<[path := data]> fs, Ok tt).

(** [Image.open(path)]: the bytes found at [path]. *)
Definition open_file (path : pystr) : M (list N) :=
  fun fs =>
    match fs !! path with
    | Some data => (fs, Ok data)
    | None => (fs, Raise (FileNotFoundError path))
    end.

(** [path.write_text(s, encoding="utf-8")]: the file is opened, hence
    truncated, before the text is encoded. *)
Definition write_text (path : pystr) (s : pystr) : M unit :=
  fun fs =>
    match utf8_encode s with
    | Some data => (<[path := data]> fs, Ok tt)
    | None => (<[path := []]> fs, Raise UnicodeEncodeError)
    end.

(** ** What the engines return *)

(** A span, line and block of [page.get_text("dict")]; a key that is
    absent is [None] (for the text, bbox, size and font of a span, which
    the code reads with [or], a key that holds None reads the same). *)
Record span_d := {
  span_text : option pystr;
  span_bbox : option (list float);
  span_size : option float;
  span_font : option pystr
}.

Record line_d := { line_spans : option (list span_d) }.

Record block_d := {
  block_type : option Z;
  block_lines : option (list line_d);
  block_bbox : option (list float)
}.

Record text_dict := { td_blocks : option (list block_d) }.

(** [page.get_pixmap(matrix, alpha=False)] and the PNG it saves. *)
Record pixmap := {
  pix_width : Z;
  pix_height : Z;
  pix_png : list N
}.

(** One page of the open document: its rectangle and what each engine
    call on it returns, in the order of the calls. *)
Record page := {
  page_get_pixmap : result pixmap;
  page_rect_width : float;
  page_rect_height : float;
  page_get_text_1 : result text_dict;
  page_get_text_2 : result text_dict
}.

(** A cell of the table [pytesseract.image_to_data] returns. *)
Inductive cell :=
| CInt (n : Z)
| CFloat (x : float)
| CStr (s : pystr).

(** The table, one list per column ([Output.DICT]). *)
Record ocr_dict := {
  ocr_text : list pystr;
  ocr_conf : list cell;
  ocr_left : list cell;
  ocr_top : list cell;
  ocr_width : list cell;
  ocr_height : list cell
}.

Record engines := {
  (* fitz.open(path) and the pages it enumerates *)
  fitz_open : pystr -> result (list page);
  (* pytesseract.image_to_data on an image, for a tesseract command *)
  image_to_data : pystr -> list N -> result ocr_dict
}.

(** ** bbox_to_dict *)

Definition bbox_to_dict (x0 y0 x1 y1 : float) : pydict :=
  [ ("x", JFloat x0);
    ("y", JFloat y0);
    ("w", JFloat (PyFloat.py_max 0 (x1 - x0)));
    ("h", JFloat (PyFloat.py_max 0 (y1 - y0))) ]%string.

(** ** run_pipeline *)

Section Pipeline.
Context (rt : runtime) (eng : engines).

Local Open Scope string_scope.
Local Open Scope list_scope.
Local Open Scope float_scope.

(** [float(n) / d if d else 1.0]: the scale factor of one axis. *)
Definition scale_factor (n : Z) (d : float) : result float :=
  if PyFloat.truthy d then
    match PyFloat.of_int n with
    | Some x => Ok (x / d)
    | None => Raise OverflowError
    end
  else Ok 1.

(** [span.get("text") or ""] *)
Definition span_text_or_empty (span : span_d) : pystr :=
  match span_text span with Some t => t | None => [] end.

(** [(span.get("text") or "").strip()] *)
Definition span_stripped_text (span : span_d) : pystr :=
  strip (span_text_or_empty span).

(** [span.get("bbox") or [0, 0, 0, 0]]: an absent or empty bbox is
    replaced by four zeros (the int 0 of the source is 0.0 wherever it is
    used: under [float] and as a factor of a float). *)
Definition span_bbox_or_zeros (span : span_d) : list float :=
  match span_bbox span with
  | Some ((_ :: _) as b) => b
  | _ => [0; 0; 0; 0]
  end.

(** [str(span.get("font") or "")] *)
Definition span_font_str (span : span_d) : pystr :=
  match span_font span with Some f => f | None => [] end.

(** The body of the innermost loop over spans; [acc] holds
    [span_items_pdf] and [span_items_render]. *)
Definition span_body (sx sy : float) (acc : list json * list json)
    (span : span_d) : list json * list json :=
  let text := span_stripped_text span in
  match text with
  | [] => acc
  | _ :: _ =>
      match span_bbox_or_zeros span with
      | [x0; y0; x1; y1] =>
          let pdf_item :=
            JDict [ ("text", JStr text);
                    ("bbox", JList [JFloat x0; JFloat y0; JFloat x1; JFloat y1]);
                    ("size", JFloat (PyFloat.or_float (span_size span) 0));
                    ("font", JStr (span_font_str span)) ] in
          let item := bbox_to_dict (x0 * sx) (y0 * sy) (x1 * sx) (y1 * sy) in
          let item := dict_set "text" (JStr text) item in
          let item :=
            dict_set "size" (JFloat (PyFloat.or_float (span_size span) 0)) item in
          let item := dict_set "font" (JStr (span_font_str span)) item in
          (fst acc ++ [pdf_item], snd acc ++ [JDict item])
      | _ => acc
      end
  end.

Definition line_body (sx sy : float) (acc : list json * list json)
    (line : line_d) : list json * list json :=
  fold_left (span_body sx sy)
    (match line_spans line with Some l => l | None => [] end) acc.

Definition block_body (sx sy : float) (acc : list json * list json)
    (block : block_d) : list json * list json :=
  match block_type block with
  | Some 0%Z =>
      fold_left (line_body sx sy)
        (match block_lines block with Some l => l | None => [] end) acc
  | _ => acc
  end.

Definition td_block_list (td : text_dict) : list block_d :=
  match td_blocks td with Some l => l | None => [] end.

(** The loop over the text blocks of a page. *)
Definition span_loop (sx sy : float) (td : text_dict)
  : list json * list json :=
  fold_left (block_body sx sy) (td_block_list td) ([], []).

(** The body of the loop over image blocks. *)
Definition image_body (sx sy : float) (image_boxes : list json)
    (block : block_d) : list json :=
  match block_type block with
  | Some 1%Z =>
      match block_bbox block with
      | Some [x0; y0; x1; y1] =>
          image_boxes
            ++ [JDict (bbox_to_dict (x0 * sx) (y0 * sy) (x1 * sx) (y1 * sy))]
      | _ => image_boxes
      end
  | _ => image_boxes
  end.

Definition image_loop (sx sy : float) (td : text_dict) : list json :=
  fold_left (image_body sx sy) (td_block_list td) [].

(** [column[j]] *)
Definition index {A} (column : list A) (j : nat) : result A :=
  match column !! j with
  | Some a => Ok a
  | None => Raise IndexError
  end.

(** [str(c)] for a cell. *)
Definition cell_str (c : cell) : pystr :=
  match c with
  | CInt n => u (pretty n)
  | CFloat x => float_repr rt x
  | CStr s => s
  end.

(** [float(c)] for a cell. *)
Definition cell_float (c : cell) : result float :=
  match c with
  | CInt n =>
      match PyFloat.of_int n with
      | Some x => Ok x
      | None => Raise OverflowError
      end
  | CFloat x => Ok x
  | CStr s =>
      match float_of_str rt s with
      | Some x => Ok x
      | None => Raise (ValueError s)
      end
  end.

(** The [try: conf = float(conf_raw) except Exception: conf = -1] of
    the OCR loop, on [conf_raw = str(c).strip()]. *)
Definition parse_conf (c : cell) : float :=
  match float_of_str rt (strip (cell_str c)) with
  | Some x => x
  | None => -1
  end.

(** The body of the loop over the rows of the OCR table. *)
Definition ocr_body (ocr : ocr_dict) (ocr_boxes : list json) (j : nat)
  : result (list json) :=
  (c <- index (ocr_conf ocr) j ;;
   let conf := parse_conf c in
   if conf <? 0 then Ok ocr_boxes
   else
     l <- rbind (index (ocr_left ocr) j) cell_float ;;
     t <- rbind (index (ocr_top ocr) j) cell_float ;;
     w <- rbind (index (ocr_width ocr) j) cell_float ;;
     h <- rbind (index (ocr_height ocr) j) cell_float ;;
     if (w <=? 1) || (h <=? 1) then Ok ocr_boxes
     else
       Ok (ocr_boxes
             ++ [JDict [ ("x", JFloat l); ("y", JFloat t); ("w", JFloat w);
                         ("h", JFloat h); ("conf", JFloat conf) ]]))%result.

(** [for j in range(len(ocr["text"])): ...] *)
Definition ocr_loop (ocr : ocr_dict) : result (list json) :=
  rfold (ocr_body ocr) (seq 0 (length (ocr_text ocr))) [].

(** [f"assets/page_{page_no:03d}.png"] *)
Definition image_name (page_no : Z) : pystr :=
  u "assets/page_" ++ format_03d page_no ++ u ".png".

(** The tesseract command in force: the module default unless
    [tesseract_path] is a non-empty string. *)
Definition tesseract_cmd (tesseract_path : pystr) : pystr :=
  match tesseract_path with
  | [] => u "tesseract"
  | _ :: _ => tesseract_path
  end.

(** The body of [for i, page in enumerate(doc)]: the page record and the
    text-layer record it appends. *)
Definition page_body (tesseract_path : pystr) (i : nat) (pg : page)
  : M (json * json) :=
  (let page_no := (Z.of_nat i + 1)%Z in
   pix <- lift (page_get_pixmap pg) ;;
   _ <- save_bytes (image_name page_no) (pix_png pix) ;;
   let page_w := page_rect_width pg in
   let page_h := page_rect_height pg in
   sx <- lift (scale_factor (pix_width pix) page_w) ;;
   sy <- lift (scale_factor (pix_height pix) page_h) ;;
   td1 <- lift (page_get_text_1 pg) ;;
   let spans := span_loop sx sy td1 in
   td2 <- lift (page_get_text_2 pg) ;;
   let image_boxes := image_loop sx sy td2 in
   ocr_img <- open_file (image_name page_no) ;;
   ocr <- lift (image_to_data eng (tesseract_cmd tesseract_path) ocr_img) ;;
   ocr_boxes <- lift (ocr_loop ocr) ;;
   mret
     (JDict [ ("pageNumber", JInt page_no);
              ("renderWidth", JInt (pix_width pix));
              ("renderHeight", JInt (pix_height pix));
              ("imagePath", JStr (replace2 92 92 (u "/") (image_name page_no)));
              ("items", JList (snd spans));
              ("ocrBoxes", JList ocr_boxes);
              ("imageBoxes", JList image_boxes) ],
      JDict [ ("page", JInt page_no); ("items", JList (fst spans)) ]))%M.

(** The page loop from page index [i] on; [acc] holds [pages] and
    [text_layers]. *)
Fixpoint page_loop (tesseract_path : pystr) (i : nat) (doc : list page)
    (acc : list json * list json) : M (list json * list json) :=
  match doc with
  | [] => mret acc
  | pg :: doc' =>
      (r <- page_body tesseract_path i pg ;;
       page_loop tesseract_path (S i) doc'
         (fst acc ++ [fst r], snd acc ++ [snd r]))%M
  end.

(** [write_template_html(outdir, title)] *)
Definition write_template_html (title : pystr) : M unit :=
  write_text (u "index.html") (viewer_template rt (html_escape title)).

Definition manifest_of (original_name : pystr) (pages : list json) : json :=
  JDict [ ("sourceFile", JStr original_name);
          ("pageCount", JInt (Z.of_nat (length pages)));
          ("pages", JList pages) ].

(** [run_pipeline]; the state is the content of [outdir], whose two
    [mkdir] calls leave the files as they are (and are taken to succeed,
    see [save_bytes]). *)
Definition run_pipeline (input_pdf original_name tesseract_path : pystr)
  : M json :=
  (doc <- lift (fitz_open eng input_pdf) ;;
   r <- page_loop tesseract_path 0 doc ([], []) ;;
   let pages := fst r in
   let text_layers := snd r in
   _ <- write_text (u "manifest.json")
          (json_dumps rt (manifest_of original_name pages)) ;;
   _ <- write_text (u "text-layer.json") (json_dumps rt (JList text_layers)) ;;
   _ <- write_template_html original_name ;;
   mret (JDict [ ("ok", JBool true);
                 ("pages", JInt (Z.of_nat (length pages)));
                 ("preview", JStr (u "index.html")) ]))%M.

(** ** main *)

(** What a process leaves behind: the lines printed on standard output
    and its exit status. *)
Record outcome := {
  out_files : files;
  out_stdout : list pystr;
  out_exit : Z
}.

(** [print(line)]: the line reaches standard output, or [print] raises
    and nothing is written. *)
Definition print_line (line : pystr) : result (list pystr) :=
  match print_exn rt line with
  | None => Ok [line]
  | Some exc => Raise exc
  end.

(** The [except Exception as exc] handler of [main]: the report is
    printed and [exc] raised again; when [print] itself raises, its
    exception ends the process instead.  Either way the status is 1. *)
Definition handler (exc : exn) (fs : files) : outcome :=
  match
    print_line (json_dumps rt
             (JDict [ ("ok", JBool false);
                      ("error", JStr (exc_str rt exc));
                      ("traceback", JStr (format_exc rt exc)) ]))
  with
  | Ok lines => {| out_files := fs; out_stdout := lines; out_exit := 1 |}
  | Raise _ => {| out_files := fs; out_stdout := []; out_exit := 1 |}
  end.

(** [main()], from the parsed arguments on: the result is printed; an
    exception of the pipeline, or of printing the result, is reported as
    JSON and raised again, which ends the process with status 1.  [fs]
    is what [outdir] holds at the start. *)
Definition main (input outdir original_name tesseract : pystr)
    (fs : files) : outcome :=
  match run_pipeline input original_name tesseract fs with
  | (fs', Ok result) =>
      match print_line (json_dumps rt result) with
      | Ok lines => {| out_files := fs'; out_stdout := lines; out_exit := 0 |}
      | Raise exc => handler exc fs'
      end
  | (fs', Raise exc) => handler exc fs'
  end.

End Pipeline.


(** * The vocabulary of the specification

    The definitions below follow the words of the specification; the
    theorems relate them to the pipeline above. *)

Section Vocabulary.
Context (rt : runtime) (eng : engines).

Local Open Scope string_scope.
Local Open Scope list_scope.
Local Open Scope float_scope.

(** max(0, d) as the Bbox rule uses it. *)
Definition max0 (d : float) : float :=
  if PrimFloat.ltb 0 d then d else 0.

(** The spans the vector extraction walks: those of the text blocks (type
    0), in traversal order block, line, span. *)
Definition text_spans (td : text_dict) : list span_d :=
  flat_map
    (fun b =>
       match block_type b with
       | Some 0%Z =>
           flat_map
             (fun l => match line_spans l with Some s => s | None => [] end)
             (match block_lines b with Some l => l | None => [] end)
       | _ => []
       end)
    (td_block_list td).

(** A span has text when its trimmed text is not empty. *)
Definition span_has_text (sp : span_d) : bool :=
  negb (length (span_stripped_text sp) =? 0)%nat.

(** A span survives when it has text and its bbox, four zeros when it is
    absent or empty, has exactly four components. *)
Definition span_survives (sp : span_d) : bool :=
  span_has_text sp && (length (span_bbox_or_zeros sp) =? 4)%nat.

(** The image blocks (type 1) of a page, in order. *)
Definition image_blocks (td : text_dict) : list block_d :=
  List.filter
    (fun b => match block_type b with Some 1%Z => true | _ => false end)
    (td_block_list td).

(** An image block survives when its bbox is present with exactly four
    components. *)
Definition block_survives (b : block_d) : bool :=
  match block_bbox b with
  | Some l => (length l =? 4)%nat
  | None => false
  end.

(** The record [item] is the raster-space box of the PDF-space box
    (x0, y0, x1, y1) under the scale (sx, sy), normalized by the Bbox
    rule. *)
Definition raster_bbox (sx sy x0 y0 x1 y1 : float) (item : json) : Prop :=
  jfield "x" item = Some (JFloat (x0 * sx))
  /\ jfield "y" item = Some (JFloat (y0 * sy))
  /\ jfield "w" item = Some (JFloat (max0 (x1 * sx - x0 * sx)))
  /\ jfield "h" item = Some (JFloat (max0 (y1 * sy - y0 * sy))).

(** The width and height of a record are numbers that are not negative. *)
Definition nonneg_size (item : json) : Prop :=
  exists w h,
    jfield "w" item = Some (JFloat w) /\ jfield "h" item = Some (JFloat h)
    /\ PrimFloat.leb 0 w = true /\ PrimFloat.leb 0 h = true.

(** The scale factors of a page whose raster is [pix]. *)
Definition page_scale (pg : page) (pix : pixmap) (sx sy : float) : Prop :=
  scale_factor (pix_width pix) (page_rect_width pg) = Ok sx
  /\ scale_factor (pix_height pix) (page_rect_height pg) = Ok sy.

(** The number a cell of the OCR table reports: an integer as the float
    of that integer, a float as it is, a text as the number it spells;
    none when there is no such float. *)
Definition cell_number (c : cell) : option float :=
  match c with
  | CInt n => PyFloat.of_int n
  | CFloat x => Some x
  | CStr s => float_of_str rt s
  end.

(** The text a cell shows: the decimal digits of an integer, the decimal
    rendering of a float, a text as it is. *)
Definition cell_text (c : cell) : pystr :=
  match c with
  | CInt n => u (pretty n)
  | CFloat x => float_repr rt x
  | CStr s => s
  end.

(** The confidence a cell stands for: the number its text spells, the
    white space around it set aside, and -1 when it spells none. *)
Definition confidence (c : cell) : float :=
  match float_of_str rt (strip (cell_text c)) with
  | Some x => x
  | None => -1
  end.

(** Row [j] of the OCR table: its confidence, and the number a geometry
    column reports for it, where the row has such a cell. *)
Definition row_conf (ocr : ocr_dict) (j : nat) : option float :=
  match ocr_conf ocr !! j with
  | Some c => Some (confidence c)
  | None => None
  end.

Definition column_number (column : list cell) (j : nat) : option float :=
  match column !! j with
  | Some c => cell_number c
  | None => None
  end.

(** A fragment is discarded when its confidence is below 0, or its width
    or its height is at most 1. *)
Definition row_discarded (conf w h : float) : bool :=
  (conf <? 0) || (w <=? 1) || (h <=? 1).

Definition row_survives (ocr : ocr_dict) (j : nat) : bool :=
  match row_conf ocr j,
        column_number (ocr_width ocr) j, column_number (ocr_height ocr) j with
  | Some conf, Some w, Some h => negb (row_discarded conf w h)
  | _, _, _ => false
  end.

(** The OcrBox of row [j]: the engine's left, top, width and height as
    they are, and the confidence. *)
Definition ocr_box_of (ocr : ocr_dict) (j : nat) (box : json) : Prop :=
  exists conf l t w h,
    row_conf ocr j = Some conf
    /\ column_number (ocr_left ocr) j = Some l
    /\ column_number (ocr_top ocr) j = Some t
    /\ column_number (ocr_width ocr) j = Some w
    /\ column_number (ocr_height ocr) j = Some h
    /\ box = JDict [ ("x", JFloat l); ("y", JFloat t); ("w", JFloat w);
                     ("h", JFloat h); ("conf", JFloat conf) ].

(** The bounds a kept OcrBox satisfies: its confidence is not below 0 and
    its width and height are not at most 1; so they are at least 0 and
    above 1, unless the value is NaN, which no comparison rejects. *)
Definition ocr_box_bounds (box : json) : Prop :=
  exists conf w h,
    jfield "conf" box = Some (JFloat conf)
    /\ jfield "w" box = Some (JFloat w)
    /\ jfield "h" box = Some (JFloat h)
    /\ PrimFloat.ltb conf 0 = false
    /\ PrimFloat.leb w 1 = false
    /\ PrimFloat.leb h 1 = false
    /\ (PrimFloat.leb 0 conf = true \/ PrimFloat.is_nan conf = true)
    /\ (PrimFloat.ltb 1 w = true \/ PrimFloat.is_nan w = true)
    /\ (PrimFloat.ltb 1 h = true \/ PrimFloat.is_nan h = true).

(** A complete table: every column has a cell for every row of the text
    column, and every geometry cell reports a number. *)
Definition table_complete (ocr : ocr_dict) : Prop :=
  let n := length (ocr_text ocr) in
  (n <= length (ocr_conf ocr))%nat
  /\ Forall
       (fun column =>
          (n <= length column)%nat
          /\ Forall (fun c => exists x, cell_number c = Some x) column)
       [ocr_left ocr; ocr_top ocr; ocr_width ocr; ocr_height ocr].

(** A table the OCR engine can return: every column has a cell for every
    row, and the geometry cells are numbers. *)
Definition table_well_formed (ocr : ocr_dict) : Prop :=
  let n := length (ocr_text ocr) in
  (n <= length (ocr_conf ocr))%nat
  /\ (forall column,
         In column [ocr_left ocr; ocr_top ocr; ocr_width ocr; ocr_height ocr] ->
         (n <= length column)%nat
         /\ Forall (fun c => exists x, cell_float rt c = Ok x) column).

(** The text-layer record of a surviving span: its trimmed text, its raw
    bbox, size and font. *)
Definition text_layer_item (sp : span_d) (item : json) : Prop :=
  exists x0 y0 x1 y1,
    span_bbox_or_zeros sp = [x0; y0; x1; y1]
    /\ item = JDict [ ("text", JStr (span_stripped_text sp));
                      ("bbox", JList [JFloat x0; JFloat y0; JFloat x1; JFloat y1]);
                      ("size", JFloat (PyFloat.or_float (span_size sp) 0));
                      ("font", JStr (span_font_str sp)) ].

(** The manifest record of a surviving span: the raster-space box, then
    text, size and font. *)
Definition manifest_item (sx sy : float) (sp : span_d) (item : json) : Prop :=
  exists x0 y0 x1 y1,
    span_bbox_or_zeros sp = [x0; y0; x1; y1]
    /\ item = JDict [ ("x", JFloat (x0 * sx));
                      ("y", JFloat (y0 * sy));
                      ("w", JFloat (max0 (x1 * sx - x0 * sx)));
                      ("h", JFloat (max0 (y1 * sy - y0 * sy)));
                      ("text", JStr (span_stripped_text sp));
                      ("size", JFloat (PyFloat.or_float (span_size sp) 0));
                      ("font", JStr (span_font_str sp)) ].

(** The manifest record of a surviving image block. *)
Definition image_box (sx sy : float) (b : block_d) (box : json) : Prop :=
  exists x0 y0 x1 y1,
    block_bbox b = Some [x0; y0; x1; y1]
    /\ box = JDict [ ("x", JFloat (x0 * sx));
                     ("y", JFloat (y0 * sy));
                     ("w", JFloat (max0 (x1 * sx - x0 * sx)));
                     ("h", JFloat (max0 (y1 * sy - y0 * sy))) ].

(** The records one span appends to the text layer and to the manifest:
    none or one pair. *)
Definition span_entries (sx sy : float) (sp : span_d) : list (json * json) :=
  let r := span_body sx sy ([], []) sp in combine (fst r) (snd r).

(** A span with a malformed bbox: present, not empty, and not of four
    components. *)
Definition span_malformed (sp : span_d) : bool :=
  match span_bbox sp with
  | Some ((_ :: _) as b) => negb (length b =? 4)%nat
  | _ => false
  end.

(** A span is emitted when its text holds a character that is no white
    space and its bbox is not malformed. *)
Definition span_emitted (sp : span_d) : bool :=
  match span_text sp with
  | Some t => negb (forallb isspace t)
  | None => false
  end
  && negb (span_malformed sp).

(** The PDF-space box (x0, y0, x1, y1) of a span: the four components of
    its bbox; a span whose bbox is absent or empty stands at four
    zeros. *)
Definition span_pdf_box (sp : span_d) (x0 y0 x1 y1 : float) : Prop :=
  span_bbox sp = Some [x0; y0; x1; y1]
  \/ ((span_bbox sp = None \/ span_bbox sp = Some [])
      /\ x0 = 0 /\ y0 = 0 /\ x1 = 0 /\ y1 = 0).

(** The command the OCR engine is run with: the tesseract path given, or
    the engine's default when none is given. *)
Definition ocr_command (tesseract_path cmd : pystr) : Prop :=
  (tesseract_path = [] /\ cmd = u "tesseract")
  \/ (tesseract_path <> [] /\ cmd = tesseract_path).

(** An image block with a malformed bbox: absent, empty, or not of four
    components. *)
Definition image_block_malformed (b : block_d) : bool :=
  match block_type b with
  | Some 1%Z => negb (block_survives b)
  | _ => false
  end.

(** A page tree without the spans that [bad] marks. *)
Definition line_without (bad : span_d -> bool) (l : line_d) : line_d :=
  {| line_spans :=
       match line_spans l with
       | Some s => Some (List.filter (fun sp => negb (bad sp)) s)
       | None => None
       end |}.

Definition block_without (bad : span_d -> bool) (b : block_d) : block_d :=
  {| block_type := block_type b;
     block_lines :=
       match block_lines b with
       | Some l => Some (map (line_without bad) l)
       | None => None
       end;
     block_bbox := block_bbox b |}.

Definition spans_without (bad : span_d -> bool) (td : text_dict) : text_dict :=
  {| td_blocks :=
       match td_blocks td with
       | Some l => Some (map (block_without bad) l)
       | None => None
       end |}.

(** A page tree without the blocks that [bad] marks. *)
Definition blocks_without (bad : block_d -> bool) (td : text_dict) : text_dict :=
  {| td_blocks :=
       match td_blocks td with
       | Some l => Some (List.filter (fun b => negb (bad b)) l)
       | None => None
       end |}.

Definition result_map {A B} (f : A -> B) (r : result A) : result B :=
  match r with
  | Ok a => Ok (f a)
  | Raise e => Raise e
  end.

(** The same page, its trees without the malformed spans and image
    blocks; and the same engines over such pages. *)
Definition page_without_malformed (pg : page) : page :=
  {| page_get_pixmap := page_get_pixmap pg;
     page_rect_width := page_rect_width pg;
     page_rect_height := page_rect_height pg;
     page_get_text_1 :=
       result_map (spans_without span_malformed) (page_get_text_1 pg);
     page_get_text_2 :=
       result_map (blocks_without image_block_malformed) (page_get_text_2 pg) |}.

Definition without_malformed (e : engines) : engines :=
  {| fitz_open :=
       fun path => result_map (map page_without_malformed) (fitz_open e path);
     image_to_data := image_to_data e |}.

(** Two pages with the same extraction results; their rasters may differ. *)
Definition same_but_raster (pg1 pg2 : page) : Prop :=
  page_rect_width pg1 = page_rect_width pg2
  /\ page_rect_height pg1 = page_rect_height pg2
  /\ page_get_text_1 pg1 = page_get_text_1 pg2
  /\ page_get_text_2 pg1 = page_get_text_2 pg2.

(** Writes to the output directory, oldest first, and a step of the
    pipeline whose result and writes do not depend on what the directory
    held before. *)
Definition apply_writes (ws : list (pystr * list N)) (fs : files) : files :=
  fold_left (fun fs w => <[fst w := snd w]> fs) ws fs.

Definition oblivious {A} (m : M A) : Prop :=
  exists ws r, forall fs, m fs = (apply_writes ws fs, r).

(** The file at [path] holds the UTF-8 text of [json.dumps(j)]. *)
Definition written (fs : files) (path : string) (j : json) : Prop :=
  exists data,
    utf8_encode (json_dumps rt j) = Some data /\ fs !! u path = Some data.

(** The outputs of a run over the document [doc]: one manifest record and
    one text-layer record per page, in the two files. *)
Definition run_outputs (input name : pystr) (fs : files) (doc : list page)
    (pages text_layers : list json) : Prop :=
  fitz_open eng input = Ok doc
  /\ length pages = length doc
  /\ length text_layers = length doc
  /\ written fs "manifest.json"
       (JDict [ ("sourceFile", JStr name);
                ("pageCount", JInt (Z.of_nat (length doc)));
                ("pages", JList pages) ])
  /\ written fs "text-layer.json" (JList text_layers).

(** Every page of the document, at its index [k] from 0, has its manifest
    record [rec] and its text-layer record [tl] at the same position, and
    [P k pg rec tl] holds of them. *)
Definition every_page (input name : pystr) (fs : files)
    (P : nat -> page -> json -> json -> Prop) : Prop :=
  exists doc pages text_layers,
    run_outputs input name fs doc pages text_layers
    /\ forall k pg,
         doc !! k = Some pg ->
         exists rec tl,
           pages !! k = Some rec /\ text_layers !! k = Some tl
           /\ P k pg rec tl.

(** The scale factor [s] of an axis of [n] raster pixels and PDF-space
    extent [d]: n/d when d > 0, 1.0 when d is 0. *)
Definition scale_rule (n : Z) (d s : float) : Prop :=
  (PrimFloat.ltb 0 d = true ->
   exists r, PyFloat.of_int n = Some r /\ s = r / d)
  /\ (PrimFloat.eqb d 0 = true -> s = 1).

(** [item] is the normalized raster-space box of the PDF-space box
    (x0, y0, x1, y1), with a width and a height that are not negative. *)
Definition scaled_box (sx sy x0 y0 x1 y1 : float) (item : json) : Prop :=
  raster_bbox sx sy x0 y0 x1 y1 item /\ nonneg_size item.

(** The items and image boxes of a page record are, in order, the scaled
    boxes of the emitted spans and of the image blocks with a bbox of
    four components, under the scale factors of the page. *)
Definition page_boxes_scaled (pg : page) (rec : json) : Prop :=
  exists pix sx sy td1 td2 items boxes,
    page_get_pixmap pg = Ok pix /\ page_scale pg pix sx sy
    /\ scale_rule (pix_width pix) (page_rect_width pg) sx
    /\ scale_rule (pix_height pix) (page_rect_height pg) sy
    /\ page_get_text_1 pg = Ok td1 /\ page_get_text_2 pg = Ok td2
    /\ jfield "items" rec = Some (JList items)
    /\ jfield "imageBoxes" rec = Some (JList boxes)
    /\ Forall2 (fun sp item =>
                  exists x0 y0 x1 y1,
                    span_pdf_box sp x0 y0 x1 y1
                    /\ scaled_box sx sy x0 y0 x1 y1 item)
         (List.filter span_emitted (text_spans td1)) items
    /\ Forall2 (fun b box =>
                  exists x0 y0 x1 y1,
                    block_bbox b = Some [x0; y0; x1; y1]
                    /\ scaled_box sx sy x0 y0 x1 y1 box)
         (List.filter block_survives (image_blocks td2)) boxes.

(** The OCR boxes of a page record are the surviving rows of the table
    the OCR engine returned for the page's raster, as they are. *)
Definition page_ocr_boxes_raw (tesseract_path : pystr) (pg : page)
    (rec : json) : Prop :=
  exists pix cmd ocr boxes,
    page_get_pixmap pg = Ok pix
    /\ ocr_command tesseract_path cmd
    /\ image_to_data eng cmd (pix_png pix) = Ok ocr
    /\ jfield "ocrBoxes" rec = Some (JList boxes)
    /\ Forall2 (ocr_box_of ocr)
         (List.filter (row_survives ocr) (seq 0 (length (ocr_text ocr))))
         boxes.

(** The factors a page record was reconciled with follow the rule. *)
Definition page_scale_rule (pg : page) (rec : json) : Prop :=
  exists pix sx sy td1 td2 items boxes,
    page_get_pixmap pg = Ok pix
    /\ scale_rule (pix_width pix) (page_rect_width pg) sx
    /\ scale_rule (pix_height pix) (page_rect_height pg) sy
    /\ page_get_text_1 pg = Ok td1 /\ page_get_text_2 pg = Ok td2
    /\ jfield "items" rec = Some (JList items)
    /\ jfield "imageBoxes" rec = Some (JList boxes)
    /\ Forall2 (manifest_item sx sy)
         (List.filter span_survives (text_spans td1)) items
    /\ Forall2 (image_box sx sy)
         (List.filter block_survives (image_blocks td2)) boxes.

(** [t] is [s] without the white space around it: what was cut off on
    either side is white space, and [t] neither starts nor ends with
    white space. *)
Definition trimmed (s t : pystr) : Prop :=
  (exists before after,
      s = before ++ t ++ after
      /\ Forall (fun c => isspace c = true) before
      /\ Forall (fun c => isspace c = true) after)
  /\ (forall c r, t = c :: r -> isspace c = false)
  /\ (forall r c, t = r ++ [c] -> isspace c = false).

(** The text of a record is the trimmed text of its span, and is not
    empty. *)
Definition trimmed_text (sp : span_d) (item : json) : Prop :=
  exists t,
    jfield "text" item = Some (JStr t)
    /\ trimmed (span_text_or_empty sp) t /\ t <> [] /\ strip t = t.

(** Both records of a page hold exactly the spans with text (and a
    well-formed bbox), each with its trimmed text. *)
Definition page_texts_trimmed (pg : page) (rec tl : json) : Prop :=
  exists td items layer_items,
    page_get_text_1 pg = Ok td
    /\ jfield "items" rec = Some (JList items)
    /\ jfield "items" tl = Some (JList layer_items)
    /\ Forall2 trimmed_text
         (List.filter span_survives (text_spans td)) items
    /\ Forall2 trimmed_text
         (List.filter span_survives (text_spans td)) layer_items.

(** The text-layer record of a page holds as many spans as its manifest
    record, each with its raw PDF-space bbox. *)
Definition page_text_layer_raw (pg : page) (rec tl : json) : Prop :=
  exists td items layer_items,
    page_get_text_1 pg = Ok td
    /\ jfield "items" rec = Some (JList items)
    /\ jfield "items" tl = Some (JList layer_items)
    /\ length layer_items = length items
    /\ Forall2 (fun sp item =>
                  exists x0 y0 x1 y1,
                    span_pdf_box sp x0 y0 x1 y1
                    /\ jfield "bbox" item
                       = Some (JList [JFloat x0; JFloat y0;
                                      JFloat x1; JFloat y1]))
         (List.filter span_emitted (text_spans td)) layer_items.

(** What a page contributes when the run gets through it: its record in
    the manifest and its record in the text layer. *)
Inductive page_ok (tesseract_path : pystr) (i : nat) (pg : page)
  : json -> json -> Prop :=
| page_ok_intro pix sx sy td1 td2 ocr ocr_boxes :
    page_get_pixmap pg = Ok pix ->
    page_scale pg pix sx sy ->
    page_get_text_1 pg = Ok td1 ->
    page_get_text_2 pg = Ok td2 ->
    image_to_data eng (tesseract_cmd tesseract_path) (pix_png pix) = Ok ocr ->
    ocr_loop rt ocr = Ok ocr_boxes ->
    page_ok tesseract_path i pg
      (JDict [ ("pageNumber", JInt (Z.of_nat i + 1));
               ("renderWidth", JInt (pix_width pix));
               ("renderHeight", JInt (pix_height pix));
               ("imagePath",
                JStr (replace2 92 92 (u "/") (image_name (Z.of_nat i + 1))));
               ("items", JList (snd (span_loop sx sy td1)));
               ("ocrBoxes", JList ocr_boxes);
               ("imageBoxes", JList (image_loop sx sy td2)) ])
      (JDict [ ("page", JInt (Z.of_nat i + 1));
               ("items", JList (fst (span_loop sx sy td1))) ]).

(** The records of the pages of a document, from page index [i] on. *)
Inductive pages_ok (tesseract_path : pystr)
  : nat -> list page -> list json -> list json -> Prop :=
| pages_ok_nil i : pages_ok tesseract_path i [] [] []
| pages_ok_cons i pg doc rec pages tl text_layers :
    page_ok tesseract_path i pg rec tl ->
    pages_ok tesseract_path (S i) doc pages text_layers ->
    pages_ok tesseract_path i (pg :: doc) (rec :: pages) (tl :: text_layers).

End Vocabulary.

(** * A document and engines for the examples *)

Module Sample.

Local Open Scope string_scope.
Local Open Scope list_scope.
Local Open Scope Z_scope.

(** The sign and the magnitude of a float that is a whole number. *)
Definition float_integral (x : float) : option (bool * Z) :=
  match Prim2SF x with
  | S754_zero s => Some (s, 0)
  | S754_finite s m e =>
      if 0 <=? e then Some (s, Zpos m * 2 ^ e)
      else if (Zpos m) mod 2 ^ (- e) =? 0
           then Some (s, Zpos m / 2 ^ (- e))
           else None
  | _ => None
  end.

(** [repr] of NaN and of the whole numbers below 10^16, as CPython prints
    them; a question mark stands for every other value. *)
Definition sample_float_repr (x : float) : pystr :=
  if PrimFloat.is_nan x then u "nan"
  else
    match float_integral x with
    | Some (s, z) =>
        if z <? 10 ^ 16
        then (if s then u "-" else []) ++ u (pretty z) ++ u ".0"
        else u "?"
    | None => u "?"
    end.

Fixpoint digits_value (acc : Z) (s : pystr) : option Z :=
  match s with
  | [] => Some acc
  | c :: s' =>
      if ((48 <=? c) && (c <=? 57))%N
      then digits_value (10 * acc + Z.of_N (c - 48)) s'
      else None
  end.

Definition parse_int (s : pystr) : option Z :=
  match s with
  | [] => None
  | 45%N :: ((_ :: _) as d) =>
      match digits_value 0 d with
      | Some z => Some (- z)
      | None => None
      end
  | _ => digits_value 0 s
  end.

(** [float(s)] on the text nan and on decimal integers, as CPython
    converts them; every other text is refused. *)
Definition sample_float_of_str (s : pystr) : option float :=
  if decide (s = u "nan") then Some nan
  else
    match parse_int s with
    | Some z => PyFloat.of_int z
    | None => None
    end.

Definition sample_exc_str (e : exn) : pystr :=
  match e with
  | EngineError msg => msg
  | IndexError => u "list index out of range"
  | ValueError arg => u "could not convert string to float: " ++ arg
  | OverflowError => u "int too large to convert to float"
  | FileNotFoundError path => u "No such file or directory: " ++ path
  | UnicodeEncodeError => u "'utf-8' codec can't encode character"
  end.

Definition sample_runtime : runtime :=
  {| float_repr := sample_float_repr;
     float_of_str := sample_float_of_str;
     exc_str := sample_exc_str;
     format_exc :=
       fun e => u "Traceback (most recent call last): " ++ sample_exc_str e;
     viewer_template :=
       fun title => u "<!doctype html><title>" ++ title
                    ++ u " - H5 Preview</title>";
     (* a standard output in UTF-8 *)
     print_exn :=
       fun s =>
         match utf8_encode s with
         | Some _ => None
         | None => Some UnicodeEncodeError
         end |}.

(** A span with text around white space and a four-component bbox. *)
Definition span_hello : span_d :=
  {| span_text := Some (u "  Hello ");
     span_bbox := Some [100; 100; 200; 120]%float;
     span_size := Some 12%float;
     span_font := Some (u "Helvetica") |}.

(** A span of white space only. *)
Definition span_blank : span_d :=
  {| span_text := Some (u "   ");
     span_bbox := Some [0; 0; 10; 10]%float;
     span_size := Some 12%float;
     span_font := Some (u "Helvetica") |}.

(** A span whose bbox has three components. *)
Definition span_three : span_d :=
  {| span_text := Some (u "x");
     span_bbox := Some [1; 2; 3]%float;
     span_size := Some 9%float;
     span_font := None |}.

(** A span with text and no bbox. *)
Definition span_no_bbox : span_d :=
  {| span_text := Some (u "y");
     span_bbox := None;
     span_size := None;
     span_font := Some (u "Courier") |}.

(** A span whose bbox runs right to left: x1 < x0. *)
Definition span_flipped : span_d :=
  {| span_text := Some (u "z");
     span_bbox := Some [50; 10; 40; 30]%float;
     span_size := Some 10%float;
     span_font := Some (u "Courier") |}.

Definition sample_text_block : block_d :=
  {| block_type := Some 0;
     block_lines :=
       Some [ {| line_spans := Some [span_hello; span_blank] |};
              {| line_spans := Some [span_three; span_flipped] |} ];
     block_bbox := Some [100; 100; 200; 120]%float |}.

Definition sample_image_block : block_d :=
  {| block_type := Some 1;
     block_lines := None;
     block_bbox := Some [10; 20; 110; 220]%float |}.

Definition sample_image_block_no_bbox : block_d :=
  {| block_type := Some 1; block_lines := None; block_bbox := None |}.

Definition sample_text_dict : text_dict :=
  {| td_blocks :=
       Some [sample_text_block; sample_image_block; sample_image_block_no_bbox] |}.

(** A US Letter page rendered at zoom 2. *)
Definition sample_page : page :=
  {| page_get_pixmap :=
       Ok {| pix_width := 1224; pix_height := 1584; pix_png := [137; 80; 78; 71]%N |};
     page_rect_width := 612;
     page_rect_height := 792;
     page_get_text_1 := Ok sample_text_dict;
     page_get_text_2 := Ok sample_text_dict |}.

(** The same page rendered at zoom 3. *)
Definition sample_page_zoom3 : page :=
  {| page_get_pixmap :=
       Ok {| pix_width := 1836; pix_height := 2376; pix_png := [137; 80; 78; 71; 3]%N |};
     page_rect_width := 612;
     page_rect_height := 792;
     page_get_text_1 := Ok sample_text_dict;
     page_get_text_2 := Ok sample_text_dict |}.

(** A page whose rendering fails. *)
Definition broken_page : page :=
  {| page_get_pixmap := Raise (EngineError (u "cannot render page"));
     page_rect_width := 612;
     page_rect_height := 792;
     page_get_text_1 := Ok sample_text_dict;
     page_get_text_2 := Ok sample_text_dict |}.

(** An OCR table: a good row, a row of confidence -1, a row of width 1,
    and a row whose confidence is not a number. *)
Definition sample_ocr : ocr_dict :=
  {| ocr_text := [u "Hello"; u ""; u "i"; u "??"];
     ocr_conf := [CInt 96; CStr (u "-1"); CInt 90; CStr (u "abc")];
     ocr_left := [CInt 200; CInt 0; CInt 30; CInt 7];
     ocr_top := [CInt 200; CInt 0; CInt 40; CInt 8];
     ocr_width := [CInt 200; CInt 1224; CInt 1; CInt 20];
     ocr_height := [CInt 40; CInt 1584; CInt 12; CInt 20] |}.

(** An OCR table with one row, whose confidence reads nan. *)
Definition nan_ocr : ocr_dict :=
  {| ocr_text := [u "Hello"];
     ocr_conf := [CStr (u "nan")];
     ocr_left := [CInt 200];
     ocr_top := [CInt 200];
     ocr_width := [CInt 200];
     ocr_height := [CInt 40] |}.

Definition sample_engines : engines :=
  {| fitz_open :=
       fun path =>
         if decide (path = u "in.pdf") then Ok [sample_page; sample_page]
         else if decide (path = u "broken.pdf") then Ok [sample_page; broken_page]
         else Raise (EngineError (u "no such file"));
     image_to_data := fun _ _ => Ok sample_ocr |}.

(** The same document rendered at another zoom. *)
Definition zoom3_engines : engines :=
  {| fitz_open :=
       fun path =>
         if decide (path = u "in.pdf") then Ok [sample_page_zoom3; sample_page_zoom3]
         else Raise (EngineError (u "no such file"));
     image_to_data := fun _ _ => Ok sample_ocr |}.

(** A page whose only span has text and no bbox. *)
Definition page_no_bbox : page :=
  {| page_get_pixmap :=
       Ok {| pix_width := 1224; pix_height := 1584; pix_png := [137; 80; 78; 71]%N |};
     page_rect_width := 612;
     page_rect_height := 792;
     page_get_text_1 :=
       Ok {| td_blocks :=
               Some [ {| block_type := Some 0;
                         block_lines :=
                           Some [ {| line_spans := Some [span_no_bbox] |} ];
                         block_bbox := None |} ] |};
     page_get_text_2 := Ok {| td_blocks := Some [] |} |}.

(** The run on the same document rendered at zoom 3, into a directory
    that already holds a file. *)
Definition zoom3_run : files * result json :=
  run_pipeline sample_runtime zoom3_engines
    (u "in.pdf") (u "report.pdf") [] {[ u "manifest.json" := [0%N] ]}.

(** A run on the sample document into an empty directory. *)
Definition sample_run : files * result json :=
  run_pipeline sample_runtime sample_engines
    (u "in.pdf") (u "report.pdf") [] ∅.

Definition sample_result : json :=
  JDict [ ("ok", JBool true); ("pages", JInt 2);
          ("preview", JStr (u "index.html")) ].

End Sample.

(** * The vocabulary of the further properties *)

Section FurtherVocabulary.
Context (rt : runtime) (eng : engines).

Local Open Scope string_scope.
Local Open Scope list_scope.

(** A decimal digit, and a code point at or above U+0020, that is, none
    of the control characters U+0000 to U+001F (line feed and carriage
    return among them). *)
Definition is_digit (c : N) : Prop := (48 <= c <= 57)%N.

Definition printable (c : N) : Prop := (32 <= c)%N.

(** The object [main] reports a failure with, and the object a run over
    [n] pages returns. *)
Definition failure_object (exc : exn) : json :=
  JDict [ ("ok", JBool false);
          ("error", JStr (exc_str rt exc));
          ("traceback", JStr (format_exc rt exc)) ].

Definition success_object (n : nat) : json :=
  JDict [ ("ok", JBool true);
          ("pages", JInt (Z.of_nat n));
          ("preview", JStr (u "index.html")) ].

(** A standard output that takes every ASCII line. *)
Definition stdout_ascii : Prop :=
  forall s, Forall (fun c => (c < 128)%N) s -> print_exn rt s = None.


(** The characters [html.escape] replaces besides the ampersand. *)
Definition markup (c : N) : Prop :=
  c = 60%N \/ c = 62%N \/ c = 34%N \/ c = 39%N.

(** A surrogate code point, which UTF-8 refuses. *)
Definition surrogate (c : N) : Prop := (55296 <= c <= 57343)%N.

(** A text of white space only (the empty text included). *)
Definition blank (s : pystr) : Prop := Forall (fun c => isspace c = true) s.

(** The paths of the page rasters: those that start with assets/page_. *)
Definition asset_path (path : pystr) : Prop :=
  exists rest, path = u "assets/page_" ++ rest.

(** The three files written after the page loop. *)
Definition report_paths : list pystr :=
  [u "manifest.json"; u "text-layer.json"; u "index.html"].

(** Text blocks and image blocks. *)
Definition is_text_block (b : block_d) : bool :=
  match block_type b with Some 0%Z => true | _ => false end.

Definition is_image_block (b : block_d) : bool :=
  match block_type b with Some 1%Z => true | _ => false end.

(** A page on which every engine call returns, whose raster sizes convert
    to float and whose OCR table is well formed. *)
Definition page_well_behaved (tesseract_path : pystr) (pg : page) : Prop :=
  exists pix td1 td2 ocr,
    page_get_pixmap pg = Ok pix
    /\ PyFloat.of_int (pix_width pix) <> None
    /\ PyFloat.of_int (pix_height pix) <> None
    /\ page_get_text_1 pg = Ok td1
    /\ page_get_text_2 pg = Ok td2
    /\ image_to_data eng (tesseract_cmd tesseract_path) (pix_png pix) = Ok ocr
    /\ table_well_formed rt ocr.

(** The width (or height) [w] the Bbox rule stores for the extent [d]:
    [d] when it is positive and 0.0 otherwise, never NaN and never
    negative. *)
Definition normalized_extent (d w : float) : Prop :=
  PrimFloat.is_nan w = false
  /\ PrimFloat.leb 0 w = true
  /\ ((PrimFloat.ltb 0 d = true /\ w = d)
      \/ (PrimFloat.ltb 0 d = false /\ w = 0%float)).

(** A code point UTF-8 encodes, and a text of such code points. *)
Definition valid_code_point (c : N) : Prop :=
  (c < 55296 \/ 57343 < c < 1114112)%N.

Definition valid_code_pointb (c : N) : bool :=
  ((c <? 55296) || ((57343 <? c) && (c <? 1114112)))%N.

Definition encodable (s : pystr) : Prop := Forall valid_code_point s.

(** [R] holds of every string and [F] of every float inside a value. *)
Fixpoint json_leaves (R : pystr -> Prop) (F : float -> Prop) (j : json)
  : Prop :=
  match j with
  | JStr s => R s
  | JFloat x => F x
  | JList l =>
      (fix all (l : list json) : Prop :=
         match l with
         | [] => True
         | x :: l' => json_leaves R F x /\ all l'
         end) l
  | JDict kv =>
      (fix all (kv : list (string * json)) : Prop :=
         match kv with
         | [] => True
         | (_, v) :: kv' => json_leaves R F v /\ all kv'
         end) kv
  | _ => True
  end.

(** A runtime whose renderings UTF-8 encodes: the decimal text of a float,
    and the viewer page of an encodable title. *)
Definition runtime_encodable : Prop :=
  (forall x, encodable (float_repr rt x))
  /\ (forall title, encodable title -> encodable (viewer_template rt title)).

(** A page whose span texts and fonts UTF-8 encodes. *)
Definition page_encodable (pg : page) : Prop :=
  forall td,
    page_get_text_1 pg = Ok td ->
    Forall (fun sp => encodable (span_text_or_empty sp)
                      /\ encodable (span_font_str sp))
      (text_spans td).

(** The exceptions the OCR loop itself can raise. *)
Definition ocr_loop_error (e : exn) : Prop :=
  e = IndexError \/ e = OverflowError \/ exists s, e = ValueError s.

End FurtherVocabulary.

(** More samples: an OCR table with no geometry at all, a ragged one, and
    a source name with a lone surrogate. *)
Module MoreSamples.

Definition ocr_noise_only : ocr_dict :=
  {| ocr_text := [u ""; u "x"];
     ocr_conf := [CStr (u "-1"); CStr (u "abc")];
     ocr_left := [];
     ocr_top := [];
     ocr_width := [];
     ocr_height := [] |}.

Definition ocr_ragged : ocr_dict :=
  {| ocr_text := [u "a"; u "b"];
     ocr_conf := [CInt 96];
     ocr_left := [CInt 1; CInt 2];
     ocr_top := [CInt 1; CInt 2];
     ocr_width := [CInt 10; CInt 10];
     ocr_height := [CInt 10; CInt 10] |}.

(** report, a lone surrogate, .pdf *)
Definition surrogate_name : pystr := u "report" ++ [56448%N] ++ u ".pdf".

(** A run on the broken document, into a directory that holds an older
    manifest and a file of the user. *)
Definition old_files : files :=
  {[ u "manifest.json" := [123; 125]%N; u "notes.txt" := [104; 105]%N ]}.

Definition broken_run : files * result json :=
  run_pipeline Sample.sample_runtime Sample.sample_engines
    (u "broken.pdf") (u "report.pdf") [] old_files.

Definition sample_run_over_old_files : files * result json :=
  run_pipeline Sample.sample_runtime Sample.sample_engines
    (u "in.pdf") (u "report.pdf") [] old_files.

(** Engines that cannot open the document, and say so with its name. *)
Definition unreadable_engines : engines :=
  {| fitz_open :=
       fun path => Raise (EngineError (u "cannot open file " ++ path));
     image_to_data := fun _ _ => Ok Sample.sample_ocr |}.

(** [main] on a document whose name holds a lone surrogate and that
    cannot be opened. *)
Definition unreadable_main : outcome :=
  main Sample.sample_runtime unreadable_engines
    surrogate_name (u "out") (u "report.pdf") [] ∅.

Definition surrogate_run : files * result json :=
  run_pipeline Sample.sample_runtime Sample.sample_engines
    (u "in.pdf") surrogate_name [] old_files.

End MoreSamples.

(** * Properties *)

(** ** Comparisons of binary64 values *)

Module FloatFacts.

Ltac by_cases x :=
  rewrite ?FloatAxioms.ltb_spec, ?FloatAxioms.leb_spec, ?FloatAxioms.eqb_spec;
  destruct (Prim2SF x) as [[]| [] | | [] ? ?]; vm_compute; congruence.

Lemma lt_zero_not_eq (x : float) :
  PrimFloat.ltb 0 x = true -> PrimFloat.eqb x 0 = false.
Proof. by_cases x. Qed.

Lemma lt_zero_le (x : float) :
  PrimFloat.ltb 0 x = true -> PrimFloat.leb 0 x = true.
Proof. by_cases x. Qed.

Lemma lt_zero_not_neg (x : float) :
  PrimFloat.ltb 0 x = true -> PrimFloat.ltb x 0 = false.
Proof. by_cases x. Qed.

Lemma max_zero_nonneg (d : float) :
  PrimFloat.leb 0 (PyFloat.py_max 0 d) = true.
Proof.
  unfold PyFloat.py_max. destruct (PrimFloat.ltb 0 d) eqn:E.
  - now apply lt_zero_le.
  - reflexivity.
Qed.

Lemma max_zero_not_neg (d : float) :
  PrimFloat.ltb (PyFloat.py_max 0 d) 0 = false.
Proof.
  unfold PyFloat.py_max. destruct (PrimFloat.ltb 0 d) eqn:E.
  - now apply lt_zero_not_neg.
  - reflexivity.
Qed.

Lemma SFcompare_swap (x y : spec_float) :
  SFcompare y x = option_map CompOpp (SFcompare x y).
Proof.
  destruct x as [[]|[]| |[] m1 e1], y as [[]|[]| |[] m2 e2];
    simpl; try reflexivity;
    rewrite (Z.compare_antisym e1 e2);
    destruct (e1 ?= e2)%Z; simpl; try reflexivity;
    rewrite (Pos.compare_cont_antisym m1 m2 Eq); simpl;
    try rewrite CompOpp_involutive; reflexivity.
Qed.

Ltac nan_side E a b :=
  destruct (Prim2SF a) as [[]|[]| |[] ? ?]; simpl; auto;
  destruct (Prim2SF b) as [[]|[]| |[] ? ?]; simpl; auto;
  simpl in E; discriminate.

(** [a <= b] fails only when [b < a] or one of the two is NaN. *)
Lemma not_le_lt (a b : float) :
  PrimFloat.leb a b = false ->
  PrimFloat.ltb b a = true
  \/ PrimFloat.eqb a a = false \/ PrimFloat.eqb b b = false.
Proof.
  rewrite FloatAxioms.ltb_spec, FloatAxioms.leb_spec, !FloatAxioms.eqb_spec.
  unfold SFleb, SFltb, SFeqb.
  rewrite (SFcompare_swap (Prim2SF a) (Prim2SF b)).
  destruct (SFcompare (Prim2SF a) (Prim2SF b)) as [[]|] eqn:E;
    simpl; auto; try discriminate.
  intros _. right. nan_side E a b.
Qed.

(** [a < b] fails only when [b <= a] or one of the two is NaN. *)
Lemma not_lt_le (a b : float) :
  PrimFloat.ltb a b = false ->
  PrimFloat.leb b a = true
  \/ PrimFloat.eqb a a = false \/ PrimFloat.eqb b b = false.
Proof.
  rewrite FloatAxioms.ltb_spec, FloatAxioms.leb_spec, !FloatAxioms.eqb_spec.
  unfold SFleb, SFltb, SFeqb.
  rewrite (SFcompare_swap (Prim2SF a) (Prim2SF b)).
  destruct (SFcompare (Prim2SF a) (Prim2SF b)) as [[]|] eqn:E;
    simpl; auto; try discriminate.
  intros _. right. nan_side E a b.
Qed.

Lemma not_lt_zero (x : float) :
  PrimFloat.ltb x 0 = false ->
  PrimFloat.leb 0 x = true \/ PrimFloat.eqb x x = false.
Proof.
  intros H. destruct (not_lt_le _ _ H) as [?|[?|?]]; auto. discriminate.
Qed.

Lemma not_le_one (x : float) :
  PrimFloat.leb x 1 = false ->
  PrimFloat.ltb 1 x = true \/ PrimFloat.eqb x x = false.
Proof.
  intros H. destruct (not_le_lt _ _ H) as [?|[?|?]]; auto. discriminate.
Qed.

End FloatFacts.

(** ** Stripping *)

Module StripFacts.

Lemma lstrip_nonspace (c : N) (s : pystr) :
  isspace c = false -> lstrip (c :: s) = c :: s.
Proof. intros H. simpl. now rewrite H. Qed.

Lemma lstrip_head (s : pystr) (c : N) (t : pystr) :
  lstrip s = c :: t -> isspace c = false.
Proof.
  induction s as [|a s IH]; simpl; [discriminate|].
  destruct (isspace a) eqn:E; [exact IH|].
  intros H. now inversion H; subst.
Qed.

Lemma lstrip_idem (s : pystr) : lstrip (lstrip s) = lstrip s.
Proof.
  destruct (lstrip s) as [|c t] eqn:E; [reflexivity|].
  apply lstrip_nonspace. eapply lstrip_head; eauto.
Qed.

Lemma lstrip_snoc (s : pystr) (c : N) :
  isspace c = false -> lstrip (s ++ [c]) = lstrip s ++ [c].
Proof.
  intros H. induction s as [|a s IH]; simpl.
  - now rewrite H.
  - destruct (isspace a); [exact IH|reflexivity].
Qed.

Lemma rstrip_idem (s : pystr) : rstrip (rstrip s) = rstrip s.
Proof. unfold rstrip. now rewrite rev_involutive, lstrip_idem. Qed.

Lemma rstrip_cons (c : N) (s : pystr) :
  isspace c = false -> rstrip (c :: s) = c :: rstrip s.
Proof.
  intros H. unfold rstrip. simpl rev at 2.
  rewrite lstrip_snoc by exact H. now rewrite rev_app_distr.
Qed.

(** Stripping a stripped string changes nothing. *)
Lemma strip_idem (s : pystr) : strip (strip s) = strip s.
Proof.
  unfold strip. destruct (lstrip s) as [|c t] eqn:E; [reflexivity|].
  pose proof (lstrip_head _ _ _ E) as Hc.
  rewrite (rstrip_cons c t Hc), (lstrip_nonspace c _ Hc).
  rewrite (rstrip_cons c _ Hc). now rewrite rstrip_idem.
Qed.

(** A stripped string neither starts nor ends with white space. *)
Lemma strip_first (s : pystr) (c : N) (t : pystr) :
  strip s = c :: t -> isspace c = false.
Proof.
  unfold strip. destruct (lstrip s) as [|a r] eqn:E.
  - discriminate.
  - pose proof (lstrip_head _ _ _ E) as Ha.
    rewrite (rstrip_cons a r Ha). intros H. now inversion H; subst.
Qed.

Lemma strip_last (s t : pystr) (c : N) :
  strip s = t ++ [c] -> isspace c = false.
Proof.
  unfold strip, rstrip. intros H.
  apply (f_equal (@rev N)) in H.
  rewrite rev_involutive, rev_app_distr in H. simpl in H.
  eapply lstrip_head; eauto.
Qed.

Lemma lstrip_nil (s : pystr) : lstrip s = [] <-> forallb isspace s = true.
Proof.
  induction s as [|c s IH]; simpl; [tauto|].
  destruct (isspace c); simpl; [exact IH|].
  split; discriminate.
Qed.

(** The trimmed text is empty exactly when the text is white space only. *)
Lemma strip_nil (s : pystr) : strip s = [] <-> forallb isspace s = true.
Proof.
  rewrite <- lstrip_nil. unfold strip.
  destruct (lstrip s) as [|c t] eqn:E; [tauto|].
  rewrite (rstrip_cons c t (lstrip_head _ _ _ E)).
  split; discriminate.
Qed.

Lemma lstrip_cut (s : pystr) :
  exists before,
    s = before ++ lstrip s /\ Forall (fun c => isspace c = true) before.
Proof.
  induction s as [|a s (before & Hs & Hb)]; simpl.
  - exists []. split; [reflexivity|constructor].
  - destruct (isspace a) eqn:E.
    + exists (a :: before). split; [simpl; congruence|now constructor].
    + exists []. split; [reflexivity|constructor].
Qed.

Lemma rstrip_cut (s : pystr) :
  exists after,
    s = rstrip s ++ after /\ Forall (fun c => isspace c = true) after.
Proof.
  unfold rstrip. destruct (lstrip_cut (rev s)) as (before & Hs & Hb).
  exists (rev before). split.
  - rewrite <- rev_app_distr, <- Hs. now rewrite rev_involutive.
  - now apply Forall_rev.
Qed.

(** Stripping cuts white space off both ends, and all of it. *)
Lemma strip_trimmed (s : pystr) : trimmed s (strip s).
Proof.
  split; [|split].
  - destruct (lstrip_cut s) as (before & Hs & Hb).
    destruct (rstrip_cut (lstrip s)) as (after & Hl & Ha).
    exists before, after. split; [|split; assumption].
    unfold strip. now rewrite <- Hl.
  - intros c r. apply strip_first.
  - intros r c. apply strip_last.
Qed.

End StripFacts.

(** ** Loops that append *)

Module LoopFacts.

(** A loop whose body appends the entries [e b] of each element to a
    pair of lists yields the entries of all elements, in order. *)
Lemma fold_left_pairs {A B C} (e : B -> list (A * C))
    (body : list A * list C -> B -> list A * list C) :
  (forall acc b,
      body acc b = (fst acc ++ map fst (e b), snd acc ++ map snd (e b))) ->
  forall l acc,
    fold_left body l acc
    = (fst acc ++ map fst (flat_map e l), snd acc ++ map snd (flat_map e l)).
Proof.
  intros Hbody l. induction l as [|b l IH]; intros acc; simpl.
  - rewrite !app_nil_r. now destruct acc.
  - rewrite IH, Hbody. simpl. rewrite !map_app, !app_assoc. reflexivity.
Qed.

Lemma fold_left_appends {A B} (e : B -> list A)
    (body : list A -> B -> list A) :
  (forall acc b, body acc b = acc ++ e b) ->
  forall l acc, fold_left body l acc = acc ++ flat_map e l.
Proof.
  intros Hbody l. induction l as [|b l IH]; intros acc; simpl.
  - now rewrite app_nil_r.
  - rewrite IH, Hbody, app_assoc. reflexivity.
Qed.

Lemma flat_map_flat_map {A B C} (f : A -> list B) (g : B -> list C)
    (l : list A) :
  flat_map g (flat_map f l) = flat_map (fun a => flat_map g (f a)) l.
Proof.
  induction l as [|a l IH]; simpl; [reflexivity|].
  now rewrite flat_map_app, IH.
Qed.

(** Entries that are dropped or kept by a test: the kept elements and
    the entries correspond one to one, in order. *)
Lemma Forall2_filter_flat_map {A B} (keep : A -> bool) (e : A -> list B)
    (R : A -> B -> Prop) :
  (forall a, keep a = false -> e a = []) ->
  (forall a, keep a = true -> exists b, e a = [b] /\ R a b) ->
  forall l, Forall2 R (List.filter keep l) (flat_map e l).
Proof.
  intros Hdrop Hkeep l. induction l as [|a l IH]; simpl.
  - constructor.
  - destruct (keep a) eqn:E.
    + destruct (Hkeep a E) as (b & -> & HR). simpl. now constructor.
    + now rewrite (Hdrop a E).
Qed.

(** The same for a loop whose body may raise. *)
Lemma rfold_Forall2 {A B} (keep : B -> bool) (R : B -> A -> Prop)
    (body : list A -> B -> result (list A)) :
  (forall acc b acc',
      body acc b = Ok acc' ->
      (keep b = false /\ acc' = acc)
      \/ (keep b = true /\ exists x, acc' = acc ++ [x] /\ R b x)) ->
  forall l acc out,
    rfold body l acc = Ok out ->
    exists new, out = acc ++ new /\ Forall2 R (List.filter keep l) new.
Proof.
  intros Hbody l. induction l as [|b l IH]; intros acc out; simpl.
  - intros [= <-]. exists []. split; [now rewrite app_nil_r|constructor].
  - destruct (body acc b) as [acc'|e] eqn:E; simpl; [|discriminate].
    intros Hrest. destruct (IH _ _ Hrest) as (new & -> & Hnew).
    destruct (Hbody _ _ _ E) as [[Hk ->]|(Hk & x & -> & HR)]; rewrite Hk.
    + now exists new.
    + exists (x :: new). split; [now rewrite <- app_assoc|now constructor].
Qed.

End LoopFacts.

(** ** The loops of a page *)

Section PageFacts.
Context (rt : runtime) (eng : engines).

Local Open Scope string_scope.
Local Open Scope list_scope.

Lemma Forall2_map_fst {A B C} (R : A -> B -> Prop) (Q : A -> C -> Prop)
    (l : list A) (k : list (B * C)) :
  Forall2 (fun a p => R a (fst p) /\ Q a (snd p)) l k ->
  Forall2 R l (map fst k) /\ Forall2 Q l (map snd k).
Proof.
  induction 1 as [|a p l k [HR HQ] _ [IH1 IH2]]; simpl; split;
    constructor; assumption.
Qed.

Lemma span_body_entries (sx sy : float) (acc : list json * list json)
    (sp : span_d) :
  span_body sx sy acc sp
  = (fst acc ++ map fst (span_entries sx sy sp),
     snd acc ++ map snd (span_entries sx sy sp)).
Proof.
  destruct acc as [a1 a2]. unfold span_entries, span_body.
  destruct (span_stripped_text sp) as [|c t]; simpl;
    [now rewrite !app_nil_r|].
  destruct (span_bbox_or_zeros sp) as [|x0 [|y0 [|x1 [|y1 [|z r]]]]]; simpl;
    now rewrite ?app_nil_r.
Qed.

(** The span loop yields the entries of the spans of the text blocks, in
    traversal order. *)
Lemma span_loop_entries (sx sy : float) (td : text_dict) :
  span_loop sx sy td
  = (map fst (flat_map (span_entries sx sy) (text_spans td)),
     map snd (flat_map (span_entries sx sy) (text_spans td))).
Proof.
  unfold span_loop, text_spans.
  rewrite (LoopFacts.fold_left_pairs
             (fun b => match block_type b with
                       | Some 0%Z =>
                           flat_map
                             (fun l => flat_map (span_entries sx sy)
                                         (match line_spans l with
                                          | Some s => s | None => [] end))
                             (match block_lines b with
                              | Some l => l | None => [] end)
                       | _ => []
                       end)).
  - simpl. rewrite LoopFacts.flat_map_flat_map. f_equal; f_equal;
      apply flat_map_ext; intros b;
      destruct (block_type b) as [[| |]|]; try reflexivity;
      now rewrite LoopFacts.flat_map_flat_map.
  - intros acc b. unfold block_body.
    destruct (block_type b) as [[| |]|]; simpl;
      try (rewrite !app_nil_r; now destruct acc).
    apply (LoopFacts.fold_left_pairs
             (fun l => flat_map (span_entries sx sy)
                         (match line_spans l with
                          | Some s => s | None => [] end))).
    intros acc' l. unfold line_body.
    apply LoopFacts.fold_left_pairs. apply span_body_entries.
Qed.

Lemma span_entries_dropped (sx sy : float) (sp : span_d) :
  span_survives sp = false -> span_entries sx sy sp = [].
Proof.
  unfold span_survives, span_has_text, span_entries, span_body.
  destruct (span_stripped_text sp) as [|c t]; simpl; [reflexivity|].
  destruct (span_bbox_or_zeros sp) as [|x0 [|y0 [|x1 [|y1 [|z r]]]]]; simpl;
    try reflexivity; discriminate.
Qed.

Lemma span_entries_kept (sx sy : float) (sp : span_d) :
  span_survives sp = true ->
  exists entry,
    span_entries sx sy sp = [entry]
    /\ text_layer_item sp (fst entry) /\ manifest_item sx sy sp (snd entry).
Proof.
  unfold span_survives, span_has_text, span_entries, span_body,
    text_layer_item, manifest_item.
  destruct (span_stripped_text sp) as [|c t]; simpl; [discriminate|].
  destruct (span_bbox_or_zeros sp) as [|x0 [|y0 [|x1 [|y1 [|z r]]]]]; simpl;
    try discriminate.
  intros _. eexists. split; [reflexivity|]. simpl.
  split; exists x0, y0, x1, y1; split; reflexivity.
Qed.

(** The span loop appends, for each surviving span and for no other, one
    record to each of its two lists. *)
Lemma span_loop_spec (sx sy : float) (td : text_dict) :
  Forall2 text_layer_item
    (List.filter span_survives (text_spans td)) (fst (span_loop sx sy td))
  /\ Forall2 (manifest_item sx sy)
       (List.filter span_survives (text_spans td)) (snd (span_loop sx sy td)).
Proof.
  rewrite span_loop_entries. simpl. apply Forall2_map_fst.
  apply LoopFacts.Forall2_filter_flat_map.
  - apply span_entries_dropped.
  - apply span_entries_kept.
Qed.

(** The image loop appends one box for each surviving image block. *)
Lemma image_loop_spec (sx sy : float) (td : text_dict) :
  Forall2 (image_box sx sy)
    (List.filter block_survives (image_blocks td)) (image_loop sx sy td).
Proof.
  unfold image_loop, image_blocks.
  set (e := fun b : block_d => image_body sx sy [] b).
  rewrite (LoopFacts.fold_left_appends e).
  - simpl. induction (td_block_list td) as [|b l IH]; simpl; [constructor|].
    unfold e at 1, image_body, block_survives.
    destruct (block_type b) as [[|[| |]|]|]; simpl; try exact IH.
    destruct (block_bbox b) as [[|x0 [|y0 [|x1 [|y1 [|z r]]]]]|] eqn:E;
      simpl; unfold block_survives; rewrite ?E; simpl; try exact IH.
    constructor; [|exact IH].
    exists x0, y0, x1, y1. split; [exact E|reflexivity].
  - intros acc b. unfold e, image_body.
    destruct (block_type b) as [[|[| |]|]|]; simpl;
      try (now rewrite app_nil_r).
    destruct (block_bbox b) as [[|x0 [|y0 [|x1 [|y1 [|z r]]]]]|];
      simpl; now rewrite ?app_nil_r.
Qed.

(** [float(c)] returns the number the cell reports, and raises when it
    reports none. *)
Lemma cell_float_number (c : cell) :
  cell_number rt c
  = match cell_float rt c with Ok x => Some x | Raise _ => None end.
Proof.
  destruct c as [n|x|s]; simpl;
    [destruct (PyFloat.of_int n)| |destruct (float_of_str rt s)];
    reflexivity.
Qed.

(** The [try]/[except] around [float(conf_raw)] yields the confidence of
    the cell. *)
Lemma parse_conf_confidence (c : cell) : parse_conf rt c = confidence rt c.
Proof. unfold parse_conf, confidence. now destruct c. Qed.

(** What one pass of the OCR loop body does to the list of boxes. *)
Lemma ocr_body_spec (ocr : ocr_dict) (acc : list json) (j : nat)
    (acc' : list json) :
  ocr_body rt ocr acc j = Ok acc' ->
  (row_survives rt ocr j = false /\ acc' = acc)
  \/ (row_survives rt ocr j = true
      /\ exists box, acc' = acc ++ [box] /\ ocr_box_of rt ocr j box).
Proof.
  unfold ocr_body, row_survives, ocr_box_of, row_conf, column_number,
    row_discarded, index, rbind.
  destruct (ocr_conf ocr !! j) as [c|]; [|discriminate].
  rewrite <- (parse_conf_confidence c).
  destruct (PrimFloat.ltb (parse_conf rt c) 0) eqn:Hc.
  { intros [= <-]. left. split; [|reflexivity].
    destruct (ocr_width ocr !! j) as [cw|]; [|reflexivity].
    destruct (cell_number rt cw); [|reflexivity].
    destruct (ocr_height ocr !! j) as [ch|]; [|reflexivity].
    destruct (cell_number rt ch); reflexivity. }
  destruct (ocr_left ocr !! j) as [cl|]; [|discriminate].
  rewrite (cell_float_number cl).
  destruct (cell_float rt cl) as [l|]; [|discriminate].
  destruct (ocr_top ocr !! j) as [ct|]; [|discriminate].
  rewrite (cell_float_number ct).
  destruct (cell_float rt ct) as [t|]; [|discriminate].
  destruct (ocr_width ocr !! j) as [cw|]; [|discriminate].
  rewrite (cell_float_number cw).
  destruct (cell_float rt cw) as [w|]; [|discriminate].
  destruct (ocr_height ocr !! j) as [ch|]; [|discriminate].
  rewrite (cell_float_number ch).
  destruct (cell_float rt ch) as [h|]; [|discriminate].
  simpl. destruct (PrimFloat.leb w 1 || PrimFloat.leb h 1) eqn:Hwh;
    intros [= <-].
  - left. split; reflexivity.
  - right. split; [reflexivity|].
    eexists. split; [reflexivity|].
    exists (parse_conf rt c), l, t, w, h. repeat split; reflexivity.
Qed.

(** The OCR loop, when it returns, has appended one box for each
    surviving row and for no other, in row order. *)
Lemma ocr_loop_spec (ocr : ocr_dict) (boxes : list json) :
  ocr_loop rt ocr = Ok boxes ->
  Forall2 (ocr_box_of rt ocr)
    (List.filter (row_survives rt ocr) (seq 0 (length (ocr_text ocr)))) boxes.
Proof.
  unfold ocr_loop. intros H.
  destruct (LoopFacts.rfold_Forall2 (row_survives rt ocr) (ocr_box_of rt ocr)
              (ocr_body rt ocr) (ocr_body_spec ocr) _ _ _ H)
    as (new & -> & Hnew).
  exact Hnew.
Qed.

(** On a well-formed table no pass of the body raises. *)
Lemma ocr_body_returns (ocr : ocr_dict) (acc : list json) (j : nat) :
  table_well_formed rt ocr ->
  (j < length (ocr_text ocr))%nat ->
  exists acc', ocr_body rt ocr acc j = Ok acc'.
Proof.
  intros [Hconf Hcols] Hj.
  assert (Hcol : forall column,
             In column [ocr_left ocr; ocr_top ocr; ocr_width ocr; ocr_height ocr] ->
             exists x, rbind (index column j) (cell_float rt) = Ok x).
  { intros column Hin. destruct (Hcols column Hin) as [Hlen Hnum].
    destruct (column !! j) as [c|] eqn:E.
    - rewrite Forall_forall in Hnum.
      destruct (Hnum c) as [x Hx].
      { eapply list_elem_of_lookup_2; eauto. }
      exists x. unfold index. now rewrite E.
    - apply lookup_ge_None in E. lia. }
  unfold ocr_body.
  destruct (ocr_conf ocr !! j) as [c|] eqn:E;
    [|apply lookup_ge_None in E; lia].
  unfold index at 1. rewrite E. simpl.
  destruct (PrimFloat.ltb (parse_conf rt c) 0); [eauto|].
  destruct (Hcol (ocr_left ocr)) as [l ->]; [simpl; auto|].
  destruct (Hcol (ocr_top ocr)) as [t ->]; [simpl; auto|].
  destruct (Hcol (ocr_width ocr)) as [w ->]; [simpl; auto|].
  destruct (Hcol (ocr_height ocr)) as [h ->]; [simpl; auto 6|].
  simpl. destruct (PrimFloat.leb w 1 || PrimFloat.leb h 1); eauto.
Qed.

Lemma rfold_returns {A B} (body : A -> B -> result A) (l : list B) :
  (forall acc b, In b l -> exists acc', body acc b = Ok acc') ->
  forall acc, exists out, rfold body l acc = Ok out.
Proof.
  induction l as [|b l IH]; intros Hbody acc; simpl; [eauto|].
  destruct (Hbody acc b) as [acc' ->]; [now left|]. simpl.
  apply IH. intros acc0 b0 Hin. apply Hbody. now right.
Qed.

Lemma ocr_loop_returns (ocr : ocr_dict) :
  table_well_formed rt ocr -> exists boxes, ocr_loop rt ocr = Ok boxes.
Proof.
  intros Hwf. unfold ocr_loop. apply rfold_returns.
  intros acc j Hin. apply ocr_body_returns; [exact Hwf|].
  apply in_seq in Hin. lia.
Qed.

(** On a complete table [float] converts every geometry cell. *)
Lemma table_complete_well_formed (ocr : ocr_dict) :
  table_complete rt ocr -> table_well_formed rt ocr.
Proof.
  intros [Hconf Hcols]. split; [exact Hconf|].
  intros column Hin. rewrite Forall_forall in Hcols.
  destruct (Hcols column) as [Hlen Hnum]; [now apply list_elem_of_In|].
  split; [exact Hlen|].
  eapply Forall_impl; [exact Hnum|].
  intros c [x Hx]. exists x. rewrite cell_float_number in Hx.
  now destruct (cell_float rt c) as [y|]; [injection Hx as ->|].
Qed.

(** A span survives in the loop exactly when it is emitted: its text has
    a character that is no white space and its bbox is not malformed. *)
Lemma span_survives_emitted (sp : span_d) :
  span_survives sp = span_emitted sp.
Proof.
  unfold span_survives, span_emitted. f_equal.
  - unfold span_has_text, span_stripped_text, span_text_or_empty.
    destruct (span_text sp) as [t|]; [|reflexivity].
    destruct (forallb isspace t) eqn:F.
    + apply StripFacts.strip_nil in F. now rewrite F.
    + destruct (strip t) eqn:E; [|reflexivity].
      apply StripFacts.strip_nil in E. congruence.
  - unfold span_malformed, span_bbox_or_zeros.
    destruct (span_bbox sp) as [[|a b]|]; try reflexivity.
    now rewrite negb_involutive.
Qed.

Lemma emitted_spans (l : list span_d) :
  List.filter span_survives l = List.filter span_emitted l.
Proof. apply List.filter_ext. intros sp. apply span_survives_emitted. Qed.

(** The bbox the loop works with is the PDF-space box of the span. *)
Lemma span_bbox_or_zeros_box (sp : span_d) (x0 y0 x1 y1 : float) :
  span_bbox_or_zeros sp = [x0; y0; x1; y1] -> span_pdf_box sp x0 y0 x1 y1.
Proof.
  unfold span_bbox_or_zeros, span_pdf_box.
  destruct (span_bbox sp) as [[|a b]|]; intros H.
  - injection H as <- <- <- <-. right. split; [now right|]. now repeat split.
  - left. now rewrite H.
  - injection H as <- <- <- <-. right. split; [now left|]. now repeat split.
Qed.

End PageFacts.

(** ** The page loop and the run *)

Section RunFacts.
Context (rt : runtime) (eng : engines).

Local Open Scope string_scope.
Local Open Scope list_scope.

Lemma apply_writes_app (ws1 ws2 : list (pystr * list N)) (fs : files) :
  apply_writes (ws1 ++ ws2) fs = apply_writes ws2 (apply_writes ws1 fs).
Proof. unfold apply_writes. now rewrite fold_left_app. Qed.

Lemma oblivious_lift {A} (r : result A) : oblivious (lift r).
Proof. exists [], r. reflexivity. Qed.

Lemma oblivious_ret {A} (a : A) : oblivious (mret a).
Proof. exists [], (Ok a). reflexivity. Qed.

Lemma oblivious_write_text (path s : pystr) : oblivious (write_text path s).
Proof.
  unfold write_text. destruct (utf8_encode s) as [data|].
  - exists [(path, data)], (Ok tt). reflexivity.
  - exists [(path, [])], (Raise UnicodeEncodeError). reflexivity.
Qed.

Lemma oblivious_bind {A B} (m : M A) (k : A -> M B) :
  oblivious m -> (forall a, oblivious (k a)) -> oblivious (mbind m k).
Proof.
  intros (ws & r & Hm) Hk. destruct r as [a|e].
  - destruct (Hk a) as (ws' & r' & Hk').
    exists (ws ++ ws'), r'. intros fs. unfold mbind.
    now rewrite Hm, Hk', apply_writes_app.
  - exists ws, (Raise e). intros fs. unfold mbind. now rewrite Hm.
Qed.

(** A page that gets through its body: the raster is saved, and the two
    records are the ones [page_ok] describes. *)
Lemma page_body_ok (tess : pystr) (i : nat) (pg : page) (fs fs' : files)
    (rec tl : json) :
  page_body rt eng tess i pg fs = (fs', Ok (rec, tl)) ->
  page_ok rt eng tess i pg rec tl.
Proof.
  unfold page_body, mbind, lift, save_bytes, open_file, mret.
  destruct (page_get_pixmap pg) as [pix|] eqn:Hpix; [|discriminate].
  destruct (scale_factor (pix_width pix) (page_rect_width pg)) as [sx|] eqn:Hsx;
    [|discriminate].
  destruct (scale_factor (pix_height pix) (page_rect_height pg)) as [sy|] eqn:Hsy;
    [|discriminate].
  destruct (page_get_text_1 pg) as [td1|] eqn:Htd1; [|discriminate].
  destruct (page_get_text_2 pg) as [td2|] eqn:Htd2; [|discriminate].
  rewrite lookup_insert_eq.
  destruct (image_to_data eng (tesseract_cmd tess) (pix_png pix)) as [ocr|] eqn:Hocr;
    [|discriminate].
  destruct (ocr_loop rt ocr) as [boxes|] eqn:Hboxes; [|discriminate].
  intros [= <- <- <-].
  now apply (page_ok_intro rt eng tess i pg pix sx sy td1 td2 ocr boxes).
Qed.

(** The converse: a page whose engine calls all return gets through. *)
Lemma page_ok_body (tess : pystr) (i : nat) (pg : page) (rec tl : json)
    (fs : files) :
  page_ok rt eng tess i pg rec tl ->
  exists fs', page_body rt eng tess i pg fs = (fs', Ok (rec, tl)).
Proof.
  intros [pix sx sy td1 td2 ocr boxes Hpix [Hsx Hsy] Htd1 Htd2 Hocr Hboxes].
  unfold page_body, mbind, lift, save_bytes, open_file, mret.
  rewrite Hpix, Hsx, Hsy, Htd1, Htd2, lookup_insert_eq, Hocr, Hboxes.
  eauto.
Qed.

Lemma page_body_oblivious (tess : pystr) (i : nat) (pg : page) :
  oblivious (page_body rt eng tess i pg).
Proof.
  unfold oblivious, page_body, mbind, lift, save_bytes, open_file, mret.
  destruct (page_get_pixmap pg) as [pix|e]; [|now exists [], (Raise e)].
  set (name := image_name (Z.of_nat i + 1)).
  destruct (scale_factor (pix_width pix) (page_rect_width pg)) as [sx|e];
    [|now exists [(name, pix_png pix)], (Raise e)].
  destruct (scale_factor (pix_height pix) (page_rect_height pg)) as [sy|e];
    [|now exists [(name, pix_png pix)], (Raise e)].
  destruct (page_get_text_1 pg) as [td1|e];
    [|now exists [(name, pix_png pix)], (Raise e)].
  destruct (page_get_text_2 pg) as [td2|e];
    [|now exists [(name, pix_png pix)], (Raise e)].
  destruct (image_to_data eng (tesseract_cmd tess) (pix_png pix)) as [ocr|e]
    eqn:Hocr.
  - destruct (ocr_loop rt ocr) as [boxes|e] eqn:Hboxes;
      eexists [(name, pix_png pix)], _; intros fs;
      rewrite lookup_insert_eq, Hocr, Hboxes; reflexivity.
  - exists [(name, pix_png pix)], (Raise e). intros fs.
    now rewrite lookup_insert_eq, Hocr.
Qed.

Lemma page_loop_oblivious (tess : pystr) (doc : list page) :
  forall i acc, oblivious (page_loop rt eng tess i doc acc).
Proof.
  induction doc as [|pg doc IH]; intros i acc; simpl.
  - apply oblivious_ret.
  - apply oblivious_bind; [apply page_body_oblivious|].
    intros r. apply IH.
Qed.

Lemma run_pipeline_oblivious (input name tess : pystr) :
  oblivious (run_pipeline rt eng input name tess).
Proof.
  unfold run_pipeline, write_template_html.
  repeat first
    [ apply oblivious_bind; [|intros ?]
    | apply oblivious_lift
    | apply page_loop_oblivious
    | apply oblivious_write_text
    | apply oblivious_ret ].
Qed.

(** The page loop, when it returns, has appended the records of every
    page, in order. *)
Lemma page_loop_ok (tess : pystr) (doc : list page) :
  forall i acc fs fs' pages tls,
    page_loop rt eng tess i doc acc fs = (fs', Ok (pages, tls)) ->
    exists recs tls',
      pages = fst acc ++ recs /\ tls = snd acc ++ tls'
      /\ pages_ok rt eng tess i doc recs tls'.
Proof.
  induction doc as [|pg doc IH]; intros i acc fs fs' pages tls; simpl.
  - unfold mret. intros [= _ ->]. exists [], [].
    rewrite !app_nil_r. repeat split. constructor.
  - unfold mbind at 1.
    destruct (page_body rt eng tess i pg fs) as [fs1 [[rec tl]|e]] eqn:Hbody;
      [|discriminate].
    intros Hrest. apply IH in Hrest as (recs & tls' & -> & -> & Hok).
    simpl. exists (rec :: recs), (tl :: tls').
    rewrite <- !app_assoc. repeat split.
    constructor; [|exact Hok]. eapply page_body_ok; eauto.
Qed.

Lemma pages_ok_length (tess : pystr) (i : nat) (doc : list page)
    (pages tls : list json) :
  pages_ok rt eng tess i doc pages tls ->
  length pages = length doc /\ length tls = length doc.
Proof. induction 1 as [|? ? ? ? ? ? ? _ _ [IH1 IH2]]; simpl; auto. Qed.

(** Page [k] of the document and the records at position [k]. *)
Lemma pages_ok_lookup (tess : pystr) (i : nat) (doc : list page)
    (pages tls : list json) :
  pages_ok rt eng tess i doc pages tls ->
  forall k pg,
    doc !! k = Some pg ->
    exists rec tl,
      pages !! k = Some rec /\ tls !! k = Some tl
      /\ page_ok rt eng tess (i + k) pg rec tl.
Proof.
  induction 1 as [|i pg0 doc rec pages tl tls Hpage _ IH]; intros k pg.
  - intros H. now rewrite lookup_nil in H.
  - destruct k as [|k]; simpl.
    + intros [= <-]. exists rec, tl. now rewrite Nat.add_0_r.
    + intros Hk. destruct (IH k pg Hk) as (rec' & tl' & ? & ? & Hok).
      exists rec', tl'. repeat split; try assumption.
      now replace (i + S k)%nat with (S i + k)%nat by lia.
Qed.

(** The records of a page are determined by the page. *)
Lemma page_ok_functional (tess : pystr) (i : nat) (pg : page)
    (rec rec' tl tl' : json) :
  page_ok rt eng tess i pg rec tl -> page_ok rt eng tess i pg rec' tl' ->
  rec = rec' /\ tl = tl'.
Proof.
  intros [pix sx sy td1 td2 ocr boxes Hpix [Hsx Hsy] Htd1 Htd2 Hocr Hboxes].
  intros [pix' sx' sy' td1' td2' ocr' boxes' Hpix' [Hsx' Hsy'] Htd1' Htd2' Hocr' Hboxes'].
  rewrite Hpix in Hpix'. injection Hpix' as <-.
  rewrite Hsx in Hsx'. injection Hsx' as <-.
  rewrite Hsy in Hsy'. injection Hsy' as <-.
  rewrite Htd1 in Htd1'. injection Htd1' as <-.
  rewrite Htd2 in Htd2'. injection Htd2' as <-.
  rewrite Hocr in Hocr'. injection Hocr' as <-.
  rewrite Hboxes in Hboxes'. injection Hboxes' as <-.
  split; reflexivity.
Qed.

Lemma pages_ok_functional (tess : pystr) (i : nat) (doc : list page)
    (pages pages' tls tls' : list json) :
  pages_ok rt eng tess i doc pages tls ->
  pages_ok rt eng tess i doc pages' tls' ->
  pages = pages' /\ tls = tls'.
Proof.
  intros H. revert pages' tls'.
  induction H as [|i pg doc rec pages tl tls Hpage _ IH]; intros pages' tls' H'.
  - inversion H'. split; reflexivity.
  - inversion H' as [|? ? ? rec' pages0 tl' tls0 Hpage' Hrest]; subst.
    destruct (page_ok_functional _ _ _ _ _ _ _ Hpage Hpage') as [<- <-].
    destruct (IH _ _ Hrest) as [<- <-]. split; reflexivity.
Qed.

(** A run that returns: the document opened, every page got through, and
    the manifest and the text layer were written from the page records. *)
Lemma run_pipeline_ok (input name tess : pystr) (fs fs' : files) (res : json) :
  run_pipeline rt eng input name tess fs = (fs', Ok res) ->
  exists doc pages tls,
    fitz_open eng input = Ok doc
    /\ pages_ok rt eng tess 0 doc pages tls
    /\ written rt fs' "manifest.json" (manifest_of name pages)
    /\ written rt fs' "text-layer.json" (JList tls)
    /\ res = JDict [ ("ok", JBool true);
                     ("pages", JInt (Z.of_nat (length pages)));
                     ("preview", JStr (u "index.html")) ].
Proof.
  unfold run_pipeline, write_template_html.
  unfold mbind at 1. unfold lift at 1.
  destruct (fitz_open eng input) as [doc|] eqn:Hdoc; [|discriminate].
  unfold mbind at 1.
  destruct (page_loop rt eng tess 0 doc ([], []) fs) as [fs1 [[pages tls]|]] eqn:Hloop;
    [|discriminate].
  apply page_loop_ok in Hloop as (recs & tls' & Hp & Ht & Hok).
  simpl in Hp, Ht. subst pages tls. simpl fst. simpl snd.
  unfold mbind, write_text, mret.
  destruct (utf8_encode (json_dumps rt (manifest_of name recs))) as [d1|] eqn:H1;
    [|discriminate].
  destruct (utf8_encode (json_dumps rt (JList tls'))) as [d2|] eqn:H2;
    [|discriminate].
  destruct (utf8_encode (viewer_template rt (html_escape name))) as [d3|] eqn:H3;
    [|discriminate].
  intros [= <- <-]. exists doc, recs, tls'.
  repeat split; try assumption.
  - exists d1. split; [exact H1|].
    rewrite lookup_insert_ne by (vm_compute; discriminate).
    rewrite lookup_insert_ne by (vm_compute; discriminate).
    apply lookup_insert_eq.
  - exists d2. split; [exact H2|].
    rewrite lookup_insert_ne by (vm_compute; discriminate).
    apply lookup_insert_eq.
Qed.

End RunFacts.

(** * The claims of the specification *)

Section Claims.
Context (rt : runtime) (eng : engines).

Local Open Scope string_scope.
Local Open Scope list_scope.

(** In a run that returns, whatever holds of the records of every page
    that got through its body holds of every page of the document. *)
Lemma run_pipeline_every_page (input name tess : pystr) (fs fs' : files)
    (res : json) (P : nat -> page -> json -> json -> Prop) :
  run_pipeline rt eng input name tess fs = (fs', Ok res) ->
  (forall k pg rec tl, page_ok rt eng tess k pg rec tl -> P k pg rec tl) ->
  every_page rt eng input name fs' P.
Proof.
  intros Hrun HP.
  destruct (run_pipeline_ok rt eng _ _ _ _ _ _ Hrun)
    as (doc & pages & tls & Hdoc & Hok & Hman & Htl & _).
  destruct (pages_ok_length rt eng _ _ _ _ _ Hok) as [Hlp Hlt].
  exists doc, pages, tls. split.
  - unfold run_outputs. repeat split; try assumption.
    unfold manifest_of in Hman. now rewrite Hlp in Hman.
  - intros k pg Hk.
    destruct (pages_ok_lookup rt eng _ _ _ _ _ Hok k pg Hk)
      as (rec & tl & Hr & Ht & Hpage).
    exists rec, tl. repeat split; try assumption. now apply HP.
Qed.

Lemma Forall2_filter_keep {A B} (keep : A -> bool) (R : A -> B -> Prop)
    (l : list A) :
  forall k,
    Forall2 R (List.filter keep l) k ->
    Forall2 (fun a b => keep a = true /\ R a b) (List.filter keep l) k.
Proof.
  induction l as [|a l IH]; simpl; intros k H.
  - inversion H. constructor.
  - destruct (keep a) eqn:E; [|now apply IH].
    inversion H; subst. constructor; [now split|now apply IH].
Qed.

Lemma Forall2_Forall_right {A B} (R : A -> B -> Prop) (Q : B -> Prop)
    (l : list A) (k : list B) :
  Forall2 R l k -> (forall a b, R a b -> Q b) -> Forall Q k.
Proof. induction 1; intros HQ; constructor; eauto. Qed.

Lemma scale_factor_rule (n : Z) (d s : float) :
  scale_factor n d = Ok s -> scale_rule n d s.
Proof.
  unfold scale_factor, PyFloat.truthy, scale_rule. intros H. split.
  - intros Hpos. rewrite (FloatFacts.lt_zero_not_eq d Hpos) in H.
    simpl in H. destruct (PyFloat.of_int n) as [r|]; [|discriminate].
    injection H as <-. now exists r.
  - intros Hzero. rewrite Hzero in H. simpl in H. now injection H as <-.
Qed.

Lemma manifest_item_scaled (sx sy : float) (sp : span_d) (item : json) :
  manifest_item sx sy sp item ->
  exists x0 y0 x1 y1,
    span_pdf_box sp x0 y0 x1 y1 /\ scaled_box sx sy x0 y0 x1 y1 item.
Proof.
  intros (x0 & y0 & x1 & y1 & Hb & ->).
  exists x0, y0, x1, y1.
  split; [now apply span_bbox_or_zeros_box|]. split.
  - repeat split; reflexivity.
  - eexists _, _. repeat split; try reflexivity;
      apply FloatFacts.max_zero_nonneg.
Qed.

Lemma image_box_scaled (sx sy : float) (b : block_d) (box : json) :
  image_box sx sy b box ->
  exists x0 y0 x1 y1,
    block_bbox b = Some [x0; y0; x1; y1]
    /\ scaled_box sx sy x0 y0 x1 y1 box.
Proof.
  intros (x0 & y0 & x1 & y1 & Hb & ->).
  exists x0, y0, x1, y1. split; [exact Hb|]. split.
  - repeat split; reflexivity.
  - eexists _, _. repeat split; try reflexivity;
      apply FloatFacts.max_zero_nonneg.
Qed.

Lemma page_ok_boxes_scaled (tess : pystr) (k : nat) (pg : page)
    (rec tl : json) :
  page_ok rt eng tess k pg rec tl -> page_boxes_scaled pg rec.
Proof.
  intros [pix sx sy td1 td2 ocr boxes Hpix Hscale Htd1 Htd2 Hocr Hboxes].
  exists pix, sx, sy, td1, td2. eexists _, _.
  split; [exact Hpix|]. split; [exact Hscale|].
  destruct Hscale as [Hsx Hsy].
  split; [now apply scale_factor_rule|].
  split; [now apply scale_factor_rule|].
  repeat (split; [first [eassumption | reflexivity]|]).
  split.
  - rewrite <- emitted_spans.
    eapply Forall2_impl; [apply (span_loop_spec sx sy td1)|].
    apply manifest_item_scaled.
  - eapply Forall2_impl; [apply (image_loop_spec sx sy td2)|].
    apply image_box_scaled.
Qed.

(** C1: for every page of a run that returns, the items and the image
    boxes of its manifest record are, in order, the records of the emitted
    spans and of the image blocks with a bbox of four components, and
    each carries the raster-space box
    {x = x0*sx, y = y0*sy, w = max(0, x1*sx - x0*sx),
     h = max(0, y1*sy - y0*sy)} of the PDF-space box (x0, y0, x1, y1) the
    extraction delivered for that span or block, under the scale factors
    (sx, sy) of the page; its w and h are never negative. *)
Theorem raster_bbox_is_scaled_pdf_bbox (input name tess : pystr)
    (fs fs' : files) (res : json) :
  run_pipeline rt eng input name tess fs = (fs', Ok res) ->
  every_page rt eng input name fs'
    (fun _ pg rec _ => page_boxes_scaled pg rec).
Proof.
  intros Hrun. eapply run_pipeline_every_page; [exact Hrun|].
  intros k pg rec tl. apply page_ok_boxes_scaled.
Qed.

Lemma page_ok_ocr_boxes_raw (tess : pystr) (k : nat) (pg : page)
    (rec tl : json) :
  page_ok rt eng tess k pg rec tl -> page_ocr_boxes_raw rt eng tess pg rec.
Proof.
  intros [pix sx sy td1 td2 ocr boxes Hpix Hscale Htd1 Htd2 Hocr Hboxes].
  exists pix, (tesseract_cmd tess), ocr, boxes.
  split; [exact Hpix|]. split.
  { unfold ocr_command, tesseract_cmd.
    destruct tess; [now left|right; split; [discriminate|reflexivity]]. }
  repeat (split; [first [eassumption | reflexivity]|]).
  now apply ocr_loop_spec.
Qed.

(** C2: for every page of a run that returns, the ocrBoxes of the manifest
    are, in row order, the surviving rows of the table the OCR engine
    returned for the raster of the page, each with x, y, w, h equal to
    the numbers the engine reported as left, top, width, height of that
    row and with the confidence of the row: no scale factor and no Bbox
    normalization is applied to them, while the text spans and image
    blocks of the same page are scaled by (sx, sy). *)
Theorem ocr_boxes_are_not_scaled (input name tess : pystr)
    (fs fs' : files) (res : json) :
  run_pipeline rt eng input name tess fs = (fs', Ok res) ->
  every_page rt eng input name fs'
    (fun _ pg rec _ =>
       page_ocr_boxes_raw rt eng tess pg rec /\ page_boxes_scaled pg rec).
Proof.
  intros Hrun. eapply run_pipeline_every_page; [exact Hrun|].
  intros k pg rec tl Hpage. split.
  - eapply page_ok_ocr_boxes_raw; eauto.
  - eapply page_ok_boxes_scaled; eauto.
Qed.

Lemma page_ok_scale_rule (tess : pystr) (k : nat) (pg : page)
    (rec tl : json) :
  page_ok rt eng tess k pg rec tl -> page_scale_rule pg rec.
Proof.
  intros [pix sx sy td1 td2 ocr boxes Hpix [Hsx Hsy] Htd1 Htd2 Hocr Hboxes].
  exists pix, sx, sy, td1, td2. eexists _, _.
  split; [exact Hpix|].
  split; [now apply scale_factor_rule|].
  split; [now apply scale_factor_rule|].
  repeat (split; [first [eassumption | reflexivity]|]).
  split; [apply span_loop_spec|apply image_loop_spec].
Qed.

(** C3: for every page of a run that returns, with PDF-space width W and
    height H and raster width Rw and height Rh, the factors its spans and
    image blocks are scaled with are sx = Rw/W when W > 0 and sx = 1.0
    when W is 0, and sy = Rh/H when H > 0 and sy = 1.0 when H is 0. *)
Theorem scale_factors_follow_the_rule (input name tess : pystr)
    (fs fs' : files) (res : json) :
  run_pipeline rt eng input name tess fs = (fs', Ok res) ->
  every_page rt eng input name fs'
    (fun _ pg rec _ => page_scale_rule pg rec).
Proof.
  intros Hrun. eapply run_pipeline_every_page; [exact Hrun|].
  intros k pg rec tl. apply page_ok_scale_rule.
Qed.

Lemma nan_of_not_eq (x : float) :
  PrimFloat.eqb x x = false -> PrimFloat.is_nan x = true.
Proof. unfold PrimFloat.is_nan. now intros ->. Qed.

Lemma kept_row_bounds (ocr : ocr_dict) (j : nat) (box : json) :
  row_survives rt ocr j = true -> ocr_box_of rt ocr j box ->
  ocr_box_bounds box.
Proof.
  unfold row_survives, row_discarded.
  intros Hkeep (conf & l & t & w & h & Hc & _ & _ & Hw & Hh & ->).
  rewrite Hc, Hw, Hh in Hkeep.
  apply negb_true_iff in Hkeep.
  apply orb_false_iff in Hkeep as [Hkeep Hh1].
  apply orb_false_iff in Hkeep as [Hc0 Hw1].
  exists conf, w, h.
  repeat (split; [first [eassumption | reflexivity]|]).
  split; [|split].
  - destruct (FloatFacts.not_lt_zero conf Hc0); auto using nan_of_not_eq.
  - destruct (FloatFacts.not_le_one w Hw1); auto using nan_of_not_eq.
  - destruct (FloatFacts.not_le_one h Hh1); auto using nan_of_not_eq.
Qed.

(** C4, as amended: the confidence of a fragment is parsed as a number
    without ever raising: it is the number the confidence cell spells,
    the white space around it set aside, and -1, which is discarded, when
    it spells none.  When the filtering returns, the boxes kept are, in
    row order, exactly the rows that are not discarded, a row being
    discarded when its confidence is below 0 or the width or the height
    the engine reported for it is at most 1; each box carries the
    reported geometry and the confidence of its row.  So every OcrBox has
    a confidence that is not below 0 and a width and height that are not
    at most 1: confidence >= 0, width > 1 and height > 1 unless the value
    is NaN.  The filtering returns on every complete table: one whose
    columns have a cell for every row and whose geometry cells report
    numbers. *)
Theorem ocr_filter_keeps_rows_not_discarded (ocr : ocr_dict) :
  (forall c,
      match float_of_str rt (strip (cell_text rt c)) with
      | Some x => parse_conf rt c = x
      | None =>
          parse_conf rt c = (-1)%float
          /\ PrimFloat.ltb (parse_conf rt c) 0 = true
      end)
  /\ (table_complete rt ocr -> exists boxes, ocr_loop rt ocr = Ok boxes)
  /\ (forall boxes,
         ocr_loop rt ocr = Ok boxes ->
         Forall2 (ocr_box_of rt ocr)
           (List.filter (row_survives rt ocr)
              (seq 0 (length (ocr_text ocr)))) boxes
         /\ Forall ocr_box_bounds boxes).
Proof.
  split; [|split].
  - intros c. rewrite parse_conf_confidence. unfold confidence.
    destruct (float_of_str rt (strip (cell_text rt c)));
      [reflexivity|split; reflexivity].
  - intros Hwf. now apply ocr_loop_returns, table_complete_well_formed.
  - intros boxes Hloop.
    pose proof (ocr_loop_spec rt ocr boxes Hloop) as Hspec.
    split; [exact Hspec|].
    apply Forall2_filter_keep in Hspec.
    eapply Forall2_Forall_right; [exact Hspec|].
    intros j box [Hkeep Hbox]. eapply kept_row_bounds; eauto.
Qed.

Lemma survivor_has_text (sp : span_d) :
  span_survives sp = true -> span_stripped_text sp <> [].
Proof.
  unfold span_survives, span_has_text.
  destruct (span_stripped_text sp); [discriminate|discriminate].
Qed.

Lemma manifest_item_trimmed (sx sy : float) (sp : span_d) (item : json) :
  span_survives sp = true /\ manifest_item sx sy sp item ->
  trimmed_text sp item.
Proof.
  intros [Hkeep (x0 & y0 & x1 & y1 & _ & ->)].
  exists (span_stripped_text sp). split; [reflexivity|].
  split; [apply StripFacts.strip_trimmed|].
  split; [now apply survivor_has_text|].
  apply StripFacts.strip_idem.
Qed.

Lemma text_layer_item_trimmed (sp : span_d) (item : json) :
  span_survives sp = true /\ text_layer_item sp item ->
  trimmed_text sp item.
Proof.
  intros [Hkeep (x0 & y0 & x1 & y1 & _ & ->)].
  exists (span_stripped_text sp). split; [reflexivity|].
  split; [apply StripFacts.strip_trimmed|].
  split; [now apply survivor_has_text|].
  apply StripFacts.strip_idem.
Qed.

Lemma page_ok_texts_trimmed (tess : pystr) (k : nat) (pg : page)
    (rec tl : json) :
  page_ok rt eng tess k pg rec tl -> page_texts_trimmed pg rec tl.
Proof.
  intros [pix sx sy td1 td2 ocr boxes Hpix Hscale Htd1 Htd2 Hocr Hboxes].
  exists td1. eexists _, _.
  repeat (split; [first [eassumption | reflexivity]|]).
  destruct (span_loop_spec sx sy td1) as [Hlayer Hitems].
  apply Forall2_filter_keep in Hlayer, Hitems.
  split.
  - eapply Forall2_impl; [exact Hitems|]. apply manifest_item_trimmed.
  - eapply Forall2_impl; [exact Hlayer|]. apply text_layer_item_trimmed.
Qed.

(** C5: for every page of a run that returns, the items of the manifest
    record and of the text-layer record are, in order, the spans whose
    trimmed text is not empty (and whose bbox is well formed): a span
    whose trimmed text is empty has no entry in either, and the text of
    every entry is the trimmed text of its span, not empty, with no white
    space left to trim. *)
Theorem span_text_is_trimmed_and_not_empty (input name tess : pystr)
    (fs fs' : files) (res : json) :
  run_pipeline rt eng input name tess fs = (fs', Ok res) ->
  every_page rt eng input name fs'
    (fun _ pg rec tl => page_texts_trimmed pg rec tl).
Proof.
  intros Hrun. eapply run_pipeline_every_page; [exact Hrun|].
  intros k pg rec tl. apply page_ok_texts_trimmed.
Qed.

Lemma flat_map_filter_out {A B} (bad : A -> bool) (e : A -> list B)
    (l : list A) :
  (forall a, bad a = true -> e a = []) ->
  flat_map e (List.filter (fun a => negb (bad a)) l) = flat_map e l.
Proof.
  intros Hbad. induction l as [|a l IH]; simpl; [reflexivity|].
  destruct (bad a) eqn:E; simpl.
  - now rewrite (Hbad a E).
  - now rewrite IH.
Qed.

Lemma malformed_span_dropped (sp : span_d) :
  span_malformed sp = true -> span_survives sp = false.
Proof.
  unfold span_malformed, span_survives, span_bbox_or_zeros.
  destruct (span_bbox sp) as [[|x b]|]; try discriminate.
  intros H. apply negb_true_iff in H. rewrite H. apply andb_false_r.
Qed.

Lemma text_spans_without (bad : span_d -> bool) (td : text_dict) :
  text_spans (spans_without bad td)
  = List.filter (fun sp => negb (bad sp)) (text_spans td).
Proof.
  unfold text_spans, spans_without, td_block_list. simpl.
  destruct (td_blocks td) as [blocks|]; [|reflexivity].
  induction blocks as [|b blocks IH]; simpl; [reflexivity|].
  rewrite List.filter_app, IH. f_equal.
  destruct (block_type b) as [[| |]|]; try reflexivity.
  destruct (block_lines b) as [lines|]; [|reflexivity].
  induction lines as [|l lines IHl]; simpl; [reflexivity|].
  rewrite List.filter_app, IHl. f_equal.
  now destruct (line_spans l).
Qed.

(** Taking the malformed spans out of a page tree does not change what
    the span loop yields. *)
Lemma span_loop_without_malformed (sx sy : float) (td : text_dict) :
  span_loop sx sy (spans_without span_malformed td) = span_loop sx sy td.
Proof.
  rewrite !span_loop_entries, text_spans_without.
  rewrite flat_map_filter_out; [reflexivity|].
  intros sp Hbad. apply span_entries_dropped.
  now apply malformed_span_dropped.
Qed.

Lemma image_loop_without_malformed (sx sy : float) (td : text_dict) :
  image_loop sx sy (blocks_without image_block_malformed td)
  = image_loop sx sy td.
Proof.
  assert (Hbody : forall acc b,
             image_body sx sy acc b = acc ++ image_body sx sy [] b).
  { intros acc b. unfold image_body.
    destruct (block_type b) as [[|[| |]|]|]; simpl;
      try (now rewrite app_nil_r).
    destruct (block_bbox b) as [[|x0 [|y0 [|x1 [|y1 [|z r]]]]]|];
      simpl; now rewrite ?app_nil_r. }
  unfold image_loop, blocks_without, td_block_list. simpl.
  destruct (td_blocks td) as [blocks|]; [|reflexivity].
  rewrite !(LoopFacts.fold_left_appends _ _ Hbody). simpl.
  apply flat_map_filter_out.
  intros b. unfold image_block_malformed, image_body, block_survives.
  destruct (block_type b) as [[|[| |]|]|]; try discriminate.
  destruct (block_bbox b) as [[|x0 [|y0 [|x1 [|y1 [|z r]]]]]|];
    simpl; try reflexivity; discriminate.
Qed.

Lemma page_body_without_malformed (tess : pystr) (i : nat) (pg : page)
    (fs : files) :
  page_body rt (without_malformed eng) tess i (page_without_malformed pg) fs
  = page_body rt eng tess i pg fs.
Proof.
  unfold page_body, mbind, lift. simpl.
  destruct (page_get_pixmap pg) as [pix|]; [|reflexivity].
  simpl. destruct (scale_factor _ _) as [sx|]; [|reflexivity].
  destruct (scale_factor _ _) as [sy|]; [|reflexivity].
  destruct (page_get_text_1 pg) as [td1|]; [|reflexivity].
  simpl. destruct (page_get_text_2 pg) as [td2|]; [|reflexivity].
  simpl. now rewrite span_loop_without_malformed, image_loop_without_malformed.
Qed.

Lemma page_loop_without_malformed (tess : pystr) (doc : list page) :
  forall i acc fs,
    page_loop rt (without_malformed eng) tess i
      (map page_without_malformed doc) acc fs
    = page_loop rt eng tess i doc acc fs.
Proof.
  induction doc as [|pg doc IH]; intros i acc fs; simpl; [reflexivity|].
  unfold mbind. rewrite page_body_without_malformed.
  destruct (page_body rt eng tess i pg fs) as [fs1 [r|e]]; [|reflexivity].
  apply IH.
Qed.

(** C6, as amended: a span whose bbox is present and not empty but has
    not exactly 4 components, and an image block whose bbox is absent,
    empty or has not exactly 4 components, is silently skipped: the run
    over the document is the run over the same document without them,
    whether it returns or raises, so they contribute nothing, raise
    nothing and leave the other spans and blocks as they are.  A span with
    text whose bbox is absent or empty is not skipped: it is emitted with
    the bbox [0, 0, 0, 0]. *)
Theorem malformed_bbox_is_skipped (input name tess : pystr) (fs : files) :
  run_pipeline rt (without_malformed eng) input name tess fs
  = run_pipeline rt eng input name tess fs
  /\ (forall sx sy acc sp,
         span_has_text sp = true ->
         span_bbox sp = None \/ span_bbox sp = Some [] ->
         exists layer_item item,
           span_body sx sy acc sp
           = (fst acc ++ [layer_item], snd acc ++ [item])
           /\ jfield "bbox" layer_item
              = Some (JList [JFloat 0; JFloat 0; JFloat 0; JFloat 0])
           /\ raster_bbox sx sy 0 0 0 0 item).
Proof.
  split.
  - unfold run_pipeline. unfold mbind at 1 6. unfold lift. simpl.
    destruct (fitz_open eng input) as [doc|]; [|reflexivity].
    simpl. unfold mbind at 1 5.
    now rewrite page_loop_without_malformed.
  - intros sx sy acc sp Htext Hbbox.
    assert (Hz : span_bbox_or_zeros sp = [0; 0; 0; 0]%float).
    { unfold span_bbox_or_zeros. now destruct Hbbox as [-> | ->]. }
    unfold span_body. unfold span_has_text in Htext.
    destruct (span_stripped_text sp) as [|c t]; [discriminate|].
    rewrite Hz. eexists _, _. split; [reflexivity|].
    split; [reflexivity|]. repeat split; reflexivity.
Qed.

Lemma text_layer_item_functional (sp : span_d) (a b : json) :
  text_layer_item sp a -> text_layer_item sp b -> a = b.
Proof.
  intros (x0 & y0 & x1 & y1 & Ha & ->) (x0' & y0' & x1' & y1' & Hb & ->).
  rewrite Ha in Hb. now injection Hb as <- <- <- <-.
Qed.

(** The text-layer records of the span loop do not depend on the scale
    factors. *)
Lemma span_loop_layer_independent (sx sy sx' sy' : float) (td : text_dict) :
  fst (span_loop sx sy td) = fst (span_loop sx' sy' td).
Proof.
  destruct (span_loop_spec sx sy td) as [H _].
  destruct (span_loop_spec sx' sy' td) as [H' _].
  revert H H'. generalize (fst (span_loop sx sy td)).
  generalize (fst (span_loop sx' sy' td)).
  induction (List.filter span_survives (text_spans td)) as [|sp l IH];
    intros k' k H H'; inversion H; inversion H'; subst; [reflexivity|].
  f_equal; [eapply text_layer_item_functional; eauto|now apply IH].
Qed.

Lemma page_ok_text_layer_raw (tess : pystr) (k : nat) (pg : page)
    (rec tl : json) :
  page_ok rt eng tess k pg rec tl -> page_text_layer_raw pg rec tl.
Proof.
  intros [pix sx sy td1 td2 ocr boxes Hpix Hscale Htd1 Htd2 Hocr Hboxes].
  exists td1. eexists _, _.
  repeat (split; [first [eassumption | reflexivity]|]).
  destruct (span_loop_spec sx sy td1) as [Hlayer Hitems].
  split.
  - apply Forall2_length in Hlayer, Hitems. congruence.
  - rewrite <- emitted_spans. eapply Forall2_impl; [exact Hlayer|].
    intros sp item (x0 & y0 & x1 & y1 & Hb & ->).
    exists x0, y0, x1, y1.
    split; [now apply span_bbox_or_zeros_box|reflexivity].
Qed.

Lemma page_ok_same_layer (eng2 : engines) (tess : pystr) (k : nat)
    (pg1 pg2 : page) (rec1 tl1 rec2 tl2 : json) :
  page_get_text_1 pg1 = page_get_text_1 pg2 ->
  page_ok rt eng tess k pg1 rec1 tl1 ->
  page_ok rt eng2 tess k pg2 rec2 tl2 ->
  tl1 = tl2.
Proof.
  intros Hsame.
  intros [pix sx sy td1 td2 ocr boxes Hpix Hscale Htd1 Htd2 Hocr Hboxes].
  intros [pix' sx' sy' td1' td2' ocr' boxes' Hpix' Hscale' Htd1' Htd2' Hocr' Hboxes'].
  rewrite Hsame, Htd1' in Htd1. injection Htd1 as <-.
  now rewrite (span_loop_layer_independent sx sy sx' sy' td1').
Qed.

Lemma pages_ok_same_layers (eng2 : engines) (tess : pystr)
    (doc1 doc2 : list page) :
  Forall2 same_but_raster doc1 doc2 ->
  forall i pages1 tls1 pages2 tls2,
    pages_ok rt eng tess i doc1 pages1 tls1 ->
    pages_ok rt eng2 tess i doc2 pages2 tls2 ->
    tls1 = tls2.
Proof.
  induction 1 as [|pg1 pg2 doc1 doc2 (_ & _ & Htext & _) _ IH];
    intros i pages1 tls1 pages2 tls2 H1 H2;
    inversion H1; inversion H2; subst; [reflexivity|].
  f_equal; [eapply page_ok_same_layer; eauto|eapply IH; eauto].
Qed.

Lemma written_same (fs1 fs2 : files) (path : string) (j : json) :
  written rt fs1 path j -> written rt fs2 path j ->
  fs1 !! u path = fs2 !! u path.
Proof.
  intros (d1 & He1 & ->) (d2 & He2 & ->). congruence.
Qed.

(** C7: for every page of a run that returns, the text-layer record holds
    as many spans as the page's entry in the manifest, one per emitted
    span and in their order, each with the bbox the extraction delivered
    for that span, raw and unscaled (four zeros for a span without one);
    and two runs that return, over documents whose pages have the same
    extraction results and differ only in their rasters, write the same
    text-layer.json. *)
Theorem text_layer_ignores_the_raster (eng2 : engines)
    (input name tess : pystr) (fs1 fs2 fs1' fs2' : files) (res1 res2 : json)
    (doc1 doc2 : list page) :
  fitz_open eng input = Ok doc1 ->
  fitz_open eng2 input = Ok doc2 ->
  Forall2 same_but_raster doc1 doc2 ->
  run_pipeline rt eng input name tess fs1 = (fs1', Ok res1) ->
  run_pipeline rt eng2 input name tess fs2 = (fs2', Ok res2) ->
  every_page rt eng input name fs1'
    (fun _ pg rec tl => page_text_layer_raw pg rec tl)
  /\ fs1' !! u "text-layer.json" = fs2' !! u "text-layer.json".
Proof.
  intros Hdoc1 Hdoc2 Hsame Hrun1 Hrun2. split.
  - eapply run_pipeline_every_page; [exact Hrun1|].
    intros k pg rec tl. apply page_ok_text_layer_raw.
  - destruct (run_pipeline_ok rt eng _ _ _ _ _ _ Hrun1)
      as (d1 & pages1 & tls1 & Hd1 & Hok1 & _ & Htl1 & _).
    destruct (run_pipeline_ok rt eng2 _ _ _ _ _ _ Hrun2)
      as (d2 & pages2 & tls2 & Hd2 & Hok2 & _ & Htl2 & _).
    rewrite Hdoc1 in Hd1. injection Hd1 as <-.
    rewrite Hdoc2 in Hd2. injection Hd2 as <-.
    rewrite (pages_ok_same_layers eng2 tess doc1 doc2 Hsame
               _ _ _ _ _ Hok1 Hok2) in Htl1.
    eapply written_same; eauto.
Qed.

Lemma page_ok_number (tess : pystr) (k : nat) (pg : page) (rec tl : json) :
  page_ok rt eng tess k pg rec tl ->
  jfield "pageNumber" rec = Some (JInt (Z.of_nat k + 1)).
Proof. now intros []. Qed.

(** C8: after a run that returns, the pageCount of the manifest is the
    number of pages of the document, which is the length of its pages;
    the page records are in document order, and the pageNumber of the
    record at index k from 0 is k + 1. *)
Theorem page_count_and_page_numbers (input name tess : pystr)
    (fs fs' : files) (res : json) :
  run_pipeline rt eng input name tess fs = (fs', Ok res) ->
  every_page rt eng input name fs'
    (fun k _ rec _ => jfield "pageNumber" rec = Some (JInt (Z.of_nat k + 1))).
Proof.
  intros Hrun. eapply run_pipeline_every_page; [exact Hrun|].
  intros k pg rec tl. apply page_ok_number.
Qed.

(** C9: a run that returns, run again with the same results of the
    rendering and OCR engines on whatever the output directory holds by
    then, returns the same result and writes the same bytes to
    manifest.json and to text-layer.json. *)
Theorem rerun_writes_the_same_files (input name tess : pystr)
    (fs1 fs1' : files) (res : json) :
  run_pipeline rt eng input name tess fs1 = (fs1', Ok res) ->
  forall fs2,
    exists fs2',
      run_pipeline rt eng input name tess fs2 = (fs2', Ok res)
      /\ fs2' !! u "manifest.json" = fs1' !! u "manifest.json"
      /\ fs2' !! u "text-layer.json" = fs1' !! u "text-layer.json".
Proof.
  intros Hrun1 fs2.
  destruct (run_pipeline_oblivious rt eng input name tess) as (ws & r & Hobl).
  assert (r = Ok res) as -> by (rewrite Hobl in Hrun1; congruence).
  exists (apply_writes ws fs2). split; [apply Hobl|].
  destruct (run_pipeline_ok rt eng _ _ _ _ _ _ Hrun1)
    as (d1 & pages1 & tls1 & Hd1 & Hok1 & Hman1 & Htl1 & _).
  destruct (run_pipeline_ok rt eng _ _ _ _ _ _ (Hobl fs2))
    as (d2 & pages2 & tls2 & Hd2 & Hok2 & Hman2 & Htl2 & _).
  rewrite Hd1 in Hd2. injection Hd2 as <-.
  destruct (pages_ok_functional rt eng _ _ _ _ _ _ _ Hok1 Hok2) as [<- <-].
  split; eapply written_same; eauto.
Qed.

End Claims.

Lemma sample_run_returns :
  run_pipeline Sample.sample_runtime Sample.sample_engines
    (u "in.pdf") (u "report.pdf") [] ∅
  = (fst Sample.sample_run, Ok Sample.sample_result).
Proof. vm_compute. reflexivity. Qed.

Lemma raster_bbox_is_scaled_pdf_bbox_witness :
  snd Sample.sample_run = Ok Sample.sample_result
  /\ every_page Sample.sample_runtime Sample.sample_engines
       (u "in.pdf") (u "report.pdf") (fst Sample.sample_run)
       (fun _ pg rec _ => page_boxes_scaled pg rec).
Proof.
  split; [vm_compute; reflexivity|].
  apply (raster_bbox_is_scaled_pdf_bbox
           Sample.sample_runtime Sample.sample_engines
           (u "in.pdf") (u "report.pdf") [] ∅ _ Sample.sample_result).
  exact sample_run_returns.
Defined.

Lemma ocr_boxes_are_not_scaled_witness :
  snd Sample.sample_run = Ok Sample.sample_result
  /\ every_page Sample.sample_runtime Sample.sample_engines
       (u "in.pdf") (u "report.pdf") (fst Sample.sample_run)
       (fun _ pg rec _ =>
          page_ocr_boxes_raw Sample.sample_runtime Sample.sample_engines
            [] pg rec
          /\ page_boxes_scaled pg rec).
Proof.
  split; [vm_compute; reflexivity|].
  apply (ocr_boxes_are_not_scaled
           Sample.sample_runtime Sample.sample_engines
           (u "in.pdf") (u "report.pdf") [] ∅ _ Sample.sample_result).
  exact sample_run_returns.
Defined.

Lemma scale_factors_follow_the_rule_witness :
  snd Sample.sample_run = Ok Sample.sample_result
  /\ every_page Sample.sample_runtime Sample.sample_engines
       (u "in.pdf") (u "report.pdf") (fst Sample.sample_run)
       (fun _ pg rec _ => page_scale_rule pg rec).
Proof.
  split; [vm_compute; reflexivity|].
  apply (scale_factors_follow_the_rule
           Sample.sample_runtime Sample.sample_engines
           (u "in.pdf") (u "report.pdf") [] ∅ _ Sample.sample_result).
  exact sample_run_returns.
Defined.

(** C4, the counterexamples: a fragment whose confidence reads nan is
    kept, and its confidence is not at least 0; and on a table whose
    confidence column is shorter than its text column the filtering
    raises IndexError. *)
Lemma nan_is_kept_and_short_column_raises :
  (exists box conf,
      ocr_loop Sample.sample_runtime Sample.nan_ocr = Ok [box]
      /\ jfield "conf" box = Some (JFloat conf)
      /\ PrimFloat.leb 0 conf = false)
  /\ ocr_loop Sample.sample_runtime MoreSamples.ocr_ragged = Raise IndexError.
Proof.
  split; [|vm_compute; reflexivity].
  eexists _, _. split; [vm_compute; reflexivity|].
  split; [reflexivity|]. vm_compute. reflexivity.
Qed.

Lemma span_text_is_trimmed_and_not_empty_witness :
  snd Sample.sample_run = Ok Sample.sample_result
  /\ every_page Sample.sample_runtime Sample.sample_engines
       (u "in.pdf") (u "report.pdf") (fst Sample.sample_run)
       (fun _ pg rec tl => page_texts_trimmed pg rec tl).
Proof.
  split; [vm_compute; reflexivity|].
  apply (span_text_is_trimmed_and_not_empty
           Sample.sample_runtime Sample.sample_engines
           (u "in.pdf") (u "report.pdf") [] ∅ _ Sample.sample_result).
  exact sample_run_returns.
Defined.

(** C6, the counterexample: a span with text and no bbox is not skipped;
    the page record and the text-layer record each hold an entry for it,
    with a bbox of zeros. *)
Lemma span_without_bbox_is_emitted :
  span_bbox Sample.span_no_bbox = None
  /\ exists fs rec tl item layer_item,
       page_body Sample.sample_runtime Sample.sample_engines [] 0
         Sample.page_no_bbox ∅
       = (fs, Ok (rec, tl))
       /\ jfield "items" rec = Some (JList [item])
       /\ jfield "text" item = Some (JStr (u "y"))
       /\ jfield "items" tl = Some (JList [layer_item])
       /\ jfield "bbox" layer_item
          = Some (JList [JFloat 0; JFloat 0; JFloat 0; JFloat 0]).
Proof.
  split; [reflexivity|].
  eexists _, _, _, _, _. split; [vm_compute; reflexivity|].
  repeat split; reflexivity.
Qed.

Lemma zoom3_run_returns :
  run_pipeline Sample.sample_runtime Sample.zoom3_engines
    (u "in.pdf") (u "report.pdf") [] {[ u "manifest.json" := [0%N] ]}
  = (fst Sample.zoom3_run, Ok Sample.sample_result).
Proof. vm_compute. reflexivity. Qed.

Lemma text_layer_ignores_the_raster_witness :
  Forall2 same_but_raster
    [Sample.sample_page; Sample.sample_page]
    [Sample.sample_page_zoom3; Sample.sample_page_zoom3]
  /\ snd Sample.sample_run = Ok Sample.sample_result
  /\ snd Sample.zoom3_run = Ok Sample.sample_result
  /\ every_page Sample.sample_runtime Sample.sample_engines
       (u "in.pdf") (u "report.pdf") (fst Sample.sample_run)
       (fun _ pg rec tl => page_text_layer_raw pg rec tl)
  /\ fst Sample.sample_run !! u "text-layer.json"
     = fst Sample.zoom3_run !! u "text-layer.json".
Proof.
  assert (Hsame : Forall2 same_but_raster
                    [Sample.sample_page; Sample.sample_page]
                    [Sample.sample_page_zoom3; Sample.sample_page_zoom3]).
  { repeat constructor. }
  split; [exact Hsame|].
  split; [vm_compute; reflexivity|].
  split; [vm_compute; reflexivity|].
  apply (text_layer_ignores_the_raster
           Sample.sample_runtime Sample.sample_engines Sample.zoom3_engines
           (u "in.pdf") (u "report.pdf") []
           ∅ {[ u "manifest.json" := [0%N] ]} _ _
           Sample.sample_result Sample.sample_result
           [Sample.sample_page; Sample.sample_page]
           [Sample.sample_page_zoom3; Sample.sample_page_zoom3]).
  - reflexivity.
  - reflexivity.
  - exact Hsame.
  - exact sample_run_returns.
  - exact zoom3_run_returns.
Defined.

Lemma page_count_and_page_numbers_witness :
  snd Sample.sample_run = Ok Sample.sample_result
  /\ every_page Sample.sample_runtime Sample.sample_engines
       (u "in.pdf") (u "report.pdf") (fst Sample.sample_run)
       (fun k _ rec _ =>
          jfield "pageNumber" rec = Some (JInt (Z.of_nat k + 1))).
Proof.
  split; [vm_compute; reflexivity|].
  apply (page_count_and_page_numbers
           Sample.sample_runtime Sample.sample_engines
           (u "in.pdf") (u "report.pdf") [] ∅ _ Sample.sample_result).
  exact sample_run_returns.
Defined.

Lemma rerun_writes_the_same_files_witness :
  snd Sample.sample_run = Ok Sample.sample_result
  /\ forall fs2,
       exists fs2',
         run_pipeline Sample.sample_runtime Sample.sample_engines
           (u "in.pdf") (u "report.pdf") [] fs2
         = (fs2', Ok Sample.sample_result)
         /\ fs2' !! u "manifest.json"
            = fst Sample.sample_run !! u "manifest.json"
         /\ fs2' !! u "text-layer.json"
            = fst Sample.sample_run !! u "text-layer.json".
Proof.
  split; [vm_compute; reflexivity|].
  apply (rerun_writes_the_same_files
           Sample.sample_runtime Sample.sample_engines
           (u "in.pdf") (u "report.pdf") [] ∅ _ Sample.sample_result).
  exact sample_run_returns.
Defined.

(** ** The scenarios of the specification on the sample document *)

Example letter_page_scale_is_two :
  scale_factor 1224 612 = Ok 2%float /\ scale_factor 1584 792 = Ok 2%float
  /\ scale_factor 1224 0 = Ok 1%float.
Proof. repeat split; vm_compute; reflexivity. Qed.

Example hello_span_in_raster_space :
  snd (span_loop 2 2 Sample.sample_text_dict)
  = [ JDict [ ("x", JFloat 200); ("y", JFloat 200); ("w", JFloat 200);
              ("h", JFloat 40); ("text", JStr (u "Hello"));
              ("size", JFloat 12); ("font", JStr (u "Helvetica")) ];
      JDict [ ("x", JFloat 100); ("y", JFloat 20); ("w", JFloat 0);
              ("h", JFloat 40); ("text", JStr (u "z"));
              ("size", JFloat 10); ("font", JStr (u "Courier")) ] ]%string.
Proof. vm_compute. reflexivity. Qed.

Example one_image_box :
  image_loop 2 2 Sample.sample_text_dict
  = [ JDict [ ("x", JFloat 20); ("y", JFloat 40); ("w", JFloat 200);
              ("h", JFloat 400) ] ]%string.
Proof. vm_compute. reflexivity. Qed.

Example width_one_row_is_absent :
  ocr_loop Sample.sample_runtime Sample.sample_ocr
  = Ok [ JDict [ ("x", JFloat 200); ("y", JFloat 200); ("w", JFloat 200);
                 ("h", JFloat 40); ("conf", JFloat 96) ] ]%string.
Proof. vm_compute. reflexivity. Qed.

Example page_image_names :
  image_name 1 = u "assets/page_001.png"
  /\ image_name 12 = u "assets/page_012.png"
  /\ image_name 1234 = u "assets/page_1234.png".
Proof. repeat split; vm_compute; reflexivity. Qed.

Example failed_run_is_reported :
  let o := main Sample.sample_runtime Sample.sample_engines
             (u "broken.pdf") (u "out") (u "report.pdf") [] ∅ in
  out_exit o = 1
  /\ out_stdout o
     = [ json_dumps Sample.sample_runtime
           (JDict [ ("ok", JBool false);
                    ("error", JStr (u "cannot render page"));
                    ("traceback",
                     JStr (u "Traceback (most recent call last): cannot render page")) ]%string) ]
  /\ out_files o !! u "assets/page_001.png" = Some [137; 80; 78; 71]%N
  /\ out_files o !! u "manifest.json" = None.
Proof. vm_compute. repeat split; reflexivity. Qed.

Example sample_table_is_well_formed :
  table_well_formed Sample.sample_runtime Sample.sample_ocr.
Proof.
  split; [simpl; lia|].
  intros column Hin. simpl in Hin.
  destruct Hin as [<-|[<-|[<-|[<-|[]]]]];
    (split; [simpl; lia|]);
    repeat constructor; eexists; vm_compute; reflexivity.
Qed.

Example unparseable_confidence_counts_as_minus_one :
  parse_conf Sample.sample_runtime (CStr (u "abc")) = (-1)%float
  /\ parse_conf Sample.sample_runtime (CStr (u " 96 ")) = 96%float
  /\ parse_conf Sample.sample_runtime (CInt 0) = 0%float.
Proof. repeat split; vm_compute; reflexivity. Qed.

(** * Further properties of the code *)

(** ** Decimal digits and the names of the page rasters *)

Module NameFacts.

Lemma u_cons (a : ascii) (s : string) : u (String a s) = N_of_ascii a :: u s.
Proof. reflexivity. Qed.

Lemma u_inj (s t : string) : u s = u t -> s = t.
Proof.
  revert t. induction s as [|a s IH]; intros [|b t]; try discriminate.
  - reflexivity.
  - rewrite !u_cons. intros [= Hab Hst].
    f_equal; [|now apply IH].
    rewrite <- (ascii_N_embedding a), <- (ascii_N_embedding b). now rewrite Hab.
Qed.

Lemma pretty_N_char_digit (x : N) :
  (x < 10)%N -> is_digit (N_of_ascii (pretty_N_char x)).
Proof.
  intros _. unfold pretty_N_char, is_digit.
  repeat case_match; vm_compute; split; discriminate.
Qed.

Lemma pretty_N_char_nonzero (x : N) :
  (0 < x < 10)%N -> N_of_ascii (pretty_N_char x) <> 48%N.
Proof.
  intros Hx. unfold pretty_N_char.
  repeat case_match; try (vm_compute; discriminate). lia.
Qed.

Lemma pretty_N_go_digits (x : N) :
  forall s, Forall is_digit (u s) -> Forall is_digit (u (pretty_N_go x s)).
Proof.
  induction (N.lt_wf_0 x) as [x _ IH]; intros s Hs.
  assert (x = 0 \/ 0 < x)%N as [->|Hx] by lia.
  - now rewrite pretty_N_go_0.
  - rewrite pretty_N_go_step by done. apply IH; [now apply N.div_lt|].
    rewrite u_cons. constructor; [|exact Hs].
    apply pretty_N_char_digit. now apply N.mod_lt.
Qed.

(** The decimal text of a positive number starts with a digit that is not
    zero. *)
Lemma pretty_N_go_head (x : N) :
  forall s,
    (0 < x)%N ->
    exists c r, u (pretty_N_go x s) = c :: r /\ c <> 48%N.
Proof.
  induction (N.lt_wf_0 x) as [x _ IH]; intros s Hx.
  rewrite pretty_N_go_step by done.
  destruct (N.eq_dec (N.div x 10) 0%N) as [H0|Hq%N.neq_0_lt_0].
  - rewrite H0, pretty_N_go_0, u_cons. eexists _, _. split; [reflexivity|].
    apply pretty_N_char_nonzero.
    apply N.div_small_iff in H0; [|lia].
    rewrite N.mod_small by lia. lia.
  - apply IH; [now apply N.div_lt|exact Hq].
Qed.

Lemma pretty_Zpos (p : positive) :
  pretty (Zpos p) = pretty_N_go (Npos p) "".
Proof. reflexivity. Qed.

Lemma pretty_Zpos_digits (p : positive) :
  Forall is_digit (u (pretty (Zpos p))).
Proof. rewrite pretty_Zpos. apply pretty_N_go_digits. constructor. Qed.

Lemma pretty_Zpos_head (p : positive) :
  exists c r, u (pretty (Zpos p)) = c :: r /\ c <> 48%N.
Proof. rewrite pretty_Zpos. apply pretty_N_go_head. lia. Qed.

Lemma pretty_Z_digits (n : Z) :
  (0 <= n)%Z -> Forall is_digit (u (pretty n)).
Proof.
  destruct n as [|p|p]; intros Hn; [|apply pretty_Zpos_digits|lia].
  repeat constructor; vm_compute; discriminate.
Qed.

Lemma zero_padding_inj (ka kb : nat) (a b : pystr) :
  (forall r, a <> 48%N :: r) -> (forall r, b <> 48%N :: r) ->
  repeat 48%N ka ++ a = repeat 48%N kb ++ b -> a = b.
Proof.
  intros Ha Hb. revert kb. induction ka as [|ka IH]; intros [|kb]; simpl.
  - auto.
  - intros H. now destruct (Ha _ H).
  - intros H. symmetry in H. now destruct (Hb _ H).
  - intros [= H]. eauto.
Qed.

Lemma format_03d_pos (p : positive) :
  format_03d (Zpos p) = zfill3 (u (pretty (Zpos p))).
Proof. reflexivity. Qed.

Lemma format_03d_inj (p q : positive) :
  format_03d (Zpos p) = format_03d (Zpos q) -> p = q.
Proof.
  rewrite !format_03d_pos. unfold zfill3. intros H.
  apply zero_padding_inj in H.
  - apply u_inj in H. apply (inj pretty) in H. now injection H.
  - intros r Hr. destruct (pretty_Zpos_head p) as (c & r' & Hc & Hne).
    rewrite Hc in Hr. now injection Hr as -> _.
  - intros r Hr. destruct (pretty_Zpos_head q) as (c & r' & Hc & Hne).
    rewrite Hc in Hr. now injection Hr as -> _.
Qed.

Lemma page_number_pos (k : nat) :
  (Z.of_nat k + 1)%Z = Zpos (Pos.of_succ_nat k).
Proof. lia. Qed.

Lemma image_name_inj (i j : nat) :
  image_name (Z.of_nat i + 1) = image_name (Z.of_nat j + 1) -> i = j.
Proof.
  rewrite !page_number_pos. unfold image_name. intros H.
  apply app_inv_head, app_inv_tail, format_03d_inj in H.
  apply (f_equal Pos.to_nat) in H. rewrite !SuccNat2Pos.id_succ in H. lia.
Qed.

Lemma image_name_is_asset_path (n : Z) : asset_path (image_name n).
Proof. now eexists. Qed.

Lemma report_path_is_no_asset_path (path : pystr) :
  In path report_paths -> ~ asset_path path.
Proof.
  intros Hin [rest ->]. simpl in Hin.
  destruct Hin as [H|[H|[H|[]]]]; vm_compute in H; discriminate.
Qed.

Lemma format_03d_digits (p : positive) :
  Forall is_digit (format_03d (Zpos p)).
Proof.
  rewrite format_03d_pos. unfold zfill3. apply Forall_app. split.
  - apply Forall_forall. intros c Hc%list_elem_of_In%repeat_spec. subst.
    vm_compute. split; discriminate.
  - apply pretty_Zpos_digits.
Qed.

(** The name of a page raster is printable and holds no backslash. *)
Lemma image_name_chars (k : nat) :
  Forall (fun c => printable c /\ c <> 92%N) (image_name (Z.of_nat k + 1)).
Proof.
  rewrite page_number_pos. unfold image_name.
  apply Forall_app; split; [|apply Forall_app; split].
  - repeat constructor; vm_compute; discriminate.
  - eapply Forall_impl; [apply format_03d_digits|].
    unfold is_digit, printable. intros c Hc. split; lia.
  - repeat constructor; vm_compute; discriminate.
Qed.

Lemma replace2_absent (o1 o2 : N) (new s : pystr) :
  Forall (fun c => c <> o1) s -> replace2 o1 o2 new s = s.
Proof.
  induction s as [|c1 [|c2 s] IH]; intros H; try reflexivity.
  inversion H as [|? ? Hc1 Hrest]; subst.
  simpl. destruct (N.eqb_spec c1 o1); [contradiction|]. simpl.
  f_equal. now apply IH.
Qed.

Lemma image_path_is_image_name (k : nat) :
  replace2 92 92 (u "/") (image_name (Z.of_nat k + 1))
  = image_name (Z.of_nat k + 1).
Proof.
  apply replace2_absent.
  eapply Forall_impl; [apply image_name_chars|]. now intros c [_ Hc].
Qed.

End NameFacts.

(** ** The files a run writes *)

Section FileFacts.
Context (rt : runtime) (eng : engines).

Local Open Scope string_scope.
Local Open Scope list_scope.

(** The body of the page loop writes the raster of its page, or nothing
    when the rendering raised. *)
Lemma page_body_state (tess : pystr) (i : nat) (pg : page) (fs fs' : files)
    (r : result (json * json)) :
  page_body rt eng tess i pg fs = (fs', r) ->
  (exists e, page_get_pixmap pg = Raise e /\ r = Raise e /\ fs' = fs)
  \/ (exists pix,
         page_get_pixmap pg = Ok pix
         /\ fs' = <[image_name (Z.of_nat i + 1) := pix_png pix]> fs).
Proof.
  unfold page_body, mbind, lift, save_bytes, open_file, mret.
  destruct (page_get_pixmap pg) as [pix|e].
  - intros H. right. exists pix. split; [reflexivity|].
    destruct (scale_factor _ _); [|now injection H].
    destruct (scale_factor _ _); [|now injection H].
    destruct (page_get_text_1 pg); [|now injection H].
    destruct (page_get_text_2 pg); [|now injection H].
    rewrite lookup_insert_eq in H.
    destruct (image_to_data _ _ _); [|now injection H].
    destruct (ocr_loop _ _); now injection H.
  - intros [= <- <-]. left. now exists e.
Qed.

(** The page loop over the pages from index [i] on touches the rasters
    of these pages and no other file. *)
Lemma page_loop_other_files (tess : pystr) (doc : list page) :
  forall i acc fs fs' r,
    page_loop rt eng tess i doc acc fs = (fs', r) ->
    forall path,
      (forall k, (k < length doc)%nat ->
                 path <> image_name (Z.of_nat (i + k) + 1)) ->
      fs' !! path = fs !! path.
Proof.
  induction doc as [|pg doc IH]; intros i acc fs fs' r; simpl.
  - unfold mret. now intros [= <- _].
  - unfold mbind at 1.
    destruct (page_body rt eng tess i pg fs) as [fs1 rb] eqn:Hbody.
    intros Hrest path Hpath.
    assert (H1 : fs1 !! path = fs !! path).
    { destruct (page_body_state _ _ _ _ _ _ Hbody)
        as [(e & _ & _ & ->)|(pix & _ & ->)]; [reflexivity|].
      apply lookup_insert_ne. intros Heq. apply (Hpath 0%nat); [lia|].
      now rewrite Nat.add_0_r. }
    destruct rb as [rb|e].
    + rewrite <- H1. eapply IH; [exact Hrest|].
      intros k Hk. replace (S i + k)%nat with (i + S k)%nat by lia.
      apply Hpath. lia.
    + injection Hrest as <- _. exact H1.
Qed.

Lemma page_loop_keeps_other_paths (tess : pystr) (doc : list page)
    (i : nat) (acc : list json * list json) (fs fs' : files)
    (r : result (list json * list json)) (path : pystr) :
  page_loop rt eng tess i doc acc fs = (fs', r) ->
  ~ asset_path path -> fs' !! path = fs !! path.
Proof.
  intros Hloop Hpath. eapply page_loop_other_files; [exact Hloop|].
  intros k _ ->. apply Hpath, NameFacts.image_name_is_asset_path.
Qed.

(** When the page loop returns, the raster of every page is in place. *)
Lemma page_loop_assets (tess : pystr) (doc : list page) :
  forall i acc fs fs' r,
    page_loop rt eng tess i doc acc fs = (fs', Ok r) ->
    forall k pg,
      doc !! k = Some pg ->
      exists pix,
        page_get_pixmap pg = Ok pix
        /\ fs' !! image_name (Z.of_nat (i + k) + 1) = Some (pix_png pix).
Proof.
  induction doc as [|pg0 doc IH]; intros i acc fs fs' r; simpl.
  - intros _ k pg H. now rewrite lookup_nil in H.
  - unfold mbind at 1.
    destruct (page_body rt eng tess i pg0 fs) as [fs1 [rb|e]] eqn:Hbody;
      [|discriminate].
    intros Hrest [|k] pg; simpl.
    + intros [= <-].
      destruct (page_body_state _ _ _ _ _ _ Hbody)
        as [(e & _ & He & _)|(pix & Hpix & ->)]; [discriminate|].
      exists pix. split; [exact Hpix|].
      rewrite (page_loop_other_files _ _ _ _ _ _ _ Hrest).
      * rewrite Nat.add_0_r. apply lookup_insert_eq.
      * intros j _ Heq. apply NameFacts.image_name_inj in Heq. lia.
    + intros Hk. replace (i + S k)%nat with (S i + k)%nat by lia.
      eapply IH; eauto.
Qed.

Lemma page_loop_app (tess : pystr) (d1 d2 : list page) :
  forall i acc fs,
    page_loop rt eng tess i (d1 ++ d2) acc fs
    = match page_loop rt eng tess i d1 acc fs with
      | (fs1, Ok acc1) => page_loop rt eng tess (i + length d1) d2 acc1 fs1
      | (fs1, Raise e) => (fs1, Raise e)
      end.
Proof.
  induction d1 as [|pg d1 IH]; intros i acc fs; simpl.
  - unfold mret. now rewrite Nat.add_0_r.
  - unfold mbind.
    destruct (page_body rt eng tess i pg fs) as [fs1 [rb|e]]; [|reflexivity].
    rewrite IH. now replace (S i + length d1)%nat with (i + S (length d1))%nat by lia.
Qed.

(** The stages of a run: the document is opened, the page loop runs, and
    the three report files are written one after the other. *)
Lemma run_pipeline_stages (input name tess : pystr) (fs fs' : files)
    (r : result json) :
  run_pipeline rt eng input name tess fs = (fs', r) ->
  (exists e, fitz_open eng input = Raise e /\ r = Raise e /\ fs' = fs)
  \/ exists doc fs1 rl,
       fitz_open eng input = Ok doc
       /\ page_loop rt eng tess 0 doc ([], []) fs = (fs1, rl)
       /\ match rl with
          | Raise e => r = Raise e /\ fs' = fs1
          | Ok (pages, tls) =>
              match utf8_encode (json_dumps rt (manifest_of name pages)),
                    utf8_encode (json_dumps rt (JList tls)),
                    utf8_encode (viewer_template rt (html_escape name)) with
              | None, _, _ =>
                  r = Raise UnicodeEncodeError
                  /\ fs' = <[u "manifest.json" := []]> fs1
              | Some d1, None, _ =>
                  r = Raise UnicodeEncodeError
                  /\ fs' = <[u "text-layer.json" := []]>
                             (<[u "manifest.json" := d1]> fs1)
              | Some d1, Some d2, None =>
                  r = Raise UnicodeEncodeError
                  /\ fs' = <[u "index.html" := []]>
                             (<[u "text-layer.json" := d2]>
                                (<[u "manifest.json" := d1]> fs1))
              | Some d1, Some d2, Some d3 =>
                  r = Ok (JDict [ ("ok", JBool true);
                                  ("pages", JInt (Z.of_nat (length pages)));
                                  ("preview", JStr (u "index.html")) ])
                  /\ fs' = <[u "index.html" := d3]>
                             (<[u "text-layer.json" := d2]>
                                (<[u "manifest.json" := d1]> fs1))
              end
          end.
Proof.
  unfold run_pipeline, write_template_html.
  unfold mbind at 1. unfold lift at 1.
  destruct (fitz_open eng input) as [doc|e].
  - intros H. right. unfold mbind at 1 in H.
    destruct (page_loop rt eng tess 0 doc ([], []) fs) as [fs1 rl] eqn:Hloop.
    exists doc, fs1, rl. split; [reflexivity|]. split; [exact Hloop|].
    destruct rl as [[pages tls]|e]; [|now injection H as <- <-].
    simpl fst in H. simpl snd in H.
    unfold mbind, write_text, mret in H.
    destruct (utf8_encode (json_dumps rt (manifest_of name pages))) as [d1|];
      [|now injection H as <- <-].
    destruct (utf8_encode (json_dumps rt (JList tls))) as [d2|];
      [|now injection H as <- <-].
    destruct (utf8_encode (viewer_template rt (html_escape name))) as [d3|];
      now injection H as <- <-.
  - intros [= <- <-]. left. now exists e.
Qed.

End FileFacts.

(** ** What a run leaves in the output directory *)

Section RunFiles.
Context (rt : runtime) (eng : engines).

Local Open Scope string_scope.
Local Open Scope list_scope.

Lemma scale_factor_returns (n : Z) (d : float) :
  PyFloat.of_int n <> None -> exists s, scale_factor n d = Ok s.
Proof.
  intros Hn. unfold scale_factor.
  destruct (PyFloat.truthy d); [|eauto].
  destruct (PyFloat.of_int n); [eauto|contradiction].
Qed.

Lemma page_well_behaved_ok (tess : pystr) (i : nat) (pg : page) :
  page_well_behaved rt eng tess pg ->
  exists rec tl, page_ok rt eng tess i pg rec tl.
Proof.
  intros (pix & td1 & td2 & ocr & Hpix & Hw & Hh & Htd1 & Htd2 & Hocr & Hwf).
  destruct (scale_factor_returns (pix_width pix) (page_rect_width pg) Hw)
    as [sx Hsx].
  destruct (scale_factor_returns (pix_height pix) (page_rect_height pg) Hh)
    as [sy Hsy].
  destruct (ocr_loop_returns rt ocr Hwf) as [boxes Hboxes].
  eexists _, _.
  apply (page_ok_intro rt eng tess i pg pix sx sy td1 td2 ocr boxes);
    try assumption.
  now split.
Qed.

(** Over well-behaved pages the page loop returns. *)
Lemma page_loop_returns (tess : pystr) (doc : list page) :
  Forall (page_well_behaved rt eng tess) doc ->
  forall i acc fs,
    exists fs1 r, page_loop rt eng tess i doc acc fs = (fs1, Ok r).
Proof.
  induction 1 as [|pg doc Hpg _ IH]; intros i acc fs; simpl.
  - unfold mret. eauto.
  - destruct (page_well_behaved_ok tess i pg Hpg) as (rec & tl & Hok).
    destruct (page_ok_body rt eng tess i pg rec tl fs Hok) as [fs1 Hbody].
    unfold mbind. rewrite Hbody. apply IH.
Qed.

Lemma report_paths_differ_from_rasters (n : Z) (path : pystr) :
  In path report_paths -> image_name n <> path.
Proof.
  intros Hin Heq. apply (NameFacts.report_path_is_no_asset_path path Hin).
  rewrite <- Heq. apply NameFacts.image_name_is_asset_path.
Qed.

Lemma lookup_after_reports (fs1 : files) (d1 d2 d3 : list N) (path : pystr) :
  ~ In path report_paths ->
  <[u "index.html" := d3]>
    (<[u "text-layer.json" := d2]> (<[u "manifest.json" := d1]> fs1)) !! path
  = fs1 !! path.
Proof.
  intros Hpath. unfold report_paths in Hpath. simpl in Hpath.
  rewrite !lookup_insert_ne; [reflexivity|..]; intros Heq; apply Hpath; auto.
Qed.

(** X1: after a run that returns, the manifest record of every page names
    under imagePath the file assets/page_NNN.png of its page number, this
    file holds the PNG the renderer saved for the page, and renderWidth
    and renderHeight are the pixel sizes of that raster. *)
Theorem manifest_points_at_the_saved_rasters (input name tess : pystr)
    (fs fs' : files) (res : json) :
  run_pipeline rt eng input name tess fs = (fs', Ok res) ->
  every_page rt eng input name fs'
    (fun k pg rec _ =>
       exists pix,
         page_get_pixmap pg = Ok pix
         /\ jfield "imagePath" rec = Some (JStr (image_name (Z.of_nat k + 1)))
         /\ fs' !! image_name (Z.of_nat k + 1) = Some (pix_png pix)
         /\ jfield "renderWidth" rec = Some (JInt (pix_width pix))
         /\ jfield "renderHeight" rec = Some (JInt (pix_height pix))).
Proof.
  intros Hrun.
  destruct (run_pipeline_every_page rt eng _ _ _ _ _ _
              (fun k pg rec tl => page_ok rt eng tess k pg rec tl)
              Hrun (fun _ _ _ _ H => H))
    as (doc & pages & tls & Hout & Hall).
  exists doc, pages, tls. split; [exact Hout|].
  intros k pg Hk. destruct (Hall k pg Hk) as (rec & tl & Hr & Ht & Hok).
  exists rec, tl. split; [exact Hr|]. split; [exact Ht|].
  destruct (run_pipeline_stages rt eng _ _ _ _ _ _ Hrun)
    as [(e & _ & He & _)|(doc' & fs1 & rl & Hdoc' & Hloop & Hrest)];
    [discriminate|].
  destruct Hout as (Hdoc & _). rewrite Hdoc in Hdoc'. injection Hdoc' as <-.
  destruct rl as [[pages' tls']|e]; [|now destruct Hrest].
  destruct (page_loop_assets rt eng _ _ _ _ _ _ _ Hloop k pg Hk)
    as (pix & Hpix & Hfile).
  destruct Hok as [pix' sx sy td1 td2 ocr boxes Hpix' _ _ _ _ _].
  rewrite Hpix in Hpix'. injection Hpix' as <-.
  exists pix. split; [exact Hpix|].
  split.
  { transitivity
      (Some (JStr (replace2 92 92 (u "/") (image_name (Z.of_nat k + 1)))));
      [reflexivity|].
    now rewrite NameFacts.image_path_is_image_name. }
  split; [|split; reflexivity].
  destruct (utf8_encode (json_dumps rt (manifest_of name pages'))) as [d1|];
    [|now destruct Hrest].
  destruct (utf8_encode (json_dumps rt (JList tls'))) as [d2|];
    [|now destruct Hrest].
  destruct (utf8_encode (viewer_template rt (html_escape name))) as [d3|];
    [|now destruct Hrest].
  destruct Hrest as [_ ->].
  rewrite lookup_after_reports; [exact Hfile|].
  intros Hin.
  now apply (report_paths_differ_from_rasters (Z.of_nat (0 + k) + 1) _ Hin).
Qed.

(** X2: whatever its outcome, a run changes no file of the output
    directory other than the page rasters assets/page_* and
    manifest.json, text-layer.json and index.html. *)
Theorem run_touches_only_its_own_files (input name tess : pystr)
    (fs fs' : files) (r : result json) (path : pystr) :
  run_pipeline rt eng input name tess fs = (fs', r) ->
  ~ asset_path path ->
  ~ In path report_paths ->
  fs' !! path = fs !! path.
Proof.
  intros Hrun Hasset Hreport.
  destruct (run_pipeline_stages rt eng _ _ _ _ _ _ Hrun)
    as [(e & _ & _ & ->)|(doc & fs1 & rl & _ & Hloop & Hrest)];
    [reflexivity|].
  rewrite <- (page_loop_keeps_other_paths rt eng _ _ _ _ _ _ _ path Hloop Hasset).
  unfold report_paths in Hreport. simpl in Hreport.
  assert (Hm : u "manifest.json" <> path) by tauto.
  assert (Ht : u "text-layer.json" <> path) by tauto.
  assert (Hi : u "index.html" <> path) by tauto.
  destruct rl as [[pages tls]|e]; [|now destruct Hrest as [_ ->]].
  destruct (utf8_encode (json_dumps rt (manifest_of name pages))) as [d1|];
    [|destruct Hrest as [_ ->]; now rewrite lookup_insert_ne].
  destruct (utf8_encode (json_dumps rt (JList tls))) as [d2|];
    [|destruct Hrest as [_ ->]; now rewrite !lookup_insert_ne].
  destruct (utf8_encode (viewer_template rt (html_escape name))) as [d3|];
    destruct Hrest as [_ ->]; now rewrite !lookup_insert_ne.
Qed.

(** X3: when a page of the document does not go through, after the
    pages before it did, the run raises and leaves no report: each of
    manifest.json, text-layer.json and index.html is as it was before the
    run, created by it or changed by it in no way. *)
Theorem failed_page_leaves_no_report (input name tess : pystr)
    (fs : files) (before after : list page) (pg : page) :
  fitz_open eng input = Ok (before ++ pg :: after) ->
  Forall (page_well_behaved rt eng tess) before ->
  (forall rec tl, ~ page_ok rt eng tess (length before) pg rec tl) ->
  exists fs' e,
    run_pipeline rt eng input name tess fs = (fs', Raise e)
    /\ Forall (fun path => fs' !! path = fs !! path) report_paths.
Proof.
  intros Hdoc Hbefore Hfail.
  destruct (page_loop_returns tess before Hbefore 0%nat ([], []) fs)
    as (fs1 & acc1 & Hloop1).
  destruct (page_body rt eng tess (length before) pg fs1)
    as [fs2 [[rec tl]|e]] eqn:Hbody.
  { destruct (Hfail rec tl). eapply page_body_ok; eauto. }
  assert (Hloop : page_loop rt eng tess 0 (before ++ pg :: after) ([], []) fs
                  = (fs2, Raise e)).
  { rewrite page_loop_app, Hloop1. simpl. unfold mbind. now rewrite Hbody. }
  exists fs2, e. split.
  - unfold run_pipeline. unfold mbind at 1. unfold lift at 1.
    rewrite Hdoc. unfold mbind at 1. now rewrite Hloop.
  - apply List.Forall_forall. intros path Hin.
    apply (page_loop_keeps_other_paths rt eng _ _ _ _ _ _ _ path Hloop).
    now apply NameFacts.report_path_is_no_asset_path.
Qed.

(** X4: when the rendering of a page raises after the pages before it
    got through, the run raises that exception, the rasters of the pages
    before it are saved, and no raster is written for that page or for any
    page after it. *)
Theorem run_stops_at_the_first_failing_page (input name tess : pystr)
    (fs : files) (before after : list page) (pg : page) (e : exn) :
  fitz_open eng input = Ok (before ++ pg :: after) ->
  Forall (page_well_behaved rt eng tess) before ->
  page_get_pixmap pg = Raise e ->
  exists fs',
    run_pipeline rt eng input name tess fs = (fs', Raise e)
    /\ (forall k pg',
           before !! k = Some pg' ->
           exists pix,
             page_get_pixmap pg' = Ok pix
             /\ fs' !! image_name (Z.of_nat k + 1) = Some (pix_png pix))
    /\ (forall k,
           (length before <= k)%nat ->
           fs' !! image_name (Z.of_nat k + 1)
           = fs !! image_name (Z.of_nat k + 1)).
Proof.
  intros Hdoc Hbefore Hpix.
  destruct (page_loop_returns tess before Hbefore 0%nat ([], []) fs)
    as (fs1 & acc1 & Hloop1).
  exists fs1. split; [|split].
  - unfold run_pipeline. unfold mbind at 1. unfold lift at 1.
    rewrite Hdoc. unfold mbind at 1.
    rewrite page_loop_app, Hloop1. simpl.
    unfold mbind at 1. unfold page_body. unfold mbind at 1. unfold lift at 1.
    now rewrite Hpix.
  - intros k pg' Hk.
    apply (page_loop_assets rt eng _ _ _ _ _ _ _ Hloop1 k pg' Hk).
  - intros k Hk.
    apply (page_loop_other_files rt eng _ _ _ _ _ _ _ Hloop1).
    intros j Hj Heq. apply NameFacts.image_name_inj in Heq. simpl in Heq. lia.
Qed.

End RunFiles.

(** ** Boxes, spans and blocks *)

Section ExtractionFacts.

Local Open Scope string_scope.
Local Open Scope list_scope.

Lemma le_zero_not_nan (x : float) :
  PrimFloat.leb 0 x = true -> PrimFloat.is_nan x = false.
Proof.
  unfold PrimFloat.is_nan.
  rewrite FloatAxioms.leb_spec, FloatAxioms.eqb_spec. unfold SFleb, SFeqb.
  destruct (Prim2SF x) as [[]|[]| |[] m e]; simpl; try reflexivity;
    try (vm_compute; discriminate);
    intros _; now rewrite Z.compare_refl, Pos.compare_cont_refl.
Qed.

Lemma max_zero_normalized (d : float) :
  normalized_extent d (PyFloat.py_max 0 d).
Proof.
  split; [|split].
  - apply le_zero_not_nan, FloatFacts.max_zero_nonneg.
  - apply FloatFacts.max_zero_nonneg.
  - unfold PyFloat.py_max. destruct (PrimFloat.ltb 0 d); auto.
Qed.

(** X5: bbox_to_dict keeps x0 and y0 as x and y, and stores as w and h
    the extents x1 - x0 and y1 - y0 when they are positive and 0.0
    otherwise (a flipped box, an extent of NaN), so that w and h are never
    NaN and never negative, whatever the four numbers. *)
Theorem bbox_to_dict_normalizes_the_extents (x0 y0 x1 y1 : float) :
  exists w h,
    bbox_to_dict x0 y0 x1 y1
    = [ ("x", JFloat x0); ("y", JFloat y0); ("w", JFloat w); ("h", JFloat h) ]
    /\ normalized_extent (x1 - x0) w
    /\ normalized_extent (y1 - y0) h.
Proof.
  eexists _, _. split; [reflexivity|].
  split; apply max_zero_normalized.
Qed.

Lemma lstrip_nil_iff (s : pystr) : lstrip s = [] <-> blank s.
Proof.
  unfold blank. induction s as [|c s IH]; simpl.
  - split; [constructor|reflexivity].
  - destruct (isspace c) eqn:E.
    + rewrite IH. split; [now constructor|now inversion 1].
    + split; [discriminate|]. inversion 1; congruence.
Qed.

Lemma strip_nil_iff (s : pystr) : strip s = [] <-> blank s.
Proof.
  rewrite <- lstrip_nil_iff. unfold strip.
  destruct (lstrip s) as [|c t] eqn:E; [split; reflexivity|].
  rewrite (StripFacts.rstrip_cons c t (StripFacts.lstrip_head _ _ _ E)).
  split; discriminate.
Qed.



Lemma image_body_appends (sx sy : float) (acc : list json) (b : block_d) :
  image_body sx sy acc b = acc ++ image_body sx sy [] b.
Proof.
  unfold image_body.
  destruct (block_type b) as [[|[| |]|]|]; simpl;
    try (now rewrite app_nil_r).
  destruct (block_bbox b) as [[|x0 [|y0 [|x1 [|y1 [|z r]]]]]|];
    simpl; now rewrite ?app_nil_r.
Qed.

(** X7: the text extraction reads only the blocks of type 0 and the image
    extraction only the blocks of type 1: taking every other block out of
    the page tree changes neither result, and no block is of both types,
    so that no block feeds both the items and the image boxes. *)
Theorem extraction_reads_blocks_by_type (sx sy : float) (td : text_dict) :
  span_loop sx sy (blocks_without (fun b => negb (is_text_block b)) td)
  = span_loop sx sy td
  /\ image_loop sx sy (blocks_without (fun b => negb (is_image_block b)) td)
     = image_loop sx sy td
  /\ (forall b, is_text_block b && is_image_block b = false).
Proof.
  split; [|split].
  - rewrite !span_loop_entries. unfold text_spans, blocks_without, td_block_list.
    simpl. destruct (td_blocks td) as [blocks|]; [|reflexivity].
    rewrite flat_map_filter_out; [reflexivity|].
    intros b. unfold is_text_block.
    destruct (block_type b) as [[| |]|]; simpl; try reflexivity; discriminate.
  - unfold image_loop, blocks_without, td_block_list. simpl.
    destruct (td_blocks td) as [blocks|]; [|reflexivity].
    rewrite !(LoopFacts.fold_left_appends _ _ (image_body_appends sx sy)).
    simpl. apply flat_map_filter_out.
    intros b. unfold is_image_block, image_body.
    destruct (block_type b) as [[|[| |]|]|]; simpl; try reflexivity;
      discriminate.
  - intros b. unfold is_text_block, is_image_block.
    now destruct (block_type b) as [[|[| |]|]|].
Qed.

(** X8: two pages of a document get the same raster name
    assets/page_NNN.png only when they are the same page: no page
    overwrites the raster of another, however many pages there are. *)
Theorem page_rasters_have_distinct_names (i j : nat) :
  image_name (Z.of_nat i + 1) = image_name (Z.of_nat j + 1) <-> i = j.
Proof.
  split; [apply NameFacts.image_name_inj|now intros ->].
Qed.

End ExtractionFacts.

(** ** The OCR loop *)

Section OcrFacts.
Context (rt : runtime).

Local Open Scope string_scope.
Local Open Scope list_scope.

Lemma rfold_unchanged {A B} (body : A -> B -> result A) (l : list B) (acc : A) :
  (forall b, In b l -> body acc b = Ok acc) -> rfold body l acc = Ok acc.
Proof.
  induction l as [|b l IH]; intros H; simpl; [reflexivity|].
  rewrite (H b) by now left. simpl. apply IH. intros b' Hb'. apply H. now right.
Qed.

Lemma rfold_raises {A B} (body : A -> B -> result A) (l : list B) (b : B) :
  In b l -> (forall acc, exists e, body acc b = Raise e) ->
  forall acc, exists e, rfold body l acc = Raise e.
Proof.
  intros Hin Hb. induction l as [|b0 l IH]; intros acc; [destruct Hin|].
  simpl. destruct (body acc b0) as [acc'|e] eqn:E; simpl; [|eauto].
  destruct Hin as [->|Hin]; [|now apply IH].
  destruct (Hb acc) as [e He]. congruence.
Qed.

Lemma rfold_error {A B} (body : A -> B -> result A) (P : exn -> Prop)
    (l : list B) :
  (forall acc b e, body acc b = Raise e -> P e) ->
  forall acc e, rfold body l acc = Raise e -> P e.
Proof.
  intros Hbody. induction l as [|b l IH]; intros acc e; simpl; [discriminate|].
  destruct (body acc b) as [acc'|e'] eqn:E; simpl; [apply IH|].
  intros [= <-]. eauto.
Qed.

Lemma column_error (column : list cell) (j : nat) (e : exn) :
  rbind (index column j) (cell_float rt) = Raise e -> ocr_loop_error e.
Proof.
  unfold index, rbind, ocr_loop_error.
  destruct (column !! j) as [[n|x|s]|]; simpl.
  - destruct (PyFloat.of_int n); [discriminate|]. intros [= <-]. auto.
  - discriminate.
  - destruct (float_of_str rt s); [discriminate|]. intros [= <-]. eauto.
  - intros [= <-]. auto.
Qed.

Lemma ocr_body_error (ocr : ocr_dict) (acc : list json) (j : nat) (e : exn) :
  ocr_body rt ocr acc j = Raise e -> ocr_loop_error e.
Proof.
  unfold ocr_body.
  destruct (index (ocr_conf ocr) j) as [c|e0] eqn:Hc; simpl.
  - destruct (PrimFloat.ltb (parse_conf rt c) 0); [discriminate|].
    destruct (rbind (index (ocr_left ocr) j) (cell_float rt)) as [l|e1] eqn:Hl;
      simpl; [|intros [= <-]; eapply column_error; eauto].
    destruct (rbind (index (ocr_top ocr) j) (cell_float rt)) as [t|e1] eqn:Ht;
      simpl; [|intros [= <-]; eapply column_error; eauto].
    destruct (rbind (index (ocr_width ocr) j) (cell_float rt)) as [w|e1] eqn:Hw;
      simpl; [|intros [= <-]; eapply column_error; eauto].
    destruct (rbind (index (ocr_height ocr) j) (cell_float rt)) as [h|e1] eqn:Hh;
      simpl; [|intros [= <-]; eapply column_error; eauto].
    destruct (PrimFloat.leb w 1 || PrimFloat.leb h 1); discriminate.
  - unfold index in Hc. destruct (ocr_conf ocr !! j); [discriminate|].
    injection Hc as <-. intros [= <-]. left. reflexivity.
Qed.

(** X9: the OCR loop yields at most one box per row of the table, and
    when it raises, it raises IndexError (a column shorter than the text
    column), ValueError (a geometry cell that is no number) or
    OverflowError (an integer cell too large for a float), nothing else. *)
Theorem ocr_loop_outcome (ocr : ocr_dict) :
  match ocr_loop rt ocr with
  | Ok boxes => (length boxes <= length (ocr_text ocr))%nat
  | Raise e => ocr_loop_error e
  end.
Proof.
  destruct (ocr_loop rt ocr) as [boxes|e] eqn:H.
  - apply ocr_loop_spec, Forall2_length in H. rewrite <- H.
    etransitivity; [apply List.filter_length_le|]. now rewrite length_seq.
  - unfold ocr_loop in H.
    eapply (rfold_error (ocr_body rt ocr)); [|exact H].
    intros acc j e'. apply ocr_body_error.
Qed.

(** X10: a row whose confidence is below 0 or unparseable is passed over
    before its geometry is read: a table whose confidences are all of
    this kind yields no box and raises nothing, even when its left, top,
    width and height columns are shorter than the text column or hold
    cells that are no numbers. *)
Theorem noise_rows_never_read_the_geometry (ocr : ocr_dict) :
  (length (ocr_text ocr) <= length (ocr_conf ocr))%nat ->
  Forall (fun c => PrimFloat.ltb (parse_conf rt c) 0 = true) (ocr_conf ocr) ->
  ocr_loop rt ocr = Ok [].
Proof.
  intros Hlen Hneg. unfold ocr_loop. apply rfold_unchanged.
  intros j Hj%in_seq. unfold ocr_body, index.
  destruct (ocr_conf ocr !! j) as [c|] eqn:E;
    [|apply lookup_ge_None in E; lia].
  simpl. rewrite Forall_forall in Hneg.
  now rewrite (Hneg c (list_elem_of_lookup_2 _ _ _ E)).
Qed.

(** X11: a table whose confidence column is shorter than its text column
    never yields boxes: the loop raises. *)
Theorem short_confidence_column_raises (ocr : ocr_dict) :
  (length (ocr_conf ocr) < length (ocr_text ocr))%nat ->
  exists e, ocr_loop rt ocr = Raise e /\ ocr_loop_error e.
Proof.
  intros Hlen. unfold ocr_loop.
  destruct (rfold_raises (ocr_body rt ocr)
              (seq 0 (length (ocr_text ocr))) (length (ocr_conf ocr)))
    with (acc := @nil json) as [e He].
  - apply in_seq. lia.
  - intros acc. exists IndexError. unfold ocr_body, index.
    now rewrite (proj2 (lookup_ge_None _ _) (Nat.le_refl _)).
  - exists e. split; [exact He|].
    eapply (rfold_error (ocr_body rt ocr)); [|exact He].
    intros acc j e'. apply ocr_body_error.
Qed.

End OcrFacts.

(** ** The characters of the texts written and printed *)

Section TextFacts.
Context (rt : runtime).

Local Open Scope string_scope.
Local Open Scope list_scope.

Lemma json_ind_nested (P : json -> Prop) :
  (forall b, P (JBool b)) -> (forall n, P (JInt n)) ->
  (forall x, P (JFloat x)) -> (forall s, P (JStr s)) ->
  (forall l, Forall P l -> P (JList l)) ->
  (forall kv, Forall (fun p => P (snd p)) kv -> P (JDict kv)) ->
  forall j, P j.
Proof.
  intros Hb Hn Hx Hs Hl Hd. fix IH 1.
  intros [b|n|x|s|l|kv]; [apply Hb|apply Hn|apply Hx|apply Hs| |].
  - apply Hl. induction l as [|j l IHl]; constructor; [apply IH|exact IHl].
  - apply Hd.
    induction kv as [|[k v] kv IHkv]; constructor; [apply IH|exact IHkv].
Qed.

Lemma json_leaves_list (R : pystr -> Prop) (F : float -> Prop)
    (l : list json) :
  json_leaves R F (JList l) <-> Forall (json_leaves R F) l.
Proof.
  induction l as [|j l IH]; simpl.
  - split; [constructor|trivial].
  - simpl in IH. rewrite IH. split; [intros []; now constructor|now inversion 1].
Qed.

Lemma json_leaves_dict (R : pystr -> Prop) (F : float -> Prop)
    (kv : list (string * json)) :
  json_leaves R F (JDict kv) <-> Forall (fun p => json_leaves R F (snd p)) kv.
Proof.
  induction kv as [|[k v] kv IH]; simpl.
  - split; [constructor|trivial].
  - simpl in IH. rewrite IH. split; [intros []; now constructor|now inversion 1].
Qed.

(** A check of the characters of a literal. *)
Lemma json_leaves_weaken (R R' : pystr -> Prop) (F : float -> Prop) :
  (forall s, R s -> R' s) ->
  forall j, json_leaves R F j -> json_leaves R' F j.
Proof.
  intros HR. induction j as [b|n|x|s|l IH|kv IH] using json_ind_nested;
    try (simpl; tauto).
  - simpl. apply HR.
  - rewrite !json_leaves_list. intros Hl.
    induction IH as [|j l Hj _ IHl]; [constructor|].
    inversion Hl; subst. constructor; auto.
  - rewrite !json_leaves_dict. intros Hl.
    induction IH as [|p kv Hp _ IHkv]; [constructor|].
    inversion Hl; subst. constructor; auto.
Qed.

Lemma ascii_text (Q : N -> Prop) (s : string) :
  (forall c, (32 <= c < 256)%N -> Q c) ->
  forallb (fun c => (32 <=? c) && (c <? 256))%N (u s) = true ->
  Forall Q (u s).
Proof.
  intros HQ H. apply Forall_forall. intros c Hc%list_elem_of_In.
  rewrite forallb_forall in H. specialize (H c Hc).
  apply andb_true_iff in H as [H1%N.leb_le H2%N.ltb_lt]. now apply HQ.
Qed.

Lemma hex_digit_ascii (n : N) : (n < 16)%N -> (32 <= hex_digit n < 256)%N.
Proof. unfold hex_digit. destruct (N.ltb_spec n 10); lia. Qed.

Section Characters.
Context (Q : N -> Prop) (HQ : forall c, (32 <= c < 256)%N -> Q c).

Lemma json_escape_char_chars (c : N) :
  ((32 <= c)%N -> Q c) -> Forall Q (json_escape_char c).
Proof.
  intros Hc. unfold json_escape_char.
  repeat (match goal with
          | |- context [if ?b then _ else _] => destruct b eqn:?
          end;
          [first [ now apply ascii_text
                 | repeat constructor; apply HQ; lia ]|]).
  destruct (N.ltb_spec c 32) as [Hlt|Hge].
  - apply Forall_app. split; [now apply ascii_text|].
    assert (c / 16 < 16)%N by (apply N.Div0.div_lt_upper_bound; lia).
    assert (c mod 16 < 16)%N by (apply N.mod_lt; lia).
    repeat constructor; apply HQ, hex_digit_ascii; assumption.
  - repeat constructor. now apply Hc.
Qed.

Lemma json_string_chars (s : pystr) :
  Forall (fun c => (32 <= c)%N -> Q c) s -> Forall Q (json_string s).
Proof.
  intros Hs. unfold json_string. apply Forall_app. split; [|apply Forall_app; split].
  - repeat constructor. apply HQ. lia.
  - induction Hs as [|c s Hc _ IH]; simpl; [constructor|].
    apply Forall_app. split; [now apply json_escape_char_chars|exact IH].
  - repeat constructor. apply HQ. lia.
Qed.

Lemma pretty_Z_chars (n : Z) : Forall Q (u (pretty n)).
Proof.
  assert (Hd : forall p, Forall Q (u (pretty (Zpos p)))).
  { intros p. eapply Forall_impl; [apply NameFacts.pretty_Zpos_digits|].
    unfold is_digit. intros c Hc. apply HQ. lia. }
  destruct n as [|p|p]; [now apply ascii_text|apply Hd|].
  change (u (pretty (Zneg p))) with (45%N :: u (pretty (Zpos p))).
  constructor; [apply HQ; lia|apply Hd].
Qed.

(** The characters of [json.dumps(j)]: those of the punctuation, of the
    escapes and of the digits are ASCII that is no control character; the
    others come from the strings and the floats of [j]. *)
Lemma json_dumps_chars (F : float -> Prop) :
  (forall x, F x -> Forall Q (float_repr rt x)) ->
  forall j,
    json_leaves (Forall (fun c => (32 <= c)%N -> Q c)) F j ->
    Forall Q (json_dumps rt j).
Proof.
  intros HF. induction j as [b|n|x|s|l IHl|kv IHkv] using json_ind_nested;
    intros Hj.
  - simpl. destruct b; now apply ascii_text.
  - apply pretty_Z_chars.
  - simpl. unfold json_float.
    repeat (match goal with
            | |- context [if ?b then _ else _] => destruct b
            end; [now apply ascii_text|]).
    now apply HF.
  - now apply json_string_chars.
  - apply json_leaves_list in Hj.
    change (json_dumps rt (JList l))
      with (u "["
            ++ (fix items (l : list json) : pystr :=
                  match l with
                  | [] => []
                  | x :: l' =>
                      match l' with
                      | [] => json_dumps rt x
                      | _ => json_dumps rt x ++ u ", " ++ items l'
                      end
                  end) l ++ u "]").
    apply Forall_app. split; [now apply ascii_text|].
    apply Forall_app. split; [|now apply ascii_text].
    induction IHl as [|x l Hx Hrest IH]; [constructor|].
    inversion Hj; subst. destruct l as [|y l]; [now apply Hx|].
    apply Forall_app. split; [now apply Hx|].
    apply Forall_app. split; [now apply ascii_text|]. now apply IH.
  - apply json_leaves_dict in Hj.
    change (json_dumps rt (JDict kv))
      with (u "{"
            ++ (fix members (kv : list (string * json)) : pystr :=
                  match kv with
                  | [] => []
                  | (k, v) :: kv' =>
                      match kv' with
                      | [] => json_string (u k) ++ u ": " ++ json_dumps rt v
                      | _ => json_string (u k) ++ u ": " ++ json_dumps rt v
                             ++ u ", " ++ members kv'
                      end
                  end) kv ++ u "}").
    assert (Hkey : forall k, Forall Q (json_string (u k))).
    { intros k. apply json_string_chars. apply Forall_forall.
      intros c Hc%list_elem_of_In Hge. apply HQ. split; [exact Hge|].
      unfold u in Hc. apply in_map_iff in Hc as (a & <- & _).
      apply N_ascii_bounded. }
    apply Forall_app. split; [now apply ascii_text|].
    apply Forall_app. split; [|now apply ascii_text].
    induction IHkv as [|[k v] kv Hv Hrest IH]; [constructor|].
    inversion Hj; subst. simpl in Hv.
    assert (Hmember : Forall Q (json_string (u k) ++ u ": " ++ json_dumps rt v)).
    { apply Forall_app. split; [apply Hkey|].
      apply Forall_app. split; [now apply ascii_text|]. now apply Hv. }
    destruct kv as [|p kv]; [exact Hmember|].
    rewrite !app_assoc. apply Forall_app. split.
    + apply Forall_app. split; [|now apply ascii_text].
      now rewrite <- !app_assoc.
    + now apply IH.
Qed.

End Characters.
End TextFacts.

(** ** The report of main, the viewer title and the encoding of the
    reports *)

Section ReportFacts.
Context (rt : runtime) (eng : engines).

Local Open Scope string_scope.
Local Open Scope list_scope.

Lemma printable_ascii (c : N) : (32 <= c < 256)%N -> printable c.
Proof. unfold printable. lia. Qed.

(** The text of an object without floats holds no control character
    below U+0020, whatever its strings hold. *)
Lemma report_line_printable (j : json) :
  json_leaves (fun _ => True) (fun _ => False) j ->
  Forall printable (json_dumps rt j).
Proof.
  intros Hj.
  apply (json_dumps_chars rt printable printable_ascii (fun _ => False)).
  - intros x [].
  - revert Hj. apply json_leaves_weaken.
    intros s _. apply List.Forall_forall. intros c _ Hc. exact Hc.
Qed.

Lemma handler_stdout (exc : exn) (fs : files) :
  out_exit (handler rt exc fs) = 1%Z
  /\ out_files (handler rt exc fs) = fs
  /\ out_stdout (handler rt exc fs)
     = match print_exn rt (json_dumps rt (failure_object rt exc)) with
       | None => [json_dumps rt (failure_object rt exc)]
       | Some _ => []
       end.
Proof.
  unfold handler, print_line, failure_object.
  now destruct (print_exn rt _).
Qed.

(** X12: whatever the pipeline does, main prints at most one line, and
    exactly one on a standard output that takes every line; a line it
    prints holds none of the control characters U+0000 to U+001F, so no
    line feed and no carriage return: those of the error message and of
    the traceback are escaped. *)
Theorem main_prints_at_most_one_line (input outdir name tess : pystr)
    (fs : files) :
  (length (out_stdout (main rt eng input outdir name tess fs)) <= 1)%nat
  /\ Forall (Forall printable)
       (out_stdout (main rt eng input outdir name tess fs))
  /\ ((forall s, print_exn rt s = None) ->
      length (out_stdout (main rt eng input outdir name tess fs)) = 1%nat).
Proof.
  assert (Hh : forall exc fs',
             (length (out_stdout (handler rt exc fs')) <= 1)%nat
             /\ Forall (Forall printable) (out_stdout (handler rt exc fs'))
             /\ ((forall s, print_exn rt s = None) ->
                 length (out_stdout (handler rt exc fs')) = 1%nat)).
  { intros exc fs'.
    destruct (handler_stdout exc fs') as (_ & _ & ->).
    destruct (print_exn rt _) eqn:E.
    - split; [simpl; lia|]. split; [constructor|].
      intros Hall. now rewrite Hall in E.
    - split; [simpl; lia|]. split; [|reflexivity].
      constructor; [|constructor].
      apply report_line_printable. simpl. tauto. }
  unfold main.
  destruct (run_pipeline rt eng input name tess fs) as [fs' [res|exc]] eqn:Hrun;
    [|apply Hh].
  unfold print_line. destruct (print_exn rt (json_dumps rt res)) eqn:E;
    [apply Hh|].
  cbv beta iota delta [out_stdout].
  split; [simpl; lia|]. split; [|reflexivity].
  constructor; [|constructor].
  destruct (run_pipeline_ok rt eng _ _ _ _ _ _ Hrun)
    as (doc & pages & tls & _ & _ & _ & _ & ->).
  apply report_line_printable. simpl. tauto.
Qed.

Lemma escape_char_safe (c : N) : Forall (fun c' => ~ markup c') (escape_char c).
Proof.
  unfold escape_char, markup.
  destruct (N.eqb_spec c 38), (N.eqb_spec c 60), (N.eqb_spec c 62),
    (N.eqb_spec c 34), (N.eqb_spec c 39);
    repeat constructor;
    first [ intros [?|[?|[?|?]]]; contradiction
          | vm_compute; intuition discriminate ].
Qed.

Lemma escape_char_inj (c1 c2 : N) (r1 r2 : pystr) :
  escape_char c1 ++ r1 = escape_char c2 ++ r2 -> c1 = c2 /\ r1 = r2.
Proof.
  unfold escape_char.
  destruct (N.eqb_spec c1 38), (N.eqb_spec c1 60), (N.eqb_spec c1 62),
    (N.eqb_spec c1 34), (N.eqb_spec c1 39); subst; try discriminate;
    destruct (N.eqb_spec c2 38), (N.eqb_spec c2 60), (N.eqb_spec c2 62),
      (N.eqb_spec c2 34), (N.eqb_spec c2 39); subst; try discriminate;
    simpl; intros H; injection H; intros; subst;
    try contradiction; try discriminate; auto.
Qed.

(** X13: the title put into the viewer page is escaped: it holds none of
    the characters <, >, double quote and single quote, two titles that
    differ stay different once escaped, and after a run that returns
    index.html holds the UTF-8 text of the viewer page of the escaped
    source name. *)
Theorem title_is_escaped_without_loss :
  (forall title, Forall (fun c => ~ markup c) (html_escape title))
  /\ (forall s t, html_escape s = html_escape t -> s = t)
  /\ (forall input name tess fs fs' res,
         run_pipeline rt eng input name tess fs = (fs', Ok res) ->
         exists data,
           utf8_encode (viewer_template rt (html_escape name)) = Some data
           /\ fs' !! u "index.html" = Some data).
Proof.
  split; [|split].
  - intros title. unfold html_escape.
    induction title as [|c s IH]; simpl; [constructor|].
    apply Forall_app. split; [apply escape_char_safe|exact IH].
  - unfold html_escape. induction s as [|c s IH]; intros [|d t]; simpl.
    + reflexivity.
    + intros H. apply (f_equal (@length N)) in H. rewrite length_app in H.
      unfold escape_char in H.
      repeat (match type of H with
              | context [if ?b then _ else _] => destruct b
              end); simpl in H; lia.
    + intros H. apply (f_equal (@length N)) in H. rewrite length_app in H.
      unfold escape_char in H.
      repeat (match type of H with
              | context [if ?b then _ else _] => destruct b
              end); simpl in H; lia.
    + intros H. apply escape_char_inj in H as [-> H]. f_equal. now apply IH.
  - intros input name tess fs fs' res Hrun.
    destruct (run_pipeline_stages rt eng _ _ _ _ _ _ Hrun)
      as [(e & _ & He & _)|(doc & fs1 & rl & _ & _ & Hrest)]; [discriminate|].
    destruct rl as [[pages tls]|e]; [|now destruct Hrest].
    destruct (utf8_encode (json_dumps rt (manifest_of name pages))) as [d1|];
      [|now destruct Hrest].
    destruct (utf8_encode (json_dumps rt (JList tls))) as [d2|];
      [|now destruct Hrest].
    destruct (utf8_encode (viewer_template rt (html_escape name))) as [d3|];
      [|now destruct Hrest].
    destruct Hrest as [_ ->]. exists d3. split; [reflexivity|].
    apply lookup_insert_eq.
Qed.

Lemma valid_code_point_encodes (c : N) :
  valid_code_point c -> exists b, utf8_char c = Some b.
Proof.
  unfold valid_code_point, utf8_char. intros Hc.
  destruct (N.ltb_spec c 128); [eauto|].
  destruct (N.ltb_spec c 2048); [eauto|].
  destruct (N.leb_spec 55296 c), (N.leb_spec c 57343); simpl; try lia;
    (destruct (N.ltb_spec c 65536); [eauto|]);
    (destruct (N.ltb_spec c 1114112); [eauto|lia]).
Qed.

Lemma surrogate_does_not_encode (c : N) : surrogate c -> utf8_char c = None.
Proof.
  unfold surrogate, utf8_char. intros Hc.
  destruct (N.ltb_spec c 128); [lia|].
  destruct (N.ltb_spec c 2048); [lia|].
  destruct (N.leb_spec 55296 c), (N.leb_spec c 57343); simpl; lia || reflexivity.
Qed.

Lemma encodable_encodes (s : pystr) :
  encodable s -> exists data, utf8_encode s = Some data.
Proof.
  induction 1 as [|c s Hc _ [data IH]]; simpl; [eauto|].
  destruct (valid_code_point_encodes c Hc) as [b ->]. rewrite IH. eauto.
Qed.

Lemma unencodable_char (s : pystr) (c : N) :
  In c s -> utf8_char c = None -> utf8_encode s = None.
Proof.
  induction s as [|a s IH]; intros Hin Hc; [destruct Hin|].
  simpl. destruct Hin as [->|Hin].
  - now rewrite Hc.
  - rewrite (IH Hin Hc). now destruct (utf8_char a).
Qed.

End ReportFacts.

(** ** When the reports encode *)

Section EncodingFacts.
Context (rt : runtime) (eng : engines).

Local Open Scope string_scope.
Local Open Scope list_scope.

Lemma valid_ascii (c : N) : (32 <= c < 256)%N -> valid_code_point c.
Proof. unfold valid_code_point. lia. Qed.

(** What [json_dumps_chars] asks of a string, from its being encodable. *)
Lemma encodable_leaf (s : pystr) :
  encodable s -> Forall (fun c => (32 <= c)%N -> valid_code_point c) s.
Proof. intros H. eapply Forall_impl; [exact H|]. auto. Qed.

Lemma strip_encodable (s : pystr) : encodable s -> encodable (strip s).
Proof.
  unfold encodable.
  destruct (StripFacts.strip_trimmed s) as [(before & after & Hs & _) _].
  rewrite Hs at 1. rewrite !Forall_app. tauto.
Qed.

Lemma image_name_encodable (k : nat) :
  encodable (image_name (Z.of_nat k + 1)).
Proof.
  rewrite NameFacts.page_number_pos. unfold image_name, encodable.
  apply Forall_app; split; [|apply Forall_app; split].
  - apply ascii_text; [apply valid_ascii|reflexivity].
  - eapply Forall_impl; [apply NameFacts.format_03d_digits|].
    unfold is_digit, valid_code_point. intros c Hc. lia.
  - apply ascii_text; [apply valid_ascii|reflexivity].
Qed.

Lemma Forall2_Forall_given {A B} (P : A -> Prop) (R : A -> B -> Prop)
    (Q : B -> Prop) (l : list A) (k : list B) :
  Forall P l -> Forall2 R l k -> (forall a b, P a -> R a b -> Q b) ->
  Forall Q k.
Proof.
  intros HP HR HQ. induction HR; inversion HP; subst; constructor; eauto.
Qed.

Lemma Forall_filter_keeps {A} (P : A -> Prop) (f : A -> bool) (l : list A) :
  Forall P l -> Forall P (List.filter f l).
Proof.
  induction 1 as [|a l Ha _ IH]; simpl; [constructor|].
  destruct (f a); [now constructor|exact IH].
Qed.

(** The records of a page whose span texts and fonts encode hold only
    strings that encode. *)
Lemma page_ok_leaves (tess : pystr) (k : nat) (pg : page) (rec tl : json) :
  page_ok rt eng tess k pg rec tl ->
  page_encodable pg ->
  json_leaves (Forall (fun c => (32 <= c)%N -> valid_code_point c))
    (fun _ => True) rec
  /\ json_leaves (Forall (fun c => (32 <= c)%N -> valid_code_point c))
       (fun _ => True) tl.
Proof.
  intros [pix sx sy td1 td2 ocr boxes Hpix Hscale Htd1 Htd2 Hocr Hboxes] Henc.
  specialize (Henc td1 Htd1).
  apply (Forall_filter_keeps _ span_survives) in Henc.
  destruct (span_loop_spec sx sy td1) as [Hlayer Hitems].
  assert (Hl : Forall (json_leaves (Forall (fun c => (32 <= c)%N -> valid_code_point c))
                         (fun _ => True)) (fst (span_loop sx sy td1))).
  { eapply Forall2_Forall_given; [exact Henc|exact Hlayer|].
    intros sp item [Ht Hf] (x0 & y0 & x1 & y1 & _ & ->). simpl.
    repeat split; apply encodable_leaf; [now apply strip_encodable|exact Hf]. }
  assert (Hi : Forall (json_leaves (Forall (fun c => (32 <= c)%N -> valid_code_point c))
                         (fun _ => True)) (snd (span_loop sx sy td1))).
  { eapply Forall2_Forall_given; [exact Henc|exact Hitems|].
    intros sp item [Ht Hf] (x0 & y0 & x1 & y1 & _ & ->). simpl.
    repeat split; apply encodable_leaf; [now apply strip_encodable|exact Hf]. }
  assert (Hb : Forall (json_leaves (Forall (fun c => (32 <= c)%N -> valid_code_point c))
                         (fun _ => True)) boxes).
  { eapply Forall2_Forall_right; [apply (ocr_loop_spec rt ocr boxes Hboxes)|].
    intros j box (conf & l & t & w & h & _ & _ & _ & _ & _ & ->). simpl. tauto. }
  assert (Hg : Forall (json_leaves (Forall (fun c => (32 <= c)%N -> valid_code_point c))
                         (fun _ => True)) (image_loop sx sy td2)).
  { eapply Forall2_Forall_right; [apply (image_loop_spec sx sy td2)|].
    intros b box (x0 & y0 & x1 & y1 & _ & ->). simpl. tauto. }
  split.
  - apply json_leaves_dict.
    do 3 (constructor; [exact I|]).
    constructor.
    { cbn [snd json_leaves]. rewrite NameFacts.image_path_is_image_name.
      apply encodable_leaf, image_name_encodable. }
    do 3 (constructor; [now apply json_leaves_list|]).
    constructor.
  - apply json_leaves_dict.
    constructor; [exact I|].
    constructor; [now apply json_leaves_list|].
    constructor.
Qed.

Lemma pages_ok_leaves (tess : pystr) (i : nat) (doc : list page)
    (pages tls : list json) :
  pages_ok rt eng tess i doc pages tls ->
  Forall page_encodable doc ->
  Forall (json_leaves (Forall (fun c => (32 <= c)%N -> valid_code_point c))
            (fun _ => True)) pages
  /\ Forall (json_leaves (Forall (fun c => (32 <= c)%N -> valid_code_point c))
               (fun _ => True)) tls.
Proof.
  induction 1 as [|i pg doc rec pages tl tls Hpage _ IH]; intros Henc.
  - split; constructor.
  - inversion Henc; subst.
    destruct (page_ok_leaves _ _ _ _ _ Hpage) as [Hr Ht]; [assumption|].
    destruct IH as [IHp IHt]; [assumption|].
    split; constructor; assumption.
Qed.

Lemma html_escape_encodable (s : pystr) :
  encodable s -> encodable (html_escape s).
Proof.
  unfold html_escape, encodable.
  induction 1 as [|c s Hc _ IH]; [constructor|].
  change (Forall valid_code_point (escape_char c ++ concat (map escape_char s))).
  apply Forall_app. split; [|exact IH].
  unfold escape_char.
  repeat (match goal with
          | |- context [if ?b then _ else _] => destruct b
          end; [apply ascii_text; [apply valid_ascii|reflexivity]|]).
  constructor; [exact Hc|constructor].
Qed.

(** X14: the three report texts of a document whose pages went through
    encode in UTF-8 whenever the source name, the span texts and fonts
    and the renderings of the runtime hold no code point that UTF-8
    refuses: on such a document no [write_text] of the run can raise
    UnicodeEncodeError. *)
Theorem reports_of_encodable_pages_encode (name tess : pystr)
    (doc : list page) (pages tls : list json) :
  pages_ok rt eng tess 0 doc pages tls ->
  Forall page_encodable doc ->
  runtime_encodable rt ->
  encodable name ->
  exists d1 d2 d3,
    utf8_encode (json_dumps rt (manifest_of name pages)) = Some d1
    /\ utf8_encode (json_dumps rt (JList tls)) = Some d2
    /\ utf8_encode (viewer_template rt (html_escape name)) = Some d3.
Proof.
  intros Hok Henc [Hfloat Hview] Hname.
  destruct (pages_ok_leaves _ _ _ _ _ Hok Henc) as [Hrecs Htls].
  assert (H1 : encodable (json_dumps rt (manifest_of name pages))).
  { apply (json_dumps_chars rt valid_code_point valid_ascii (fun _ => True)).
    - intros x _. apply Hfloat.
    - apply json_leaves_dict.
      constructor; [now apply encodable_leaf|].
      constructor; [exact I|].
      constructor; [now apply json_leaves_list|].
      constructor. }
  assert (H2 : encodable (json_dumps rt (JList tls))).
  { apply (json_dumps_chars rt valid_code_point valid_ascii (fun _ => True)).
    - intros x _. apply Hfloat.
    - now apply json_leaves_list. }
  assert (H3 : encodable (viewer_template rt (html_escape name))).
  { apply Hview. now apply html_escape_encodable. }
  destruct (encodable_encodes _ H1) as [d1 Hd1].
  destruct (encodable_encodes _ H2) as [d2 Hd2].
  destruct (encodable_encodes _ H3) as [d3 Hd3].
  now exists d1, d2, d3.
Qed.

Lemma json_string_keeps (s : pystr) (c : N) :
  In c s -> surrogate c -> In c (json_string s).
Proof.
  intros Hin Hc. unfold json_string. apply in_or_app. right.
  apply in_or_app. left. apply in_concat.
  exists (json_escape_char c). split; [now apply in_map|].
  unfold json_escape_char, surrogate in *.
  repeat (match goal with
          | |- context [if (?a =? ?b)%N then _ else _] =>
              destruct (N.eqb_spec a b); [lia|]
          end).
  destruct (N.ltb_spec c 32); [lia|]. now left.
Qed.

(** X15: a source name that holds a surrogate code point makes the run
    fail at the manifest even when every page got through: the run raises
    UnicodeEncodeError, manifest.json is left empty, and text-layer.json
    and index.html are never written. *)
Theorem surrogate_in_the_name_fails_the_manifest (input name tess : pystr)
    (fs : files) (doc : list page) (c : N) :
  fitz_open eng input = Ok doc ->
  Forall (page_well_behaved rt eng tess) doc ->
  In c name -> surrogate c ->
  exists fs',
    run_pipeline rt eng input name tess fs = (fs', Raise UnicodeEncodeError)
    /\ fs' !! u "manifest.json" = Some []
    /\ fs' !! u "text-layer.json" = fs !! u "text-layer.json"
    /\ fs' !! u "index.html" = fs !! u "index.html".
Proof.
  intros Hdoc Hpages Hin Hc.
  destruct (page_loop_returns rt eng tess doc Hpages 0%nat ([], []) fs)
    as (fs1 & [pages tls] & Hloop).
  assert (H1 : utf8_encode (json_dumps rt (manifest_of name pages)) = None).
  { apply (unencodable_char _ c); [|now apply surrogate_does_not_encode].
    unfold manifest_of.
    change (json_dumps rt
              (JDict [("sourceFile", JStr name);
                      ("pageCount", JInt (Z.of_nat (length pages)));
                      ("pages", JList pages)]))
      with (u "{"
            ++ (json_string (u "sourceFile") ++ u ": " ++ json_string name
                ++ u ", " ++ json_string (u "pageCount") ++ u ": "
                ++ json_dumps rt (JInt (Z.of_nat (length pages)))
                ++ u ", " ++ json_string (u "pages") ++ u ": "
                ++ json_dumps rt (JList pages)) ++ u "}").
    apply in_or_app. right. apply in_or_app. left.
    apply in_or_app. right. apply in_or_app. right.
    apply in_or_app. left. now apply json_string_keeps. }
  destruct (run_pipeline rt eng input name tess fs) as [fs' r] eqn:Hrun.
  destruct (run_pipeline_stages rt eng _ _ _ _ _ _ Hrun)
    as [(e & He & _)|(doc' & fs1' & rl & Hdoc' & Hloop' & Hrest)];
    [congruence|].
  rewrite Hdoc in Hdoc'. injection Hdoc' as <-.
  rewrite Hloop in Hloop'. injection Hloop' as <- <-.
  rewrite H1 in Hrest. destruct Hrest as [-> ->].
  exists (<[u "manifest.json" := []]> fs1). split; [reflexivity|].
  split; [apply lookup_insert_eq|].
  split; (rewrite lookup_insert_ne by (vm_compute; discriminate);
          apply (page_loop_keeps_other_paths rt eng _ _ _ _ _ _ _ _ Hloop);
          apply NameFacts.report_path_is_no_asset_path; simpl; auto).
Qed.

End EncodingFacts.

(** ** The invocation boundary *)

Section Boundary.
Context (rt : runtime) (eng : engines).

Local Open Scope string_scope.
Local Open Scope list_scope.

Lemma ascii_check (s : pystr) :
  forallb (fun c => (c <? 128)%N) s = true ->
  Forall (fun c => (c < 128)%N) s.
Proof.
  rewrite forallb_forall, List.Forall_forall.
  intros H c Hc. now apply N.ltb_lt, H.
Qed.

(** The object of a successful run prints in ASCII. *)
Lemma success_line_ascii (n : nat) :
  Forall (fun c => (c < 128)%N) (json_dumps rt (success_object n)).
Proof.
  change (json_dumps rt (success_object n))
    with (u "{"
          ++ (json_string (u "ok") ++ u ": " ++ u "true" ++ u ", "
              ++ json_string (u "pages") ++ u ": "
              ++ u (pretty (Z.of_nat n))
              ++ u ", " ++ json_string (u "preview") ++ u ": "
              ++ json_string (u "index.html"))
          ++ u "}").
  apply Forall_app; split; [now apply ascii_check|].
  apply Forall_app; split; [|now apply ascii_check].
  do 6 (apply Forall_app; split; [now apply ascii_check|]).
  apply Forall_app; split; [|now apply ascii_check].
  eapply Forall_impl; [apply NameFacts.pretty_Z_digits; lia|].
  unfold is_digit. intros c Hc. lia.
Qed.

(** C10, as amended: when the pipeline returns, its result is the object
    {ok: true, pages: n, preview: "index.html"}, n being the number of
    pages of the document; the process prints that one object and ends
    with status 0 whenever standard output takes the line, which every
    standard output that takes ASCII does (were the line refused, the
    exception of print would be handled like one of the pipeline).  When
    the pipeline raises, the process ends with a status that is not 0; it
    has printed the one object {ok: false, error: the message, traceback:
    the trace} when standard output takes that line, and nothing at all
    when print raises on it. *)
Theorem main_reports_the_outcome (input outdir name tess : pystr)
    (fs : files) :
  (forall fs' res,
      run_pipeline rt eng input name tess fs = (fs', Ok res) ->
      exists doc,
        fitz_open eng input = Ok doc
        /\ res = success_object (length doc)
        /\ (stdout_ascii rt -> print_exn rt (json_dumps rt res) = None)
        /\ (print_exn rt (json_dumps rt res) = None ->
            out_stdout (main rt eng input outdir name tess fs)
            = [json_dumps rt (success_object (length doc))]
            /\ out_exit (main rt eng input outdir name tess fs) = 0%Z)
        /\ (forall exc,
               print_exn rt (json_dumps rt res) = Some exc ->
               out_stdout (main rt eng input outdir name tess fs)
               = match print_exn rt (json_dumps rt (failure_object rt exc))
                 with
                 | None => [json_dumps rt (failure_object rt exc)]
                 | Some _ => []
                 end
               /\ out_exit (main rt eng input outdir name tess fs) <> 0%Z))
  /\ (forall fs' exc,
         run_pipeline rt eng input name tess fs = (fs', Raise exc) ->
         out_exit (main rt eng input outdir name tess fs) <> 0%Z
         /\ (print_exn rt (json_dumps rt (failure_object rt exc)) = None ->
             out_stdout (main rt eng input outdir name tess fs)
             = [json_dumps rt (failure_object rt exc)])
         /\ (forall exc',
                print_exn rt (json_dumps rt (failure_object rt exc))
                = Some exc' ->
                out_stdout (main rt eng input outdir name tess fs) = [])).
Proof.
  split.
  - intros fs' res Hrun.
    destruct (run_pipeline_ok rt eng _ _ _ _ _ _ Hrun)
      as (doc & pages & tls & Hdoc & Hok & _ & _ & ->).
    destruct (pages_ok_length rt eng _ _ _ _ _ Hok) as [Hlen _].
    rewrite Hlen in *.
    exists doc. split; [exact Hdoc|]. split; [reflexivity|].
    split; [intros Hascii; apply Hascii, success_line_ascii|].
    unfold main, success_object. rewrite Hrun. unfold print_line.
    split; [intros ->; now split|].
    intros exc ->.
    destruct (handler_stdout rt exc fs') as (-> & _ & ->).
    now split.
  - intros fs' exc Hrun. unfold main. rewrite Hrun.
    destruct (handler_stdout rt exc fs') as (-> & _ & ->).
    split; [discriminate|]. split; [now intros ->|now intros exc' ->].
Qed.

End Boundary.

(** C10, the counterexample: a document that cannot be opened and whose
    name holds a lone surrogate; the message of the failure carries the
    name, standard output (in UTF-8) refuses the report, and the process
    fails without having printed anything. *)
Lemma unencodable_failure_is_not_reported :
  (exists msg,
      run_pipeline Sample.sample_runtime MoreSamples.unreadable_engines
        MoreSamples.surrogate_name (u "report.pdf") [] ∅
      = (∅, Raise (EngineError msg)))
  /\ out_stdout MoreSamples.unreadable_main = []
  /\ out_exit MoreSamples.unreadable_main = 1%Z.
Proof.
  split; [eexists; vm_compute; reflexivity|].
  split; vm_compute; reflexivity.
Qed.

(** ** The properties at the sample document *)

Module SampleFacts.

Local Open Scope string_scope.
Local Open Scope list_scope.

Lemma encodable_check (s : pystr) :
  forallb valid_code_pointb s = true -> encodable s.
Proof.
  unfold encodable. induction s as [|c s IH]; simpl; [constructor|].
  intros [Hc Hs]%andb_prop. constructor; [|now apply IH].
  unfold valid_code_pointb in Hc. unfold valid_code_point.
  apply orb_prop in Hc as [Hc|[H1 H2]%andb_prop].
  - left. now apply N.ltb_lt.
  - right. split; now apply N.ltb_lt.
Qed.

Lemma sample_page_well_behaved (tess : pystr) :
  page_well_behaved Sample.sample_runtime Sample.sample_engines tess
    Sample.sample_page.
Proof.
  exists {| pix_width := 1224; pix_height := 1584;
            pix_png := [137; 80; 78; 71]%N |},
    Sample.sample_text_dict, Sample.sample_text_dict, Sample.sample_ocr.
  split; [reflexivity|].
  split; [vm_compute; discriminate|].
  split; [vm_compute; discriminate|].
  split; [reflexivity|].
  split; [reflexivity|].
  split; [reflexivity|].
  exact sample_table_is_well_formed.
Qed.

Lemma sample_page_encodable : page_encodable Sample.sample_page.
Proof.
  intros td [= <-].
  change (text_spans Sample.sample_text_dict)
    with [Sample.span_hello; Sample.span_blank; Sample.span_three;
          Sample.span_flipped].
  do 4 (constructor; [split; apply encodable_check; reflexivity|]).
  constructor.
Qed.

Lemma sample_runtime_encodable : runtime_encodable Sample.sample_runtime.
Proof.
  split.
  - intros x. cbv beta iota delta [float_repr Sample.sample_runtime
                                     Sample.sample_float_repr].
    destruct (PrimFloat.is_nan x); [apply encodable_check; reflexivity|].
    destruct (Sample.float_integral x) as [[s z]|];
      [|apply encodable_check; reflexivity].
    destruct (z <? 10 ^ 16)%Z; [|apply encodable_check; reflexivity].
    apply Forall_app. split; [|apply Forall_app; split].
    + destruct s; [apply encodable_check; reflexivity|constructor].
    + apply (pretty_Z_chars valid_code_point valid_ascii).
    + apply encodable_check; reflexivity.
  - intros title Htitle.
    cbv beta iota delta [viewer_template Sample.sample_runtime].
    apply Forall_app. split; [apply encodable_check; reflexivity|].
    apply Forall_app. split; [exact Htitle|].
    apply encodable_check; reflexivity.
Qed.

End SampleFacts.

Lemma manifest_points_at_the_saved_rasters_witness :
  snd Sample.sample_run = Ok Sample.sample_result
  /\ every_page Sample.sample_runtime Sample.sample_engines
       (u "in.pdf") (u "report.pdf") (fst Sample.sample_run)
       (fun k pg rec _ =>
          exists pix,
            page_get_pixmap pg = Ok pix
            /\ jfield "imagePath" rec
               = Some (JStr (image_name (Z.of_nat k + 1)))
            /\ fst Sample.sample_run !! image_name (Z.of_nat k + 1)
               = Some (pix_png pix)
            /\ jfield "renderWidth" rec = Some (JInt (pix_width pix))
            /\ jfield "renderHeight" rec = Some (JInt (pix_height pix))).
Proof.
  split; [vm_compute; reflexivity|].
  apply (manifest_points_at_the_saved_rasters
           Sample.sample_runtime Sample.sample_engines
           (u "in.pdf") (u "report.pdf") [] ∅ _ Sample.sample_result).
  exact sample_run_returns.
Defined.

Lemma run_touches_only_its_own_files_witness :
  ~ asset_path (u "notes.txt")
  /\ ~ In (u "notes.txt") report_paths
  /\ fst MoreSamples.sample_run_over_old_files !! u "notes.txt"
     = MoreSamples.old_files !! u "notes.txt".
Proof.
  assert (H1 : ~ asset_path (u "notes.txt")).
  { intros [rest H]. vm_compute in H. discriminate H. }
  assert (H2 : ~ In (u "notes.txt") report_paths).
  { vm_compute. intuition discriminate. }
  split; [exact H1|]. split; [exact H2|].
  apply (run_touches_only_its_own_files
           Sample.sample_runtime Sample.sample_engines
           (u "in.pdf") (u "report.pdf") [] MoreSamples.old_files
           _ (snd MoreSamples.sample_run_over_old_files));
    [apply surjective_pairing|exact H1|exact H2].
Defined.

Lemma failed_page_leaves_no_report_witness :
  exists fs' e,
    MoreSamples.broken_run = (fs', Raise e)
    /\ Forall (fun path => fs' !! path = MoreSamples.old_files !! path)
         report_paths.
Proof.
  apply (failed_page_leaves_no_report
           Sample.sample_runtime Sample.sample_engines
           (u "broken.pdf") (u "report.pdf") [] MoreSamples.old_files
           [Sample.sample_page] [] Sample.broken_page).
  - vm_compute. reflexivity.
  - constructor; [apply SampleFacts.sample_page_well_behaved|constructor].
  - intros rec tl Hok. inversion Hok. discriminate.
Defined.

Lemma run_stops_at_the_first_failing_page_witness :
  exists fs',
    MoreSamples.broken_run
    = (fs', Raise (EngineError (u "cannot render page")))
    /\ (forall k pg',
           [Sample.sample_page] !! k = Some pg' ->
           exists pix,
             page_get_pixmap pg' = Ok pix
             /\ fs' !! image_name (Z.of_nat k + 1) = Some (pix_png pix))
    /\ (forall k,
           (length [Sample.sample_page] <= k)%nat ->
           fs' !! image_name (Z.of_nat k + 1)
           = MoreSamples.old_files !! image_name (Z.of_nat k + 1)).
Proof.
  apply (run_stops_at_the_first_failing_page
           Sample.sample_runtime Sample.sample_engines
           (u "broken.pdf") (u "report.pdf") [] MoreSamples.old_files
           [Sample.sample_page] [] Sample.broken_page).
  - vm_compute. reflexivity.
  - constructor; [apply SampleFacts.sample_page_well_behaved|constructor].
  - reflexivity.
Defined.

Lemma noise_rows_never_read_the_geometry_witness :
  ocr_left MoreSamples.ocr_noise_only = []
  /\ ocr_loop Sample.sample_runtime MoreSamples.ocr_noise_only = Ok [].
Proof.
  split; [reflexivity|].
  apply (noise_rows_never_read_the_geometry
           Sample.sample_runtime MoreSamples.ocr_noise_only).
  - simpl. lia.
  - repeat constructor.
Defined.

Lemma short_confidence_column_raises_witness :
  exists e,
    ocr_loop Sample.sample_runtime MoreSamples.ocr_ragged = Raise e
    /\ ocr_loop_error e.
Proof.
  apply (short_confidence_column_raises
           Sample.sample_runtime MoreSamples.ocr_ragged).
  simpl. lia.
Defined.

Lemma reports_of_encodable_pages_encode_witness :
  exists pages tls,
    pages_ok Sample.sample_runtime Sample.sample_engines [] 0
      [Sample.sample_page; Sample.sample_page] pages tls
    /\ exists d1 d2 d3,
         utf8_encode
           (json_dumps Sample.sample_runtime
              (manifest_of (u "report.pdf") pages)) = Some d1
         /\ utf8_encode (json_dumps Sample.sample_runtime (JList tls))
            = Some d2
         /\ utf8_encode
              (viewer_template Sample.sample_runtime
                 (html_escape (u "report.pdf"))) = Some d3.
Proof.
  destruct (run_pipeline_ok _ _ _ _ _ _ _ _ sample_run_returns)
    as (doc & pages & tls & Hdoc & Hok & _).
  vm_compute in Hdoc. injection Hdoc as <-.
  exists pages, tls. split; [exact Hok|].
  apply (reports_of_encodable_pages_encode
           Sample.sample_runtime Sample.sample_engines
           (u "report.pdf") []
           [Sample.sample_page; Sample.sample_page] pages tls Hok).
  - repeat (constructor; [apply SampleFacts.sample_page_encodable|]).
    constructor.
  - exact SampleFacts.sample_runtime_encodable.
  - apply SampleFacts.encodable_check. reflexivity.
Defined.

Lemma surrogate_in_the_name_fails_the_manifest_witness :
  exists fs',
    MoreSamples.surrogate_run = (fs', Raise UnicodeEncodeError)
    /\ fs' !! u "manifest.json" = Some []
    /\ fs' !! u "text-layer.json"
       = MoreSamples.old_files !! u "text-layer.json"
    /\ fs' !! u "index.html" = MoreSamples.old_files !! u "index.html".
Proof.
  apply (surrogate_in_the_name_fails_the_manifest
           Sample.sample_runtime Sample.sample_engines
           (u "in.pdf") MoreSamples.surrogate_name [] MoreSamples.old_files
           [Sample.sample_page; Sample.sample_page] 56448%N).
  - vm_compute. reflexivity.
  - repeat (constructor; [apply SampleFacts.sample_page_well_behaved|]).
    constructor.
  - vm_compute. tauto.
  - unfold surrogate. lia.
Defined.
